(** * git4go: the object database (odb.go) and its loose backend (odb_loose.go)

    A shallow embedding of the Go sources.  Go values are modelled as
    follows.

    - [[]byte] is [list byte]; [data[i]] is the list lookup [data !! i],
      and an index out of range is the run-time panic of Go.
    - [string] is [string]; [string(b)] and [[]byte(s)] are the
      conversions of the standard library.
    - [int], [uint] and [uint64] are [Z]; where the source can wrap
      around (the [uint64] size of a header) the wrap is written out.
    - a call either returns a value, returns an [error], or panics:
      this is the three-way type [result].
    - the file system is an explicit value of type [FileSystem] read by
      the [os] and [ioutil] calls; [Write] returns the new file system. *)

From Stdlib Require Import ZArith Lia Permutation Sorted.
From Stdlib Require Import Strings.Byte Strings.Ascii.
From Stdlib Require Strings.String.
From stdpp Require Import base option list gmap strings sorting.

Local Open Scope Z_scope.

(** ** Results of Go calls *)

(** The [error] values the two files create or pass on. *)
Inductive error : Type :=
| ErrorString (msg : string)          (* errors.New(msg) *)
| PathError (op path : string)        (* *os.PathError of os and ioutil *)
| NumErrorSyntax (input : string)     (* strconv.ErrSyntax *)
| NumErrorRange (input : string)      (* strconv.ErrRange *)
| ZlibHeaderError                     (* zlib.ErrHeader and the like *)
| InvalidFormat (input : string)      (* NewOid on malformed text *)
| VisitorError (code : Z).            (* an error made by a caller's callback *)

(** The run-time panics of Go that the two files can raise. *)
Inductive panic : Type :=
| IndexOutOfRange (index : Z) (len : nat)
| SliceBoundsOutOfRange (bound : Z) (len : nat)
| NilDereference.

Inductive result (A : Type) : Type :=
| Ok (a : A)
| Err (e : error)
| Panic (p : panic).

Arguments Ok {A} a.
Arguments Err {A} e.
Arguments Panic {A} p.

Definition bind {A B : Type} (r : result A) (k : A -> result B) : result B :=
  match r with
  | Ok a => k a
  | Err e => Err e
  | Panic p => Panic p
  end.

Notation "'let*' x ':=' r 'in' k" := (bind r (fun x => k))
  (at level 10, x name, r at level 100, k at level 200).
Notation "'let*' ' x ':=' r 'in' k" := (bind r (fun x => k))
  (at level 10, x strict pattern, r at level 100, k at level 200).

Definition is_ok {A : Type} (r : result A) : bool :=
  match r with Ok _ => true | _ => false end.

Definition is_err {A : Type} (r : result A) : bool :=
  match r with Err _ => true | _ => false end.

(** ** Bytes and machine integers *)

Definition byte_to_Z (b : byte) : Z := Z.of_N (Byte.to_N b).

#[global] Instance byte_eq_decision : EqDecision byte := Byte.byte_eq_dec.

(** [data[i]] with Go's bounds check. *)
Definition index (data : list byte) (i : nat) : result byte :=
  match data !! i with
  | Some b => Ok b
  | None => Panic (IndexOutOfRange (Z.of_nat i) (length data))
  end.

Definition wrap64 (z : Z) : Z := z mod 2 ^ 64.

(** ** Object types *)

(** Modelled from the spec: [ObjectType] and its members, whose
    declaration is not among the sources.  It is an integer type (the
    source converts [(c >> 4) & 7] to it); the spec names the members
    Bad, Commit, Tree, Blob, Tag, OfsDelta and RefDelta.  The numbers
    are those of the object format, where the three type bits of a
    compact header are the type. *)
Definition ObjectType : Type := Z.

Definition ObjectBad : ObjectType := -1.
Definition ObjectCommit : ObjectType := 1.
Definition ObjectTree : ObjectType := 2.
Definition ObjectBlob : ObjectType := 3.
Definition ObjectTag : ObjectType := 4.
Definition ObjectOfsDelta : ObjectType := 6.
Definition ObjectRefDelta : ObjectType := 7.

(** Modelled from the spec: [TypeString2Type], the conversion from the
    lowercase name token; Bad is the answer for an unknown token. *)
Definition TypeString2Type (s : string) : ObjectType :=
  if String.eqb s "commit" then ObjectCommit
  else if String.eqb s "tree" then ObjectTree
  else if String.eqb s "blob" then ObjectBlob
  else if String.eqb s "tag" then ObjectTag
  else ObjectBad.

(** Modelled from the spec: [ObjectType.String], the other direction of
    the same table. *)
Definition ObjectType_String (t : ObjectType) : string :=
  if t =? ObjectCommit then "commit"
  else if t =? ObjectTree then "tree"
  else if t =? ObjectBlob then "blob"
  else if t =? ObjectTag then "tag"
  else "".

Definition valid_type (t : ObjectType) : bool :=
  (t =? ObjectCommit) || (t =? ObjectTree) || (t =? ObjectBlob) || (t =? ObjectTag).

(** ** The compact binary header: [parseBinaryObjectHeader]

    The loop of the source,
<<
    for (c & 0x80) != 0 {
        if len(data) <= offset { return ObjectBad, 0, 0, errors.New(...) }
        offset++
        size += (uint64(data[offset]) & 0x7f) << shift
        shift += 7
    }
>>
    one iteration per unit of fuel.  [c] is assigned once, before the
    loop, and the body never changes it.  [None] is "out of fuel". *)
Fixpoint binaryHeaderLoop (fuel : nat) (data : list byte) (c : Z)
    (size : Z) (shift : Z) (offset : nat) : option (result (Z * nat)) :=
  if Z.land c 0x80 =? 0 then Some (Ok (size, offset))
  else
    match fuel with
    | O => None
    | S fuel' =>
        if (length data <=? offset)%nat then
          Some (Err (ErrorString "parseBinaryObjectHeader: input is too short"))
        else
          let offset := S offset in
          match index data offset with
          | Ok b =>
              let size := wrap64 (size + Z.shiftl (Z.land (byte_to_Z b) 0x7f) shift) in
              let shift := wrap64 (shift + 7) in
              binaryHeaderLoop fuel' data c size shift offset
          | Err e => Some (Err e)
          | Panic p => Some (Panic p)
          end
    end.

Definition parseBinaryObjectHeader_fuel (fuel : nat) (data : list byte)
    : option (result (ObjectType * Z * nat)) :=
  match data with
  | [] => Some (Err (ErrorString "parseBinaryObjectHeader: input is empty"))
  | b0 :: _ =>
      let c := byte_to_Z b0 in
      let resultType : ObjectType := Z.land (Z.shiftr c 4) 7 in
      let size := Z.land c 15 in
      match binaryHeaderLoop fuel data c size 4 1 with
      | Some (Ok (size, offset)) => Some (Ok (resultType, size, offset))
      | Some (Err e) => Some (Err e)
      | Some (Panic p) => Some (Panic p)
      | None => None
      end
  end.

(** Every iteration moves [offset] one byte on and the loop is left
    before [offset] passes [len(data)], so [len(data)] iterations are
    enough ([parseBinaryObjectHeader_fuel_enough] below): the default is
    never taken. *)
Definition parseBinaryObjectHeader (data : list byte)
    : result (ObjectType * Z * nat) :=
  default (Panic NilDereference) (parseBinaryObjectHeader_fuel (length data) data).

(** The decoding that the format description gives, for comparison:
    every header byte is examined, the low 7 bits of each continuation
    byte go to bit 4, 11, 18, ..., and the first byte with a clear top
    bit is the last one. *)
Fixpoint compactSizeTail (rest : list byte) (shift : Z) (offset : nat)
    : option (Z * nat) :=
  match rest with
  | [] => None
  | b :: rest' =>
      let v := Z.shiftl (Z.land (byte_to_Z b) 0x7f) shift in
      if Z.land (byte_to_Z b) 0x80 =? 0 then Some (v, S offset)
      else
        match compactSizeTail rest' (shift + 7) (S offset) with
        | Some (hi, off) => Some (v + hi, off)
        | None => None
        end
  end.

Definition compactHeader_format (data : list byte) : option (ObjectType * Z * nat) :=
  match data with
  | [] => None
  | b0 :: rest =>
      let c := byte_to_Z b0 in
      let ty := Z.land (Z.shiftr c 4) 7 in
      if Z.land c 0x80 =? 0 then Some (ty, Z.land c 15, 1%nat)
      else
        match compactSizeTail rest 4 1 with
        | Some (hi, off) => Some (ty, wrap64 (Z.land c 15 + hi), off)
        | None => None
        end
  end.

(** ** The legacy text header: [parseObjectHeader] *)

(** [strconv.ParseUint(s, 10, 64)]: the digit loop of the Go library.
    [cutoff] is [maxUint64/10 + 1]; the test [n1 < n || n1 > maxVal] of
    the library, made on wrapped [uint64] values, is [n1 > maxVal] on
    unbounded ones. *)
Definition maxUint64 : Z := 2 ^ 64 - 1.

Definition digit (ch : ascii) : option Z :=
  let n := Z.of_N (N_of_ascii ch) in
  if (48 <=? n) && (n <=? 57) then Some (n - 48) else None.

Fixpoint parseUintLoop (s0 : string) (s : string) (n : Z) : result Z :=
  match s with
  | EmptyString => Ok n
  | String ch rest =>
      match digit ch with
      | None => Err (NumErrorSyntax s0)
      | Some d =>
          if n >=? maxUint64 / 10 + 1 then Err (NumErrorRange s0)
          else
            let n1 := n * 10 + d in
            if n1 >? maxUint64 then Err (NumErrorRange s0)
            else parseUintLoop s0 rest n1
      end
  end.

Definition ParseUint (s : string) : result Z :=
  match s with
  | EmptyString => Err (NumErrorSyntax s)
  | _ => parseUintLoop s s 0
  end.

(** [data[lo:hi]] for [lo <= hi <= len(data)]. *)
Definition slice (lo hi : nat) (data : list byte) : list byte :=
  take (hi - lo) (drop lo data).

(** The first loop: [rest] is [data[offset:]].  It returns
    [(resultType, typeEnd, offset)] as they are when the loop is left. *)
Fixpoint typeLoop (data rest : list byte) (offset : nat) : ObjectType * nat * nat :=
  match rest with
  | [] => (ObjectBad, 0%nat, offset)
  | b :: rest' =>
      if Byte.eqb b x20 then
        (TypeString2Type (String.string_of_list_byte (take offset data)), S offset, S offset)
      else typeLoop data rest' (S offset)
  end.

(** The second loop, with the [return] that follows it. *)
Fixpoint sizeLoop (data rest : list byte) (resultType : ObjectType)
    (typeEnd offset : nat) : result (ObjectType * Z * nat) :=
  match rest with
  | [] => Ok (resultType, 0, offset)
  | b :: rest' =>
      if Byte.eqb b x00 then
        match ParseUint (String.string_of_list_byte (slice typeEnd offset data)) with
        | Ok size => Ok (resultType, size, S offset)
        | Err e => Err e
        | Panic p => Panic p
        end
      else sizeLoop data rest' resultType typeEnd (S offset)
  end.

Definition parseObjectHeader (data : list byte) : result (ObjectType * Z * nat) :=
  let '(resultType, typeEnd, offset) := typeLoop data data 0 in
  sizeLoop data (drop offset data) resultType typeEnd offset.

(** ** Object identifiers *)

(** Modelled from the spec: [Oid], declared outside the sources at
    hand, a digest of 20 bytes ([Oid_wf]). *)
Record Oid : Type := mkOid { oid_bytes : list byte }.

#[global] Instance Oid_eq_decision : EqDecision Oid.
Proof. solve_decision. Defined.

Definition Oid_wf (oid : Oid) : Prop := length (oid_bytes oid) = 20%nat.

Definition hexval (ch : ascii) : option N :=
  let n := N_of_ascii ch in
  if (48 <=? n)%N && (n <=? 57)%N then Some (n - 48)%N
  else if (97 <=? n)%N && (n <=? 102)%N then Some (n - 87)%N
  else if (65 <=? n)%N && (n <=? 70)%N then Some (n - 55)%N
  else None.

Definition hexdigit (n : N) : ascii :=
  if (n <? 10)%N then ascii_of_N (48 + n) else ascii_of_N (87 + n).

Fixpoint decodeHex (s : string) : option (list byte) :=
  match s with
  | EmptyString => Some []
  | String a EmptyString => None
  | String a (String b rest) =>
      match hexval a, hexval b, decodeHex rest with
      | Some hi, Some lo, Some bs =>
          match Byte.of_N (16 * hi + lo) with
          | Some x => Some (x :: bs)
          | None => None
          end
      | _, _, _ => None
      end
  end.

Fixpoint encodeHex (bs : list byte) : string :=
  match bs with
  | [] => EmptyString
  | b :: bs' =>
      let n := Byte.to_N b in
      String (hexdigit (n / 16)) (String (hexdigit (n mod 16)) (encodeHex bs'))
  end.

(** Modelled from the spec: [NewOid], which accepts exactly 40
    hexadecimal characters of either case and fails with InvalidFormat
    on anything else. *)
Definition NewOid (hex : string) : result Oid :=
  if (String.length hex =? 40)%nat then
    match decodeHex hex with
    | Some bs => Ok (mkOid bs)
    | None => Err (InvalidFormat hex)
    end
  else Err (InvalidFormat hex).

(** Modelled from the spec: [Oid.String], the 40 lowercase hexadecimal
    characters. *)
Definition Oid_String (oid : Oid) : string := encodeHex (oid_bytes oid).

(** Modelled from the spec: [Oid.PathFormat], the first 2 characters
    of the text (the directory) and the remaining 38 (the file). *)
Definition PathFormat (oid : Oid) : string * string :=
  let hex := Oid_String oid in
  (String.substring 0 2 hex, String.substring 2 (String.length hex - 2) hex).

(** ** Strings and paths of the Go library *)

(** [s[:n]] with Go's bounds check. *)
Definition sliceTo (s : string) (n : Z) : result string :=
  if (0 <=? n) && (n <=? Z.of_nat (String.length s))
  then Ok (String.substring 0 (Z.to_nat n) s)
  else Panic (SliceBoundsOutOfRange n (String.length s)).

(** [strings.HasPrefix(s, prefix)]. *)
Definition HasPrefix (s prefix : string) : bool := String.prefix prefix s.

Fixpoint splitOn (sep : ascii) (s : string) : list string :=
  match s with
  | EmptyString => [EmptyString]
  | String c rest =>
      let parts := splitOn sep rest in
      if Ascii.eqb c sep then EmptyString :: parts
      else
        match parts with
        | p :: ps => String c p :: ps
        | [] => [String c EmptyString]
        end
  end.

Definition joinWith (sep : string) (parts : list string) : string :=
  match parts with
  | [] => EmptyString
  | p :: ps => fold_left (fun acc q => acc +:+ sep +:+ q) ps p
  end.

(** [filepath.Clean], the lexical cleaning of a slash-separated path:
    empty and "." elements go, an inner ".." goes with the element
    before it, and a ".." at the start of a rooted path goes.  [stack]
    holds the elements kept so far, last first. *)
Fixpoint cleanElems (rooted : bool) (elems : list string) (stack : list string) : list string :=
  match elems with
  | [] => rev stack
  | e :: rest =>
      if String.eqb e "" || String.eqb e "." then cleanElems rooted rest stack
      else if String.eqb e ".." then
        match stack with
        | top :: below =>
            if String.eqb top ".." then cleanElems rooted rest (e :: stack)
            else cleanElems rooted rest below
        | [] => if rooted then cleanElems rooted rest [] else cleanElems rooted rest [e]
        end
      else cleanElems rooted rest (e :: stack)
  end.

Definition Clean (path : string) : string :=
  let rooted := String.prefix "/" path in
  let body := joinWith "/" (cleanElems rooted (splitOn "/"%char path) []) in
  if rooted then "/" +:+ body
  else if String.eqb body "" then "." else body.

(** [filepath.Join]: empty elements are ignored, the rest is joined by
    slashes and cleaned; no element at all gives the empty string. *)
Definition Join (elem : list string) : string :=
  match filter (fun e => e ≠ EmptyString) elem with
  | [] => EmptyString
  | parts => Clean (joinWith "/" parts)
  end.

(** [bufio.Scanner] with the default split function [ScanLines]: the
    text is cut at every newline, a carriage return before the newline
    is dropped, and a last line without newline counts when it is not
    empty.  (The limit of 64 KiB on the length of a line is left out.) *)
Definition dropCR (line : string) : string :=
  let n := String.length line in
  if String.eqb (String.substring (n - 1) 1 line) (String "013"%char EmptyString)
  then String.substring 0 (n - 1) line else line.

Definition scanLines (text : string) : list string :=
  let parts := splitOn "010"%char text in
  let parts :=
    match last parts with
    | Some EmptyString => take (length parts - 1) parts
    | _ => parts
    end in
  dropCR <$> parts.

(** ** The file system

    What the [os] and [ioutil] calls of the sources see.  Paths are
    keys as the sources build them (with [Join], hence cleaned).  A
    directory has an identity and the names that [Readdirnames] returns,
    in that order; a regular file has an identity and its bytes.  The
    identity is what [os.SameFile] compares, so two paths may name one
    directory. *)
Record FileSystem : Type := mkFS {
  fs_dirs : gmap string (nat * list string);
  fs_files : gmap string (nat * list byte)
}.

(** [os.FileInfo], as far as the sources use it. *)
Definition FileInfo : Type := nat.

Definition SameFile (a b : FileInfo) : bool := Nat.eqb a b.

Definition Stat (fs : FileSystem) (path : string) : result FileInfo :=
  match fs_dirs fs !! path, fs_files fs !! path with
  | Some (id, _), _ => Ok id
  | None, Some (id, _) => Ok id
  | None, None => Err (PathError "stat" path)
  end.

(** [os.IsNotExist(err)] for the [err] of a [Stat]. *)
Definition IsNotExist {A : Type} (r : result A) : bool := is_err r.

Definition ReadFile (fs : FileSystem) (path : string) : result (list byte) :=
  match fs_files fs !! path, fs_dirs fs !! path with
  | Some (_, content), _ => Ok content
  | None, Some _ => Err (PathError "read" path)
  | None, None => Err (PathError "open" path)
  end.

(** [os.Open(path)] followed by [Readdirnames(0)]. *)
Definition Readdirnames (fs : FileSystem) (path : string) : result (list string) :=
  match fs_dirs fs !! path, fs_files fs !! path with
  | Some (_, names), _ => Ok names
  | None, Some _ => Err (PathError "readdirent" path)
  | None, None => Err (PathError "open" path)
  end.

Definition fresh_id (fs : FileSystem) : nat :=
  S (Nat.max (map_fold (fun _ d m => Nat.max (fst d) m) 0%nat (fs_dirs fs))
             (map_fold (fun _ f m => Nat.max (fst f) m) 0%nat (fs_files fs))).

Definition parentOf (prefix : list string) : string :=
  match prefix with
  | [] => "."
  | [EmptyString] => "/"
  | _ => joinWith "/" prefix
  end.

(** [os.MkdirAll]: every missing directory on the way to [path] is made,
    top down, and entered in the listing of its parent; a regular file
    on the way ends the walk (the sources drop the error). *)
Fixpoint mkdirElems (fs : FileSystem) (prefix elems : list string) : FileSystem :=
  match elems with
  | [] => fs
  | e :: rest =>
      if String.eqb e "" then mkdirElems fs (prefix ++ [e]) rest
      else
        let path := joinWith "/" (prefix ++ [e]) in
        match fs_dirs fs !! path, fs_files fs !! path with
        | Some _, _ => mkdirElems fs (prefix ++ [e]) rest
        | None, Some _ => fs
        | None, None =>
            let listed :=
              alter (fun d => (fst d, snd d ++ [e])) (parentOf prefix) (fs_dirs fs) in
            let fs' := mkFS (<[path := (fresh_id fs, [])]> listed) (fs_files fs) in
            mkdirElems fs' (prefix ++ [e]) rest
        end
  end.

Definition MkdirAll (fs : FileSystem) (path : string) : FileSystem :=
  mkdirElems fs [] (splitOn "/"%char path).

(** [os.OpenFile(path, os.O_WRONLY, perm)] and the writes that follow:
    without [O_CREATE] the call opens existing files only, and without
    [O_TRUNC] the bytes written replace the head of the old content.
    When the call fails the file handle is nil, every write to it
    returns an error, and nothing changes. *)
Definition writeExisting (fs : FileSystem) (path : string) (bytes : list byte) : FileSystem :=
  match fs_files fs !! path with
  | Some (id, old) =>
      mkFS (fs_dirs fs) (<[path := (id, bytes ++ drop (length bytes) old)]> (fs_files fs))
  | None => fs
  end.

(** ** zlib

    The compression library is a parameter of the development.
    [newReaderOk content] says that [zlib.NewReader] accepts the head of
    [content]; [inflate content] is everything the reader delivers
    before the end of the stream or its first error (the sources drop
    the result of [io.Copy]); [deflate bytes] is what a [Writer] has
    emitted for [bytes] once it is closed. *)
Record zlib : Type := mkZlib {
  newReaderOk : list byte -> bool;
  inflate : list byte -> list byte;
  deflate : list byte -> list byte
}.

(** ** The loose backend *)

(** The struct is declared outside the sources at hand; its fields are
    the two that [Read] fills. *)
Record OdbObject : Type := mkOdbObject {
  Type_ : ObjectType;
  Data : list byte
}.

(** Modelled from the spec: [OdbBackendBase], the descriptor every
    backend embeds: priority, the alternates flag and the identity of
    the directory. *)
Record OdbBackendBase : Type := mkBase {
  priority : Z;
  asAlternates : bool;
  dirInfo : option FileInfo
}.

Record OdbBackendLoose : Type := mkLoose {
  base : OdbBackendBase;
  objectsDir : string;
  dirMode : Z;
  fileMode : Z;
  doFileSync : bool
}.

(** Modelled from the spec: the two permission modes, declared outside
    the sources at hand.  The spec names the fields they fill and not
    their values; the values are those of git, and no function below
    reads the fields. *)
Definition GitObjectDirMode : Z := 493.
Definition GitObjectFileMode : Z := 292.

Definition NewOdbBackendLoose (objectsDir : string) (compressionLevel : Z)
    (doFileSync : bool) (dirMode fileMode : Z) : OdbBackendLoose :=
  let dirMode := if dirMode =? 0 then GitObjectDirMode else dirMode in
  let fileMode := if fileMode =? 0 then GitObjectFileMode else fileMode in
  mkLoose (mkBase 0 false None) objectsDir dirMode fileMode doFileSync.

(** Modelled from the spec: [InitBackend] of the embedded descriptor,
    which stores the three values. *)
Definition Loose_InitBackend (o : OdbBackendLoose) (priority : Z)
    (asAlternates : bool) (dirInfo : FileInfo) : OdbBackendLoose :=
  mkLoose (mkBase priority asAlternates (Some dirInfo))
          (objectsDir o) (dirMode o) (fileMode o) (doFileSync o).

(** Modelled from the spec: [SameDirectory] of the embedded descriptor,
    the comparison of directory identities. *)
Definition Loose_SameDirectory (o : OdbBackendLoose) (info : FileInfo) : bool :=
  match dirInfo (base o) with
  | Some mine => SameFile mine info
  | None => false
  end.

Definition isZlibCompressedData (data : list byte) : result bool :=
  let* b0 := index data 0 in
  let* b1 := index data 1 in
  let w := Z.shiftl (byte_to_Z b0) 8 + byte_to_Z b1 in
  Ok ((Z.land (byte_to_Z b0) 0x8F =? 0x08) && (w mod 31 =? 0)).

(** [fmt]'s [%d] for a length. *)
Fixpoint decimalLoop (fuel : nat) (n : Z) (acc : string) : string :=
  let acc := String (ascii_of_N (48 + Z.to_N (n mod 10))) acc in
  match fuel with
  | O => acc
  | S fuel' => if n <? 10 then acc else decimalLoop fuel' (n / 10) acc
  end.

Definition decimal (n : Z) : string :=
  decimalLoop (Z.to_nat (Z.log2 n)) n EmptyString.

Section Loose.

(** The compression library, and [hash], which is declared outside
    the sources at hand: it gives the Oid of a payload and its type,
    or an error. *)
Variable z : zlib.
Variable hash : list byte -> ObjectType -> result Oid.

Definition objectPath (o : OdbBackendLoose) (oid : Oid) : string :=
  let '(dirName, fileName) := PathFormat oid in
  Join [objectsDir o; dirName; fileName].

Definition Loose_Read (fs : FileSystem) (o : OdbBackendLoose) (oid : Oid)
    : result OdbObject :=
  let '(dirName, fileName) := PathFormat oid in
  let* content := ReadFile fs (Join [objectsDir o; dirName; fileName]) in
  let* compressed := isZlibCompressedData content in
  if compressed then
    if newReaderOk z content then
      let data := inflate z content in
      let* '(objType, _, offset) := parseObjectHeader data in
      Ok (mkOdbObject objType (drop offset data))
    else Err ZlibHeaderError
  else
    let* '(objType, _, offset) := parseBinaryObjectHeader content in
    (* reader, err := zlib.NewReader(...); defer reader.Close(): the
       deferred call is set up before err is looked at, and with an
       error the reader is nil *)
    if newReaderOk z (drop offset content) then
      Ok (mkOdbObject objType (inflate z (drop offset content)))
    else Panic NilDereference.

Definition Loose_ReadHeader (fs : FileSystem) (o : OdbBackendLoose) (oid : Oid)
    : result (ObjectType * Z) :=
  let '(dirName, fileName) := PathFormat oid in
  let* content := ReadFile fs (Join [objectsDir o; dirName; fileName]) in
  let* compressed := isZlibCompressedData content in
  if compressed then
    if newReaderOk z content then
      (* io.CopyN(&buffer, reader, 64) *)
      let data := take 64 (inflate z content) in
      let* '(objType, size, _) := parseObjectHeader data in
      Ok (objType, size)
    else Err ZlibHeaderError
  else
    let* '(objType, size, _) := parseBinaryObjectHeader content in
    Ok (objType, size).

(** The envelope [Write] sends to its zlib writer. *)
Definition envelope (data : list byte) (objType : ObjectType) : list byte :=
  String.list_byte_of_string
    (ObjectType_String objType +:+ " " +:+ decimal (Z.of_nat (length data)))
  ++ x00 :: data.

Definition Loose_Write (fs : FileSystem) (o : OdbBackendLoose)
    (data : list byte) (objType : ObjectType) : FileSystem * result Oid :=
  match hash data objType with
  | Ok oid =>
      let '(dirName, fileName) := PathFormat oid in
      let dirPath := Join [objectsDir o; dirName] in
      let fs := MkdirAll fs dirPath in
      let fs := writeExisting fs (Join [dirPath; fileName])
                  (deflate z (envelope data objType)) in
      (fs, Ok oid)
  | Err e => (fs, Err e)
  | Panic p => (fs, Panic p)
  end.

Definition Loose_Exists (fs : FileSystem) (o : OdbBackendLoose) (oid : Oid) : bool :=
  let '(dirName, fileName) := PathFormat oid in
  negb (IsNotExist (Stat fs (Join [objectsDir o; dirName; fileName]))).

(** The loop of [ExistsPrefix] over the directory names: [found] and
    [foundId] after the last name. *)
Definition countMatches (prefix : string) (names : list string) : Z * string :=
  fold_left
    (fun '(found, foundId) dirChildName =>
       if HasPrefix dirChildName prefix then (found + 1, dirChildName)
       else (found, foundId))
    names (0, EmptyString).

Definition Loose_ExistsPrefix (fs : FileSystem) (o : OdbBackendLoose)
    (oid : Oid) (length : Z) : result Oid :=
  let '(dirName, fileName) := PathFormat oid in
  let* prefix := sliceTo fileName (length - 2) in
  let* dirChildNames := Readdirnames fs (Join [objectsDir o; dirName]) in
  let '(found, foundId) := countMatches prefix dirChildNames in
  if found =? 0 then Err (ErrorString "no matching loose object for prefix")
  else if found =? 1 then NewOid (dirName +:+ foundId)
  else Err (ErrorString "multiple matches in loose objects").

Definition Loose_ReadPrefix (fs : FileSystem) (o : OdbBackendLoose)
    (oid : Oid) (length : Z) : result (Oid * OdbObject) :=
  let* foundId := Loose_ExistsPrefix fs o oid length in
  let* obj := Loose_Read fs o foundId in
  Ok (foundId, obj).

End Loose.

(** [ForEach].  The callback is a Go closure: it works on a state of its
    own, here [S], and returns an error or nil. *)
Section ForEach.

Context {S : Type}.
Variable callback : Oid -> S -> S * option error.

Fixpoint forEachChild (dirName : string) (childItems : list string) (s : S)
    : S * result unit :=
  match childItems with
  | [] => (s, Ok tt)
  | childItem :: rest =>
      if negb (String.length childItem =? 38)%nat then forEachChild dirName rest s
      else
        match NewOid (dirName +:+ childItem) with
        | Ok oid =>
            match callback oid s with
            | (s', Some e) => (s', Err e)
            | (s', None) => forEachChild dirName rest s'
            end
        | Err e => (s, Err e)
        | Panic p => (s, Panic p)
        end
  end.

Fixpoint forEachDir (fs : FileSystem) (objectsDir : string) (dirNames : list string)
    (s : S) : S * result unit :=
  match dirNames with
  | [] => (s, Ok tt)
  | dirName :: rest =>
      if negb (String.length dirName =? 2)%nat then forEachDir fs objectsDir rest s
      else
        match Readdirnames fs (Join [objectsDir; dirName]) with
        | Ok childItems =>
            match forEachChild dirName childItems s with
            | (s', Ok _) => forEachDir fs objectsDir rest s'
            | failed => failed
            end
        | Err e => (s, Err e)
        | Panic p => (s, Panic p)
        end
  end.

Definition Loose_ForEach (fs : FileSystem) (o : OdbBackendLoose) (s : S)
    : S * result unit :=
  match Readdirnames fs (objectsDir o) with
  | Ok dirNames => forEachDir fs (objectsDir o) dirNames s
  | Err e => (s, Err e)
  | Panic p => (s, Panic p)
  end.

End ForEach.

(** ** Fixtures for the examples

    A stand-in compressor that keeps the payload as it is behind the two
    header bytes [0x78 0x9c], an Oid (the blob of the repository's test),
    and a hash that knows this Oid only. *)
Definition storedZlib : zlib :=
  mkZlib (fun content => bool_decide (take 2 content = [x78; x9c]))
         (fun content => drop 2 content)
         (fun bytes => x78 :: x9c :: bytes).

Definition readmeOid : Oid :=
  mkOid [x02; x66; x16; x3a; x49; xe2; x80; xc4; xf5; xed;
         x1e; x08; xfa; xcd; x36; xa2; xbd; x71; x6b; xcf].

Definition readmeHash (data : list byte) (objType : ObjectType) : result Oid :=
  Ok readmeOid.

Definition looseAt (dir : string) : OdbBackendLoose :=
  NewOdbBackendLoose dir (-1) false 0 0.

(** An object directory with the bucket [02] and, in it, a file of one
    byte under the name of [readmeOid]. *)
Definition truncatedStore : FileSystem :=
  mkFS {[ "objects" := (1%nat, ["02"]); "objects/02" := (2%nat, ["66163a49e280c4f5ed1e08facd36a2bd716bcf"]) ]}
       {[ "objects/02/66163a49e280c4f5ed1e08facd36a2bd716bcf" := (3%nat, [x78]) ]}.

(** An object directory without any object. *)
Definition emptyStore : FileSystem :=
  mkFS {[ "objects" := (1%nat, []) ]} ∅.

(** A store with three objects in the bucket [02]; two of them share
    the first four characters of their text. *)
Definition bucketStore : FileSystem :=
  mkFS {[ "objects" := (1%nat, ["02"; "info"]);
          "objects/02" := (2%nat, ["66163a49e280c4f5ed1e08facd36a2bd716bcf";
                                   "66aa3a49e280c4f5ed1e08facd36a2bd716bcf";
                                   "77aa3a49e280c4f5ed1e08facd36a2bd716bcf"]);
          "objects/info" := (3%nat, []) ]}
       ∅.

(** ** What [ForEach] is to enumerate

    The entries of the two-level layout, as the description of
    [ForEach] has them: the names [dirName + childItem] for every
    directory name of 2 characters and, in its listing, every name of
    38 characters, in listing order. *)
Definition dirListing (fs : FileSystem) (path : string) : list string :=
  match Readdirnames fs path with
  | Ok names => names
  | _ => []
  end.

Definition qualifyingNames (fs : FileSystem) (objectsDir : string)
    (dirNames : list string) : list string :=
  concat
    (map (fun dirName =>
            map (fun childItem => dirName +:+ childItem)
                (filter (fun c => String.length c = 38%nat)
                        (dirListing fs (Join [objectsDir; dirName]))))
         (filter (fun d => String.length d = 2%nat) dirNames)).


(** A visitor that records every call and answers by [verdict]. *)
Definition recording (verdict : Oid -> option error) (oid : Oid) (calls : list Oid)
    : list Oid * option error :=
  (calls ++ [oid], verdict oid).

(** An object directory with three objects in two buckets, the
    directories [info] and [pack], a stray file at the top and a stray
    file in a bucket. *)
Definition mixedStore : FileSystem :=
  mkFS {[ "objects" := (1%nat, ["02"; "info"; "README"; "pack"; "a1"]);
          "objects/02" := (2%nat, ["66163a49e280c4f5ed1e08facd36a2bd716bcf";
                                   "tmp_obj_x";
                                   "77aa3a49e280c4f5ed1e08facd36a2bd716bcf"]);
          "objects/info" := (3%nat, ["alternates"]);
          "objects/pack" := (4%nat, []);
          "objects/a1" := (5%nat, ["00000000000000000000000000000000000000"]) ]}
       {[ "objects/README" := (6%nat, []) ]}.

Definition oid_0277 : Oid :=
  mkOid [x02; x77; xaa; x3a; x49; xe2; x80; xc4; xf5; xed;
         x1e; x08; xfa; xcd; x36; xa2; xbd; x71; x6b; xcf].

Definition oid_a100 : Oid :=
  mkOid [xa1; x00; x00; x00; x00; x00; x00; x00; x00; x00;
         x00; x00; x00; x00; x00; x00; x00; x00; x00; x00].


(** ** Stored objects

    The two layouts of an object file.  The legacy file is one
    compressed stream of the envelope that [Write] formats; the compact
    file is a binary header in the clear, as the format has it, and then
    the compressed payload. *)
Inductive stored (z : zlib) (content : list byte) (objType : ObjectType)
    (payload : list byte) : Prop :=
| stored_legacy :
    isZlibCompressedData content = Ok true ->
    newReaderOk z content = true ->
    valid_type objType = true ->
    inflate z content = envelope payload objType ->
    stored z content objType payload
| stored_compact (hdr body : list byte) :
    isZlibCompressedData content = Ok false ->
    content = hdr ++ body ->
    compactHeader_format content
      = Some (objType, Z.of_nat (length payload), length hdr) ->
    newReaderOk z body = true ->
    inflate z body = payload ->
    stored z content objType payload.

(** The type and size that a result of [Read] implies. *)
Definition headerOf (r : result OdbObject) : result (ObjectType * Z) :=
  match r with
  | Ok obj => Ok (Type_ obj, Z.of_nat (length (Data obj)))
  | Err e => Err e
  | Panic p => Panic p
  end.

(** The blob of the repository's test in the legacy layout, and a blob
    of five bytes in the compact layout (header byte [0x35]). *)
Definition readmeStore : FileSystem :=
  mkFS {[ "objects" := (1%nat, ["02"]);
          "objects/02" := (2%nat, ["66163a49e280c4f5ed1e08facd36a2bd716bcf";
                                   "77aa3a49e280c4f5ed1e08facd36a2bd716bcf"]) ]}
       {[ "objects/02/66163a49e280c4f5ed1e08facd36a2bd716bcf"
            := (3%nat, deflate storedZlib
                         (envelope (String.list_byte_of_string "Testing a readme.txt")
                                   ObjectBlob));
          "objects/02/77aa3a49e280c4f5ed1e08facd36a2bd716bcf"
            := (4%nat, x35 :: deflate storedZlib (String.list_byte_of_string "hello")) ]}.

(** ** The backend interface and the dispatcher *)

(** Modelled from the spec: the interface [OdbBackend], declared outside
    the sources at hand, with the methods that odb.go calls.  A method
    may panic, like any Go call; [Exists] is taken not to.
    [backend_priority] reads the priority that [InitBackend] stored: it
    is what the ordering of the backend list compares. *)
Class OdbBackend (B : Type) : Type := {
  backend_Read : FileSystem -> B -> Oid -> result OdbObject;
  backend_ReadPrefix : FileSystem -> B -> Oid -> Z -> result (Oid * OdbObject);
  backend_ReadHeader : FileSystem -> B -> Oid -> result (ObjectType * Z);
  backend_Exists : FileSystem -> B -> Oid -> bool;
  backend_ExistsPrefix : FileSystem -> B -> Oid -> Z -> result Oid;
  backend_SameDirectory : B -> FileInfo -> bool;
  backend_InitBackend : B -> Z -> bool -> FileInfo -> B;
  backend_priority : B -> Z
}.

Record Odb (B : Type) : Type := mkOdb { backends : list B }.

Arguments mkOdb {B} backends.
Arguments backends {B} o.

Definition GIT_LOOSE_PRIORITY : Z := 1.
Definition GIT_PACKED_PRIORITY : Z := 2.
Definition GIT_ALTERNATES_MAX_DEPTH : Z := 5.
Definition GIT_ALTERNATES_FILE : string := "info/alternates".

Section Dispatcher.

Context {B : Type} `{OdbBackend B}.
Variable fs : FileSystem.

(** The loop shared by [Read], [ReadPrefix] and [ReadHeader]:
<<
    for _, backend := range o.backends {
        x, err := backend.M(...)
        if err == nil { return x, nil }
    }
    return ..., errors.New(...)
>> *)
Fixpoint firstSuccess {A : Type} (call : B -> result A) (noMatch : error)
    (backends : list B) : result A :=
  match backends with
  | [] => Err noMatch
  | backend :: rest =>
      match call backend with
      | Ok x => Ok x
      | Err _ => firstSuccess call noMatch rest
      | Panic p => Panic p
      end
  end.

Definition Odb_Exists (o : Odb B) (oid : Oid) : bool :=
  existsb (fun backend => backend_Exists fs backend oid) (backends o).

Definition Odb_Read (o : Odb B) (oid : Oid) : result OdbObject :=
  firstSuccess (fun backend => backend_Read fs backend oid)
    (ErrorString ("Odb.Read: no match for id: " +:+ Oid_String oid))
    (backends o).

Definition Odb_ReadPrefix (o : Odb B) (oid : Oid) (length : Z)
    : result (Oid * OdbObject) :=
  firstSuccess (fun backend => backend_ReadPrefix fs backend oid length)
    (ErrorString ("Odb.ReadPrefix: no match for id: " +:+ Oid_String oid))
    (backends o).

Definition Odb_ReadHeader (o : Odb B) (oid : Oid) : result (ObjectType * Z) :=
  firstSuccess (fun backend => backend_ReadHeader fs backend oid)
    (ErrorString ("Odb.ReadHeader: no match for id: " +:+ Oid_String oid))
    (backends o).

End Dispatcher.

(** The loose backend behind the interface. *)
#[global] Instance OdbBackendLoose_backend (z : zlib) : OdbBackend OdbBackendLoose := {
  backend_Read := Loose_Read z;
  backend_ReadPrefix := Loose_ReadPrefix z;
  backend_ReadHeader := Loose_ReadHeader z;
  backend_Exists := Loose_Exists;
  backend_ExistsPrefix := Loose_ExistsPrefix;
  backend_SameDirectory := Loose_SameDirectory;
  backend_InitBackend := Loose_InitBackend;
  backend_priority := fun o => priority (base o)
}.

(** ** Registration of backends *)

(** Modelled from the spec: [OdbBackends.Less], the ordering that
    [sort.Sort] is given; the list is kept ascending by priority. *)
Definition OdbBackends_Less {B : Type} `{OdbBackend B} (x y : B) : bool :=
  backend_priority x <? backend_priority y.

Section Registration.

(** [sort.Sort] of the Go library, by its contract: it is given the
    [Less] of the list and returns the list rearranged. *)
Variable sort_Sort : forall A : Type, (A -> A -> bool) -> list A -> list A.

Definition addBackendInternal {B : Type} `{OdbBackend B} (o : Odb B) (backend : B)
    (priority : Z) (asAlternates : bool) (dirInfo : FileInfo) : Odb B :=
  let backend := backend_InitBackend backend priority asAlternates dirInfo in
  mkOdb (sort_Sort B OdbBackends_Less (backends o ++ [backend])).

(** A registration, and a sequence of them. *)
Definition register {B : Type} `{OdbBackend B} (o : Odb B)
    (r : B * Z * bool * FileInfo) : Odb B :=
  let '(backend, priority, asAlternates, dirInfo) := r in
  addBackendInternal o backend priority asAlternates dirInfo.

Definition registerAll {B : Type} `{OdbBackend B} (o : Odb B)
    (rs : list (B * Z * bool * FileInfo)) : Odb B :=
  fold_left register rs o.

Definition initialised {B : Type} `{OdbBackend B} (r : B * Z * bool * FileInfo) : B :=
  let '(backend, priority, asAlternates, dirInfo) := r in
  backend_InitBackend backend priority asAlternates dirInfo.

End Registration.

(** ** Loading the default backends and the alternates *)

Definition firstChar (line : string) : option ascii := String.get 0 line.

(** The lines that the scanner delivers for the file at [path]; a
    directory cannot be read and delivers none. *)
Definition fileLines (fs : FileSystem) (path : string) : list string :=
  match fs_files fs !! path with
  | Some (_, content) => scanLines (String.string_of_list_byte content)
  | None => []
  end.

Section Alternates.

Variable z : zlib.
Variable sort_Sort : forall A : Type, (A -> A -> bool) -> list A -> list A.
Variable fs : FileSystem.

(** The loop of [loadAlternates] over the lines; [add o path] is the
    call [o.AddDefaultBackends(path, true, alternateDepth+1)], and
    [None] is "out of fuel". *)
Fixpoint alternatesLoop
    (add : Odb OdbBackendLoose -> string -> option (Odb OdbBackendLoose * result unit))
    (objectsDir : string) (alternateDepth : Z) (lines : list string)
    (o : Odb OdbBackendLoose) : option (Odb OdbBackendLoose * result unit) :=
  match lines with
  | [] => Some (o, Ok tt)
  | line :: rest =>
      if (String.length line =? 0)%nat || bool_decide (firstChar line = Some "#"%char)
      then alternatesLoop add objectsDir alternateDepth rest o
      else if bool_decide (firstChar line = Some "."%char) && (alternateDepth >? 0)
      then
        let alternatesPath2 := Join [objectsDir; line] in
        match add o alternatesPath2 with
        | Some (o', Ok _) => alternatesLoop add objectsDir alternateDepth rest o'
        | Some (o', Err e) => Some (o', Err e)
        | Some (o', Panic p) => Some (o', Panic p)
        | None => None
        end
      else alternatesLoop add objectsDir alternateDepth rest o
  end.

Definition loadAlternates_with
    (add : Odb OdbBackendLoose -> string -> option (Odb OdbBackendLoose * result unit))
    (o : Odb OdbBackendLoose) (objectsDir : string) (alternateDepth : Z)
    : option (Odb OdbBackendLoose * result unit) :=
  if alternateDepth >? GIT_ALTERNATES_MAX_DEPTH then Some (o, Ok tt)
  else
    let alternatePath := Join [objectsDir; GIT_ALTERNATES_FILE] in
    if IsNotExist (Stat fs alternatePath) then Some (o, Ok tt)
    else alternatesLoop add objectsDir alternateDepth (fileLines fs alternatePath) o.

Fixpoint AddDefaultBackends_fuel (fuel : nat) (o : Odb OdbBackendLoose)
    (objectsDir : string) (asAlternates : bool) (alternateDepth : Z)
    : option (Odb OdbBackendLoose * result unit) :=
  match fuel with
  | O => None
  | S fuel' =>
      match Stat fs objectsDir with
      | Ok info =>
          if existsb (fun backend => Loose_SameDirectory backend info) (backends o)
          then Some (o, Ok tt)
          else
            let loose := NewOdbBackendLoose objectsDir (-1) false 0 0 in
            let o := addBackendInternal (H := OdbBackendLoose_backend z) sort_Sort
                       o loose GIT_LOOSE_PRIORITY asAlternates info in
            (* the result of loadAlternates is dropped *)
            match loadAlternates_with
                    (fun o' path =>
                       AddDefaultBackends_fuel fuel' o' path true (alternateDepth + 1))
                    o objectsDir alternateDepth with
            | Some (o', _) => Some (o', Ok tt)
            | None => None
            end
      | _ =>
          Some (o, Err (ErrorString
                          ("Failed to load object database in '" +:+ objectsDir +:+ "'")))
      end
  end.

Definition loadAlternates_fuel (fuel : nat) (o : Odb OdbBackendLoose)
    (objectsDir : string) (alternateDepth : Z)
    : option (Odb OdbBackendLoose * result unit) :=
  loadAlternates_with
    (fun o' path => AddDefaultBackends_fuel fuel o' path true (alternateDepth + 1))
    o objectsDir alternateDepth.

(** A recursive call is made at depths 1 to 5 only and goes one level
    deeper, so seven levels of fuel are enough at any depth
    ([AddDefaultBackends_fuel_enough] below): the default is never
    taken. *)
Definition AddDefaultBackends (o : Odb OdbBackendLoose) (objectsDir : string)
    (asAlternates : bool) (alternateDepth : Z) : Odb OdbBackendLoose * result unit :=
  default (o, Panic NilDereference)
          (AddDefaultBackends_fuel 7 o objectsDir asAlternates alternateDepth).

Definition loadAlternates (o : Odb OdbBackendLoose) (objectsDir : string)
    (alternateDepth : Z) : Odb OdbBackendLoose * result unit :=
  default (o, Panic NilDereference) (loadAlternates_fuel 7 o objectsDir alternateDepth).

Definition OdbOpen (objectsDir : string) : Odb OdbBackendLoose * result unit :=
  AddDefaultBackends (mkOdb []) objectsDir false 0.

End Alternates.

(** ** [sort.Sort] on short lists

    The contract of [sort.Sort] promises the order and nothing about
    equal elements.  What the library runs on a slice of at most 12
    elements is short enough to write down; in Go 1.18 it is one pass
    that compares and swaps the elements six places apart, and then
    [insertionSort]:
<<
    for i := a + 6; i < b; i++ {
        if data.Less(i, i-6) { data.Swap(i, i-6) }
    }
    insertionSort(data, a, b)
>> *)
Definition swap {A : Type} (l : list A) (i j : nat) : list A :=
  match l !! i, l !! j with
  | Some x, Some y => <[i := y]> (<[j := x]> l)
  | _, _ => l
  end.

Definition lessAt {A : Type} (less : A -> A -> bool) (l : list A) (i j : nat) : bool :=
  match l !! i, l !! j with
  | Some x, Some y => less x y
  | _, _ => false
  end.

(** [for j := i; j > a && data.Less(j, j-1); j-- { data.Swap(j, j-1) }] *)
Fixpoint sinkLoop {A : Type} (less : A -> A -> bool) (a : nat) (l : list A) (j : nat)
    : list A :=
  match j with
  | O => l
  | S j' =>
      if (a <? j)%nat && lessAt less l j j' then sinkLoop less a (swap l j j') j' else l
  end.

(** [insertionSort(data, a, b)]. *)
Definition insertionSort {A : Type} (less : A -> A -> bool) (l : list A) (a b : nat)
    : list A :=
  fold_left (fun l i => sinkLoop less a l i) (seq (a + 1) (b - (a + 1))) l.

Definition gapPass {A : Type} (less : A -> A -> bool) (l : list A) : list A :=
  fold_left (fun l i => if lessAt less l i (i - 6) then swap l i (i - 6) else l)
            (seq 6 (length l - 6)) l.

(** [sort.Sort] of Go 1.18 on a slice of at most 12 elements. *)
Definition sortShort118 (A : Type) (less : A -> A -> bool) (l : list A) : list A :=
  insertionSort less (gapPass less l) 0 (length l).

(** From Go 1.19 on [sort.Sort] is a pattern-defeating quicksort.  The
    part of it written down here is what runs on a slice of fewer than
    50 elements as long as every partition is balanced: [None] stands
    for a run that leaves this part (the heap sort after too many bad
    pivots, the scattering of elements after an unbalanced partition,
    and the choice of a pivot among nine on longer slices) and for the
    end of the fuel. *)
Section Pdqsort.

Context {A : Type}.
Variable less : A -> A -> bool.

(** [order2] and [median] of the library; the last component counts the
    swaps. *)
Definition order2 (l : list A) (a b swaps : nat) : nat * nat * nat :=
  if lessAt less l b a then (b, a, S swaps) else (a, b, swaps).

Definition median (l : list A) (a b c swaps : nat) : nat * nat :=
  let '(a, b, swaps) := order2 l a b swaps in
  let '(b, c, swaps) := order2 l b c swaps in
  let '(a, b, swaps) := order2 l a b swaps in
  (b, swaps).

(** [choosePivot]: the pivot, and whether no swap was counted (the
    hint that the slice is increasing).  On fewer than 50 elements at
    most three swaps are counted, so the hint is never the decreasing
    one. *)
Definition choosePivot (l : list A) (a b : nat) : option (nat * bool) :=
  let len := (b - a)%nat in
  let i := (a + len / 4 * 1)%nat in
  let j := (a + len / 4 * 2)%nat in
  let k := (a + len / 4 * 3)%nat in
  if (8 <=? len)%nat then
    if (50 <=? len)%nat then None
    else let '(j, swaps) := median l i j k 0 in Some (j, (swaps =? 0)%nat)
  else Some (j, true).

(** [for i < b && !data.Less(i, i-1) { i++ }] *)
Fixpoint ascendingRun (fuel : nat) (l : list A) (i b : nat) : nat :=
  match fuel with
  | O => i
  | S fuel' =>
      if (i <? b)%nat && negb (lessAt less l i (i - 1)) then ascendingRun fuel' l (S i) b
      else i
  end.

(** [partialInsertionSort] on fewer than 50 elements, where it moves
    nothing: whether the slice is sorted already. *)
Definition partialInsertionSort (l : list A) (a b : nat) : bool :=
  (ascendingRun (b - a) l (a + 1) b =? b)%nat.

(** [for i <= j && data.Less(i, a) { i++ }] *)
Fixpoint skipLess (fuel : nat) (l : list A) (a i j : nat) : nat :=
  match fuel with
  | O => i
  | S fuel' => if (i <=? j)%nat && lessAt less l i a then skipLess fuel' l a (S i) j else i
  end.

(** [for i <= j && !data.Less(j, a) { j-- }] *)
Fixpoint skipNotLess (fuel : nat) (l : list A) (a i j : nat) : nat :=
  match fuel with
  | O => j
  | S fuel' =>
      if (i <=? j)%nat && negb (lessAt less l j a) then skipNotLess fuel' l a i (j - 1)
      else j
  end.

Fixpoint partitionLoop (fuel : nat) (l : list A) (a i j : nat) : list A * nat :=
  match fuel with
  | O => (l, j)
  | S fuel' =>
      let i := skipLess (S j - i) l a i j in
      let j := skipNotLess (S j - i) l a i j in
      if (j <? i)%nat then (l, j)
      else partitionLoop fuel' (swap l i j) a (S i) (j - 1)
  end.

(** [partition(data, a, b, pivot)]: the list, the new place of the
    pivot, and whether the slice was partitioned already. *)
Definition partition (l : list A) (a b pivot : nat) : list A * nat * bool :=
  let l := swap l a pivot in
  let i := (a + 1)%nat in
  let j := (b - 1)%nat in
  let i := skipLess (S j - i) l a i j in
  let j := skipNotLess (S j - i) l a i j in
  if (j <? i)%nat then (swap l j a, j, true)
  else
    let l := swap l i j in
    let '(l, j) := partitionLoop (b - a) l a (S i) (j - 1) in
    (swap l j a, j, false).

(** [for i <= j && !data.Less(a, i) { i++ }] and
    [for i <= j && data.Less(a, j) { j-- }] *)
Fixpoint skipNotGreater (fuel : nat) (l : list A) (a i j : nat) : nat :=
  match fuel with
  | O => i
  | S fuel' =>
      if (i <=? j)%nat && negb (lessAt less l a i) then skipNotGreater fuel' l a (S i) j
      else i
  end.

Fixpoint skipGreater (fuel : nat) (l : list A) (a i j : nat) : nat :=
  match fuel with
  | O => j
  | S fuel' =>
      if (i <=? j)%nat && lessAt less l a j then skipGreater fuel' l a i (j - 1) else j
  end.

Fixpoint partitionEqualLoop (fuel : nat) (l : list A) (a i j : nat) : list A * nat :=
  match fuel with
  | O => (l, i)
  | S fuel' =>
      let i := skipNotGreater (S j - i) l a i j in
      let j := skipGreater (S j - i) l a i j in
      if (j <? i)%nat then (l, i)
      else partitionEqualLoop fuel' (swap l i j) a (S i) (j - 1)
  end.

Definition partitionEqual (l : list A) (a b pivot : nat) : list A * nat :=
  partitionEqualLoop (b - a) (swap l a pivot) a (a + 1) (b - 1).

Fixpoint pdqsort (fuel : nat) (l : list A) (a b limit : nat)
    (wasBalanced wasPartitioned : bool) : option (list A) :=
  match fuel with
  | O => None
  | S fuel' =>
      let length := (b - a)%nat in
      if (length <=? 12)%nat then Some (insertionSort less l a b)
      else if (limit =? 0)%nat then None
      else if negb wasBalanced then None
      else
        match choosePivot l a b with
        | None => None
        | Some (pivot, increasing) =>
            if wasBalanced && wasPartitioned && increasing && partialInsertionSort l a b
            then Some l
            else if (0 <? a)%nat && negb (lessAt less l (a - 1) pivot) then
              let '(l, mid) := partitionEqual l a b pivot in
              pdqsort fuel' l mid b limit wasBalanced wasPartitioned
            else
              let '(l, mid, alreadyPartitioned) := partition l a b pivot in
              let leftLen := (mid - a)%nat in
              let rightLen := (b - mid)%nat in
              let balanceThreshold := (length / 8)%nat in
              if (leftLen <? rightLen)%nat then
                match pdqsort fuel' l a mid limit true true with
                | Some l =>
                    pdqsort fuel' l (mid + 1) b limit
                      (balanceThreshold <=? leftLen)%nat alreadyPartitioned
                | None => None
                end
              else
                match pdqsort fuel' l (mid + 1) b limit true true with
                | Some l =>
                    pdqsort fuel' l a mid limit
                      (balanceThreshold <=? rightLen)%nat alreadyPartitioned
                | None => None
                end
        end
  end.

(** [Sort]: [limit] is [bits.Len(uint(n))]. *)
Definition sortPdq (l : list A) : option (list A) :=
  let n := length l in
  if (n <=? 1)%nat then Some l
  else pdqsort (S n) l 0 n (S (Nat.log2 n)) true true.

End Pdqsort.

(** [sort.Sort] of Go 1.19 as a function on lists: the identity where
    the run leaves the part written down. *)
Definition sortPdq119 (A : Type) (less : A -> A -> bool) (l : list A) : list A :=
  default l (sortPdq less l).

(** A sort that fulfils the contract on lists of any length, for the
    examples: the merge sort of the list library. *)
Definition sortMerge (A : Type) (less : A -> A -> bool) (l : list A) : list A :=
  merge_sort (fun x y => Is_true (negb (less y x))) l.

(** ** What the dispatcher is to return

    [dispatched call noMatch backends r]: the result [r] is the value
    of the first backend, in list order, whose call succeeds, every
    backend before it having returned an error; in a list ascending by
    priority no backend before it has a higher priority and none after
    it a lower one.  The error [noMatch] is the result exactly when
    every backend returned an error, and no other error is ever the
    result. *)
Definition dispatched {B A : Type} `{OdbBackend B} (call : B -> result A)
    (noMatch : error) (backends : list B) (r : result A) : Prop :=
  (forall x, r = Ok x <->
     exists before backend after,
       backends = before ++ backend :: after
       /\ Forall (fun b => is_err (call b) = true) before
       /\ call backend = Ok x
       /\ Forall (fun b => backend_priority b <= backend_priority backend) before
       /\ Forall (fun b => backend_priority backend <= backend_priority b) after)
  /\ (r = Err noMatch <-> Forall (fun b => is_err (call b) = true) backends)
  /\ (forall e, r = Err e -> e = noMatch).

(** Two object directories; the blob of the test is in the second. *)
Definition twoStores : FileSystem :=
  mkFS {[ "objects" := (1%nat, ["info"]);
          "objects/info" := (2%nat, ["alternates"]);
          "alt/objects" := (3%nat, ["02"]);
          "alt/objects/02" := (4%nat, ["66163a49e280c4f5ed1e08facd36a2bd716bcf"]) ]}
       {[ "objects/info/alternates"
            := (5%nat, String.list_byte_of_string "# the shared store" ++ [x0a]
                       ++ String.list_byte_of_string "../alt/objects" ++ [x0a]);
          "alt/objects/02/66163a49e280c4f5ed1e08facd36a2bd716bcf"
            := (6%nat, deflate storedZlib
                         (envelope (String.list_byte_of_string "Testing a readme.txt")
                                   ObjectBlob)) ]}.

Definition twoBackends : Odb OdbBackendLoose :=
  mkOdb [Loose_InitBackend (looseAt "objects") 1 false 1%nat;
         Loose_InitBackend (looseAt "alt/objects") 1 true 3%nat].

(** Six registrations at the packed priority followed by one at the
    loose priority. *)
Definition packedThenLoose : list (OdbBackendLoose * Z * bool * FileInfo) :=
  [(looseAt "p0", GIT_PACKED_PRIORITY, false, 10%nat);
   (looseAt "p1", GIT_PACKED_PRIORITY, false, 11%nat);
   (looseAt "p2", GIT_PACKED_PRIORITY, false, 12%nat);
   (looseAt "p3", GIT_PACKED_PRIORITY, false, 13%nat);
   (looseAt "p4", GIT_PACKED_PRIORITY, false, 14%nat);
   (looseAt "p5", GIT_PACKED_PRIORITY, false, 15%nat);
   (looseAt "objects", GIT_LOOSE_PRIORITY, false, 1%nat)].

(** A chain of eight object directories [c], [c/a], [c/a/a], ...: the
    alternates file of each names the next one by the line [./a]. *)
Fixpoint chainPath (k : nat) : string :=
  match k with
  | O => "c"
  | S k' => chainPath k' +:+ "/a"
  end.

Definition chainStore : FileSystem :=
  mkFS (list_to_map
          (flat_map (fun k => [(chainPath k, ((3 * k)%nat, ["info"; "a"]));
                               (chainPath k +:+ "/info", ((3 * k + 1)%nat, ["alternates"]))])
                    (seq 0 8)))
       (list_to_map
          (map (fun k => (chainPath k +:+ "/info/alternates",
                          ((3 * k + 2)%nat, String.list_byte_of_string "./a" ++ [x0a])))
               (seq 0 8))).



(** Thirteen registrations at the packed priority followed by one at
    the loose priority. *)
Definition packed13ThenLoose : list (OdbBackendLoose * Z * bool * FileInfo) :=
  map (fun k => (looseAt ("p" +:+ decimal (Z.of_nat k)), GIT_PACKED_PRIORITY, false,
                 (10 + k)%nat))
      (seq 0 13)
  ++ [(looseAt "objects", GIT_LOOSE_PRIORITY, false, 1%nat)].

(** ** [Odb.ExistsPrefix]

    Unlike the three read calls, this loop keeps the error of the
    backend it asked last and has no error of its own:
<<
    var foundId *Oid
    var err error
    for _, backend := range o.backends {
        foundId, err = backend.ExistsPrefix(oid, length)
        if foundId != nil { return foundId, nil }
    }
    return nil, err
>>
    [err] is [None] for Go's nil, and the result [Ok None] is the pair
    [nil, nil].  A backend returns an Oid or an error. *)
Section DispatcherPrefix.

Context {B : Type} `{OdbBackend B}.
Variable fs : FileSystem.

Fixpoint existsPrefixLoop (call : B -> result Oid) (err : option error)
    (backends : list B) : result (option Oid) :=
  match backends with
  | [] =>
      match err with
      | Some e => Err e
      | None => Ok None
      end
  | backend :: rest =>
      match call backend with
      | Ok foundId => Ok (Some foundId)
      | Err e => existsPrefixLoop call (Some e) rest
      | Panic p => Panic p
      end
  end.

Definition Odb_ExistsPrefix (o : Odb B) (oid : Oid) (length : Z) : result (option Oid) :=
  existsPrefixLoop (fun backend => backend_ExistsPrefix fs backend oid length) None
    (backends o).

End DispatcherPrefix.

(** Three object files that no [Write] of this package made: a legacy
    stream whose header declares 3 bytes for a payload of 5, a legacy
    stream whose size is written with sixty leading zeros, and a
    compact file whose compressed part is not a zlib stream. *)
Definition foreignStore : FileSystem :=
  mkFS {[ "objects" := (1%nat, ["02"; "a1"]);
          "objects/02" := (2%nat, ["66163a49e280c4f5ed1e08facd36a2bd716bcf";
                                   "77aa3a49e280c4f5ed1e08facd36a2bd716bcf"]);
          "objects/a1" := (3%nat, ["00000000000000000000000000000000000000"]) ]}
       {[ "objects/02/66163a49e280c4f5ed1e08facd36a2bd716bcf"
            := (4%nat, deflate storedZlib
                         (String.list_byte_of_string "blob 3"
                          ++ x00 :: String.list_byte_of_string "hello"));
          "objects/02/77aa3a49e280c4f5ed1e08facd36a2bd716bcf"
            := (5%nat, deflate storedZlib
                         (String.list_byte_of_string "blob"
                          ++ x20 :: replicate 60 x30 ++ String.list_byte_of_string "5"
                          ++ x00 :: String.list_byte_of_string "hello"));
          "objects/a1/00000000000000000000000000000000000000"
            := (6%nat, [x35; x00; x00]) ]}.

(** A store in which the file of [readmeOid] exists already and holds
    32 bytes that are no object. *)
Definition staleStore : FileSystem :=
  mkFS {[ "objects" := (1%nat, ["02"]);
          "objects/02" := (2%nat, ["66163a49e280c4f5ed1e08facd36a2bd716bcf"]) ]}
       {[ "objects/02/66163a49e280c4f5ed1e08facd36a2bd716bcf"
            := (3%nat, replicate 32 xff) ]}.

(** [bucketStore] with the bucket [02] listed in another order. *)
Definition bucketStoreReordered : FileSystem :=
  mkFS {[ "objects" := (1%nat, ["02"; "info"]);
          "objects/02" := (2%nat, ["77aa3a49e280c4f5ed1e08facd36a2bd716bcf";
                                   "66aa3a49e280c4f5ed1e08facd36a2bd716bcf";
                                   "66163a49e280c4f5ed1e08facd36a2bd716bcf"]);
          "objects/info" := (3%nat, []) ]}
       ∅.

(** An object directory whose alternates file names a directory that
    does not exist before one that does. *)
Definition danglingStore : FileSystem :=
  mkFS {[ "objects" := (1%nat, ["info"]);
          "objects/info" := (2%nat, ["alternates"]);
          "alt/objects" := (3%nat, []) ]}
       {[ "objects/info/alternates"
            := (4%nat, String.list_byte_of_string "/srv/shared/objects" ++ [x0a]
                       ++ String.list_byte_of_string "../gone/objects" ++ [x0a]
                       ++ String.list_byte_of_string "../alt/objects" ++ [x0a]) ]}.

#[global] Instance OdbBackendBase_eq_decision : EqDecision OdbBackendBase.
Proof. solve_decision. Defined.

#[global] Instance OdbBackendLoose_eq_decision : EqDecision OdbBackendLoose.
Proof. solve_decision. Defined.

(** ** Names and cleaned paths

    What the lemmas on [Clean] and [Join] speak about: a name without
    slash, an element that [Clean] keeps as it is, and the shape of a
    cleaned list of elements (some [".."] first, never in a rooted
    path, and then plain names). *)
Fixpoint allChars (P : ascii -> bool) (s : string) : bool :=
  match s with
  | EmptyString => true
  | String c rest => P c && allChars P rest
  end.

Definition noSlash (s : string) : bool :=
  allChars (fun c => negb (Ascii.eqb c "/"%char)) s.

Definition plainName (s : string) : bool :=
  noSlash s && negb (String.eqb s "") && negb (String.eqb s ".")
  && negb (String.eqb s "..").

Definition hexChar (c : ascii) : bool :=
  match hexval c with
  | Some _ => true
  | None => false
  end.

Definition cleanShape (rooted : bool) (elems : list string) : Prop :=
  exists (j : nat) (names : list string),
    elems = replicate j ".." ++ names
    /\ Forall (fun e => plainName e = true) names
    /\ (rooted = true -> j = 0%nat).

(** The string that [Clean] makes of the cleaned elements. *)
Definition renderPath (rooted : bool) (elems : list string) : string :=
  let body := joinWith "/" elems in
  if rooted then "/" +:+ body
  else if String.eqb body "" then "." else body.

(** A store in which the file of [readmeOid] exists already and is
    empty. *)
Definition touchedStore : FileSystem :=
  mkFS {[ "objects" := (1%nat, ["02"]);
          "objects/02" := (2%nat, ["66163a49e280c4f5ed1e08facd36a2bd716bcf"]) ]}
       {[ "objects/02/66163a49e280c4f5ed1e08facd36a2bd716bcf" := (3%nat, []) ]}.

(** A blob of 21 bytes in the compact layout: the header is the two
    bytes [0xb5 0x01] (type 3, size [5 + (1 << 4)]), and the compressed
    payload follows. *)
Definition largeCompactStore : FileSystem :=
  mkFS {[ "objects" := (1%nat, ["a1"]);
          "objects/a1" := (2%nat, ["00000000000000000000000000000000000000"]) ]}
       {[ "objects/a1/00000000000000000000000000000000000000"
            := (3%nat, xb5 :: x01
                       :: deflate storedZlib
                            (String.list_byte_of_string "Testing a readme.txt!")) ]}.

(** Registrations of the directories [d0], [d1], ..., all at the loose
    priority. *)
Definition looseRegistrations (n : nat) : list (OdbBackendLoose * Z * bool * FileInfo) :=
  map (fun k => (looseAt ("d" +:+ decimal (Z.of_nat k)), GIT_LOOSE_PRIORITY, false,
                 (10 + k)%nat))
      (seq 0 n).

(** * Theorems *)

Lemma binaryHeaderLoop_fuel_enough (fuel : nat) (data : list byte) (c size shift : Z) (offset : nat) :
  (length data <= offset + fuel)%nat ->
  (offset <= length data)%nat ->
  (0 < fuel)%nat ->
  is_Some (binaryHeaderLoop fuel data c size shift offset).
Proof.
  revert size shift offset.
  induction fuel as [|fuel IH]; intros size shift offset Hlen Hoff Hpos; [lia|].
  simpl. destruct (Z.land c 128 =? 0); [eauto|].
  destruct (Nat.leb_spec (length data) offset) as [Hle|Hlt]; [eauto|].
  unfold index. destruct (data !! S offset) as [b|] eqn:Hb; [|eauto].
  apply lookup_lt_Some in Hb.
  apply IH; lia.
Qed.

Lemma parseBinaryObjectHeader_fuel_enough (data : list byte) :
  parseBinaryObjectHeader_fuel (length data) data = Some (parseBinaryObjectHeader data).
Proof.
  unfold parseBinaryObjectHeader.
  destruct data as [|b0 rest]; [reflexivity|].
  unfold parseBinaryObjectHeader_fuel.
  destruct (binaryHeaderLoop_fuel_enough (length (b0 :: rest)) (b0 :: rest)
              (byte_to_Z b0) (Z.land (byte_to_Z b0) 15) 4 1) as [r Hr];
    [simpl; lia..|].
  rewrite Hr. destruct r as [[size offset]|e|p]; reflexivity.
Qed.

(** ** The compact header decoder *)

Lemma binaryHeaderLoop_stuck (fuel : nat) (data : list byte) (c size shift : Z) (offset : nat) :
  Z.land c 0x80 <> 0 ->
  forall r, binaryHeaderLoop fuel data c size shift offset <> Some (Ok r).
Proof.
  intros Hc. revert size shift offset.
  induction fuel as [|fuel IH]; intros size shift offset r; simpl;
    destruct (Z.eqb_spec (Z.land c 128) 0) as [Hz|_]; try contradiction; try discriminate.
  destruct (length data <=? offset)%nat; [discriminate|].
  destruct (index data (S offset)); try discriminate. apply IH.
Qed.

(** A header of one byte: the type is bits 4-6 and the size is bits 0-3
    of that byte, and the offset returned is 1. *)
Lemma parseBinaryObjectHeader_single (b0 : byte) (rest : list byte) :
  Z.land (byte_to_Z b0) 0x80 = 0 ->
  parseBinaryObjectHeader (b0 :: rest)
  = Ok (Z.land (Z.shiftr (byte_to_Z b0) 4) 7, Z.land (byte_to_Z b0) 15, 1%nat).
Proof.
  intros Hc. unfold parseBinaryObjectHeader, parseBinaryObjectHeader_fuel.
  simpl. rewrite Hc. reflexivity.
Qed.

Lemma parseBinaryObjectHeader_continued (b0 : byte) (rest : list byte) :
  Z.land (byte_to_Z b0) 0x80 <> 0 ->
  is_ok (parseBinaryObjectHeader (b0 :: rest)) = false.
Proof.
  intros Hc.
  pose proof (parseBinaryObjectHeader_fuel_enough (b0 :: rest)) as Hfuel.
  destruct (parseBinaryObjectHeader (b0 :: rest)) as [[[ty size] offset]|e|p] eqn:Hr;
    [|reflexivity..].
  exfalso. unfold parseBinaryObjectHeader_fuel in Hfuel.
  destruct (binaryHeaderLoop (length (b0 :: rest)) (b0 :: rest) (byte_to_Z b0)
              (Z.land (byte_to_Z b0) 15) 4 1) as [[[size' offset']|e|p]|] eqn:Hloop;
    try discriminate.
  eapply binaryHeaderLoop_stuck; eauto.
Qed.

Lemma binaryHeaderLoop_runs_off (fuel : nat) (data : list byte) (c size shift : Z)
    (offset : nat) :
  Z.land c 0x80 <> 0 ->
  (offset < length data)%nat ->
  (length data - offset <= fuel)%nat ->
  binaryHeaderLoop fuel data c size shift offset
  = Some (Panic (IndexOutOfRange (Z.of_nat (length data)) (length data))).
Proof.
  intros Hc. revert size shift offset.
  induction fuel as [|fuel IH]; intros size shift offset Hlt Hfuel; [lia|].
  simpl. destruct (Z.eqb_spec (Z.land c 128) 0) as [?|_]; [contradiction|].
  destruct (Nat.leb_spec (length data) offset) as [?|_]; [lia|].
  unfold index. destruct (data !! S offset) as [b|] eqn:Hb.
  - apply lookup_lt_Some in Hb as Hin. apply IH; lia.
  - apply lookup_ge_None in Hb. replace (S offset) with (length data) by lia.
    reflexivity.
Qed.

(** C1 (the code at the inputs where it departs from the claim): when
    the first byte has its top bit set the decoder never returns a
    header, whatever bytes follow.  A slice of that one byte gives the
    too-short error; a longer slice makes the loop run until it reads
    one place past the end.  The loop tests the first byte again at
    every iteration, so no continuation byte ends it. *)
Theorem parseBinaryObjectHeader_continuation_never_ok (b0 : byte) (rest : list byte) :
  Z.land (byte_to_Z b0) 0x80 <> 0 ->
  parseBinaryObjectHeader (b0 :: rest)
  = match rest with
    | [] => Err (ErrorString "parseBinaryObjectHeader: input is too short")
    | _ :: _ =>
        Panic (IndexOutOfRange (Z.of_nat (length (b0 :: rest))) (length (b0 :: rest)))
    end.
Proof.
  intros Hc. unfold parseBinaryObjectHeader, parseBinaryObjectHeader_fuel.
  destruct rest as [|b1 rest].
  - simpl. destruct (Z.eqb_spec (Z.land (byte_to_Z b0) 128) 0) as [?|_];
      [contradiction|reflexivity].
  - rewrite binaryHeaderLoop_runs_off; [reflexivity|assumption|simpl; lia..].
Qed.

Lemma parseBinaryObjectHeader_continuation_never_ok_witness :
  parseBinaryObjectHeader [xb5; x01] = Panic (IndexOutOfRange 2 2).
Proof.
  apply (parseBinaryObjectHeader_continuation_never_ok xb5 [x01]).
  vm_compute. discriminate.
Defined.

(** The two-byte header [0xb5 0x01] is a blob of size [5 + (1 << 4)];
    the source reads [data[2]] of a two-byte slice. *)
Example compactHeader_format_b5_01 :
  compactHeader_format [xb5; x01] = Some (ObjectBlob, 21, 2%nat).
Proof. reflexivity. Qed.

Example parseBinaryObjectHeader_b5_01 :
  parseBinaryObjectHeader [xb5; x01] = Panic (IndexOutOfRange 2 2).
Proof. reflexivity. Qed.

(** With a third byte the source skips [data[1]], takes [data[2]] as the
    continuation and then reads [data[3]]. *)
Example parseBinaryObjectHeader_b5_01_00 :
  parseBinaryObjectHeader [xb5; x01; x00] = Panic (IndexOutOfRange 3 3).
Proof. reflexivity. Qed.

Example parseBinaryObjectHeader_one_byte_continued :
  parseBinaryObjectHeader [xb5]
  = Err (ErrorString "parseBinaryObjectHeader: input is too short").
Proof. reflexivity. Qed.

(** ** The text header parser *)

Lemma typeLoop_finds_space (pre ty tail : list byte) :
  x20 ∉ ty ->
  typeLoop (pre ++ ty ++ x20 :: tail) (ty ++ x20 :: tail) (length pre)
  = (TypeString2Type (String.string_of_list_byte (pre ++ ty)),
     S (length pre + length ty), S (length pre + length ty)).
Proof.
  revert pre. induction ty as [|b ty IH]; intros pre Hty; simpl.
  - rewrite Nat.add_0_r, app_nil_r, take_app_length. reflexivity.
  - apply not_elem_of_cons in Hty as [Hb Hty].
    destruct (Byte.eqb b x20) eqn:Heq.
    { apply Byte.byte_dec_bl in Heq. congruence. }
    specialize (IH (pre ++ [b]) Hty).
    rewrite <- !app_assoc, length_app in IH. simpl in IH.
    rewrite Nat.add_1_r in IH. rewrite IH.
    replace (length pre + S (length ty))%nat
      with (S (length pre) + length ty)%nat by lia.
    reflexivity.
Qed.

Lemma sizeLoop_finds_nul (pre sz tail : list byte) (resultType : ObjectType) (typeEnd : nat) :
  x00 ∉ sz ->
  (typeEnd <= length pre)%nat ->
  sizeLoop (pre ++ sz ++ x00 :: tail) (sz ++ x00 :: tail) resultType typeEnd (length pre)
  = match ParseUint (String.string_of_list_byte (drop typeEnd (pre ++ sz))) with
    | Ok size => Ok (resultType, size, S (length pre + length sz))
    | Err e => Err e
    | Panic p => Panic p
    end.
Proof.
  revert pre. induction sz as [|b sz IH]; intros pre Hsz Hle; simpl.
  - unfold slice. rewrite Nat.add_0_r, app_nil_r.
    rewrite drop_app_le by lia.
    rewrite take_app_length' by (rewrite length_drop; lia).
    reflexivity.
  - apply not_elem_of_cons in Hsz as [Hb Hsz].
    destruct (Byte.eqb b x00) eqn:Heq.
    { apply Byte.byte_dec_bl in Heq. congruence. }
    specialize (IH (pre ++ [b]) Hsz).
    rewrite <- !app_assoc, length_app in IH. simpl in IH.
    rewrite Nat.add_1_r in IH. rewrite IH by lia.
    replace (S (length pre) + length sz)%nat
      with (length pre + S (length sz))%nat by lia.
    reflexivity.
Qed.

Lemma parseObjectHeader_split (ty sz payload : list byte) :
  x20 ∉ ty ->
  x00 ∉ sz ->
  parseObjectHeader (ty ++ x20 :: sz ++ x00 :: payload)
  = match ParseUint (String.string_of_list_byte sz) with
    | Ok size =>
        Ok (TypeString2Type (String.string_of_list_byte ty), size,
            (length ty + length sz + 2)%nat)
    | Err e => Err e
    | Panic p => Panic p
    end.
Proof.
  intros Hty Hsz. unfold parseObjectHeader.
  pose proof (typeLoop_finds_space [] ty (sz ++ x00 :: payload) Hty) as Ht.
  simpl in Ht. rewrite Ht.
  replace (ty ++ x20 :: sz ++ x00 :: payload)
    with ((ty ++ [x20]) ++ sz ++ x00 :: payload) by (rewrite <- app_assoc; reflexivity).
  rewrite drop_app_length' by (rewrite length_app; simpl; lia).
  pose proof (sizeLoop_finds_nul (ty ++ [x20]) sz payload
                (TypeString2Type (String.string_of_list_byte ty)) (S (length ty)) Hsz) as Hs.
  rewrite length_app in Hs. simpl in Hs.
  replace (length ty + 1)%nat with (S (length ty)) in Hs by lia.
  rewrite Hs by lia.
  rewrite drop_app_length' by (rewrite length_app; simpl; lia).
  replace (S (S (length ty) + length sz)) with (length ty + length sz + 2)%nat by lia.
  reflexivity.
Qed.

(** C3, as amended: on a stream [type ' ' size NUL payload] the parser
    returns the error of the size conversion whenever the size text is
    not parseable, and otherwise succeeds with whatever the type
    table gives for the token, the sentinel Bad included: the type is
    never checked. *)
Theorem parseObjectHeader_checks_size_only (ty sz payload : list byte) :
  x20 ∉ ty ->
  x00 ∉ sz ->
  (forall e, ParseUint (String.string_of_list_byte sz) = Err e ->
     parseObjectHeader (ty ++ x20 :: sz ++ x00 :: payload) = Err e)
  /\ (forall size, ParseUint (String.string_of_list_byte sz) = Ok size ->
        parseObjectHeader (ty ++ x20 :: sz ++ x00 :: payload)
        = Ok (TypeString2Type (String.string_of_list_byte ty), size,
              (length ty + length sz + 2)%nat)).
Proof.
  intros Hty Hsz.
  split; intros r Hr; rewrite parseObjectHeader_split, Hr by assumption; reflexivity.
Qed.

Lemma parseObjectHeader_checks_size_only_witness :
  parseObjectHeader (String.list_byte_of_string "blob 1x" ++ x00 :: String.list_byte_of_string "ab")
  = Err (NumErrorSyntax "1x")
  /\ parseObjectHeader (String.list_byte_of_string "bolb 2" ++ x00 :: String.list_byte_of_string "ab")
     = Ok (ObjectBad, 2, 7%nat).
Proof.
  split.
  - apply (parseObjectHeader_checks_size_only
             (String.list_byte_of_string "blob") (String.list_byte_of_string "1x")
             (String.list_byte_of_string "ab")).
    + apply (bool_decide_unpack _). vm_compute. reflexivity.
    + apply (bool_decide_unpack _). vm_compute. reflexivity.
    + reflexivity.
  - apply (parseObjectHeader_checks_size_only
             (String.list_byte_of_string "bolb") (String.list_byte_of_string "2")
             (String.list_byte_of_string "ab")).
    + apply (bool_decide_unpack _). vm_compute. reflexivity.
    + apply (bool_decide_unpack _). vm_compute. reflexivity.
    + reflexivity.
Defined.

(** C3, the counterexample: the token "foo" is no type name, and the
    stream ["foo 3" NUL "abc"] is parsed with success, the result
    carrying the unknown type. *)
Lemma parseObjectHeader_unknown_type_is_ok :
  TypeString2Type "foo" = ObjectBad
  /\ parseObjectHeader (String.list_byte_of_string "foo 3" ++ x00 :: String.list_byte_of_string "abc")
     = Ok (ObjectBad, 3, 6%nat).
Proof. split; reflexivity. Qed.

(** A stream without a NUL after the space is accepted as well, with
    size 0 and no conversion attempted. *)
Example parseObjectHeader_no_nul :
  parseObjectHeader (String.list_byte_of_string "blob 12x")
  = Ok (ObjectBlob, 0, 8%nat).
Proof. reflexivity. Qed.

Example ParseUint_max :
  ParseUint "18446744073709551615" = Ok maxUint64
  /\ ParseUint "18446744073709551616" = Err (NumErrorRange "18446744073709551616")
  /\ ParseUint "" = Err (NumErrorSyntax "")
  /\ ParseUint "+1" = Err (NumErrorSyntax "+1").
Proof. repeat split; reflexivity. Qed.

(** ** Paths and lines *)

Example Join_examples :
  Join ["objects"; "ab"; "cdef"] = "objects/ab/cdef"
  /\ Join ["repo/objects"; "../../alt/objects"] = "alt/objects"
  /\ Join ["/srv/git/objects"; "./alt"] = "/srv/git/objects/alt"
  /\ Join ["objects"; "info/alternates"] = "objects/info/alternates"
  /\ Join ["a"; "../../b"] = "../b"
  /\ Join [""; ""] = "".
Proof. repeat split; reflexivity. Qed.

Example NewOid_examples :
  (Oid_String <$> (match NewOid "0266163a49e280c4f5ed1e08facd36a2bd716bcf" with
                   | Ok oid => Some oid | _ => None end))
  = Some "0266163a49e280c4f5ed1e08facd36a2bd716bcf"
  /\ NewOid "0266163A49E280C4F5ED1E08FACD36A2BD716BCF"
     = NewOid "0266163a49e280c4f5ed1e08facd36a2bd716bcf"
  /\ NewOid "0266" = Err (InvalidFormat "0266")
  /\ is_err (NewOid "0266163a49e280c4f5ed1e08facd36a2bd716bcg") = true.
Proof. repeat split; reflexivity. Qed.

(** ** Reading a loose object *)

Lemma isZlibCompressedData_short (content : list byte) :
  (length content < 2)%nat ->
  isZlibCompressedData content
  = Panic (IndexOutOfRange (Z.of_nat (length content)) (length content)).
Proof.
  intros Hlen. destruct content as [|b0 [|b1 rest]]; simpl in *; try lia; reflexivity.
Qed.

(** C10: when the file of an object holds fewer than two bytes, [Read]
    and [ReadHeader] both panic with an index out of range: the
    detection of the envelope reads [data[0]] and [data[1]] before
    anything else looks at the content. *)
Theorem Loose_short_file_panics (z : zlib) (fs : FileSystem) (o : OdbBackendLoose)
    (oid : Oid) (content : list byte) :
  ReadFile fs (objectPath o oid) = Ok content ->
  (length content < 2)%nat ->
  Loose_Read z fs o oid
  = Panic (IndexOutOfRange (Z.of_nat (length content)) (length content))
  /\ Loose_ReadHeader z fs o oid
     = Panic (IndexOutOfRange (Z.of_nat (length content)) (length content)).
Proof.
  intros Hfile Hlen. unfold Loose_Read, Loose_ReadHeader, objectPath in *.
  destruct (PathFormat oid) as [dirName fileName].
  rewrite Hfile. simpl. rewrite (isZlibCompressedData_short content Hlen).
  split; reflexivity.
Qed.

Lemma Loose_short_file_panics_witness :
  Loose_Read storedZlib truncatedStore (looseAt "objects") readmeOid
  = Panic (IndexOutOfRange 1 1)
  /\ Loose_ReadHeader storedZlib truncatedStore (looseAt "objects") readmeOid
     = Panic (IndexOutOfRange 1 1).
Proof.
  apply (Loose_short_file_panics storedZlib truncatedStore (looseAt "objects")
           readmeOid [x78]).
  - vm_compute. reflexivity.
  - simpl. lia.
Defined.

Example Loose_empty_file_panics :
  Loose_Read storedZlib
    (mkFS ∅ {[ "objects/02/66163a49e280c4f5ed1e08facd36a2bd716bcf" := (3%nat, []) ]})
    (looseAt "objects") readmeOid
  = Panic (IndexOutOfRange 0 0).
Proof. vm_compute. reflexivity. Qed.

(** ** Writing a loose object *)

Lemma mkdirElems_files (fs : FileSystem) (prefix elems : list string) :
  fs_files (mkdirElems fs prefix elems) = fs_files fs.
Proof.
  revert fs prefix. induction elems as [|e rest IH]; intros fs prefix; simpl; [reflexivity|].
  destruct (String.eqb e ""); [apply IH|].
  destruct (fs_dirs fs !! _); [apply IH|].
  destruct (fs_files fs !! _); [reflexivity|].
  rewrite IH. reflexivity.
Qed.

Lemma writeExisting_absent (fs : FileSystem) (target path : string) (bytes : list byte) :
  fs_files fs !! path = None ->
  fs_files (writeExisting fs target bytes) !! path = None.
Proof.
  intros Hnone. unfold writeExisting.
  destruct (fs_files fs !! target) as [[id old]|] eqn:Htarget; [|assumption].
  simpl. rewrite lookup_insert_ne; [assumption|]. congruence.
Qed.

(** C4 (the code at the inputs where it departs from the claim): for an
    object that is not yet in the store, [Write] returns the Oid and no
    error, yet the file of the object is still missing afterwards, and
    [Read] of the returned Oid fails.  [os.OpenFile] is called with
    [O_WRONLY] alone, so it opens existing files only. *)
Theorem Loose_Write_then_Read_missing (z : zlib)
    (hash : list byte -> ObjectType -> result Oid)
    (fs : FileSystem) (o : OdbBackendLoose) (data : list byte) (objType : ObjectType)
    (oid : Oid) :
  hash data objType = Ok oid ->
  fs_files fs !! objectPath o oid = None ->
  snd (Loose_Write z hash fs o data objType) = Ok oid
  /\ fs_files (fst (Loose_Write z hash fs o data objType)) !! objectPath o oid = None
  /\ is_err (Loose_Read z (fst (Loose_Write z hash fs o data objType)) o oid) = true.
Proof.
  intros Hhash Hnone. unfold Loose_Write. rewrite Hhash.
  unfold objectPath in *. unfold Loose_Read.
  destruct (PathFormat oid) as [dirName fileName]. simpl.
  assert (fs_files (writeExisting (MkdirAll fs (Join [objectsDir o; dirName]))
                      (Join [Join [objectsDir o; dirName]; fileName])
                      (deflate z (envelope data objType)))
            !! Join [objectsDir o; dirName; fileName] = None) as Hafter.
  { apply writeExisting_absent. unfold MkdirAll. rewrite mkdirElems_files. assumption. }
  split; [reflexivity|]. split; [assumption|].
  unfold ReadFile. rewrite Hafter.
  destruct (fs_dirs _ !! _); reflexivity.
Qed.

Lemma Loose_Write_then_Read_missing_witness :
  snd (Loose_Write storedZlib readmeHash emptyStore (looseAt "objects")
         (String.list_byte_of_string "Testing a readme.txt") ObjectBlob) = Ok readmeOid
  /\ fs_files (fst (Loose_Write storedZlib readmeHash emptyStore (looseAt "objects")
                      (String.list_byte_of_string "Testing a readme.txt") ObjectBlob))
       !! objectPath (looseAt "objects") readmeOid = None
  /\ is_err (Loose_Read storedZlib
               (fst (Loose_Write storedZlib readmeHash emptyStore (looseAt "objects")
                       (String.list_byte_of_string "Testing a readme.txt") ObjectBlob))
               (looseAt "objects") readmeOid) = true.
Proof.
  apply (Loose_Write_then_Read_missing storedZlib readmeHash emptyStore
           (looseAt "objects") (String.list_byte_of_string "Testing a readme.txt")
           ObjectBlob readmeOid).
  - reflexivity.
  - vm_compute. reflexivity.
Defined.

(** On the empty store [Write] makes the bucket directory and nothing
    else, and [Read] reports the missing file. *)
Example Loose_Write_emptyStore :
  Loose_Write storedZlib readmeHash emptyStore (looseAt "objects")
    (String.list_byte_of_string "Testing a readme.txt") ObjectBlob
  = (mkFS {[ "objects" := (1%nat, ["02"]); "objects/02" := (2%nat, []) ]} ∅,
     Ok readmeOid)
  /\ Loose_Read storedZlib
       (mkFS {[ "objects" := (1%nat, ["02"]); "objects/02" := (2%nat, []) ]} ∅)
       (looseAt "objects") readmeOid
     = Err (PathError "open" "objects/02/66163a49e280c4f5ed1e08facd36a2bd716bcf").
Proof. split; vm_compute; reflexivity. Qed.

Example envelope_readme :
  envelope (String.list_byte_of_string "Testing a readme.txt") ObjectBlob
  = String.list_byte_of_string "blob 20" ++ x00 :: String.list_byte_of_string "Testing a readme.txt".
Proof. reflexivity. Qed.

(** ** Oids and their text *)

Lemma hex_byte_roundtrip (b : byte) :
  hexval (hexdigit (Byte.to_N b / 16)) = Some (Byte.to_N b / 16)%N
  /\ hexval (hexdigit (Byte.to_N b mod 16)) = Some (Byte.to_N b mod 16)%N
  /\ Byte.of_N (16 * (Byte.to_N b / 16) + Byte.to_N b mod 16) = Some b.
Proof. destruct b; vm_compute; repeat split. Qed.

Lemma decodeHex_encodeHex (bs : list byte) : decodeHex (encodeHex bs) = Some bs.
Proof.
  induction bs as [|b bs IH]; [reflexivity|].
  destruct (hex_byte_roundtrip b) as (Hhi & Hlo & Hb).
  cbn [encodeHex decodeHex]. rewrite Hhi, Hlo, IH, Hb. reflexivity.
Qed.

Lemma length_encodeHex (bs : list byte) :
  String.length (encodeHex bs) = (2 * length bs)%nat.
Proof. induction bs as [|b bs IH]; simpl; [reflexivity|]. rewrite IH. lia. Qed.

Lemma length_Oid_String (oid : Oid) :
  Oid_wf oid -> String.length (Oid_String oid) = 40%nat.
Proof. unfold Oid_wf, Oid_String. intros Hwf. rewrite length_encodeHex, Hwf. reflexivity. Qed.

Lemma NewOid_Oid_String (oid : Oid) : Oid_wf oid -> NewOid (Oid_String oid) = Ok oid.
Proof.
  intros Hwf. unfold NewOid. rewrite (length_Oid_String oid Hwf). simpl.
  unfold Oid_String. rewrite decodeHex_encodeHex. destruct oid; reflexivity.
Qed.

Lemma length_substring (s : string) (n m : nat) :
  (n + m <= String.length s)%nat -> String.length (String.substring n m s) = m.
Proof.
  revert n m. induction s as [|c s IH]; intros n m Hle; simpl in *.
  - destruct n, m; simpl; try reflexivity; lia.
  - destruct n as [|n].
    + destruct m as [|m]; [reflexivity|]. simpl. rewrite (IH 0%nat m) by lia. reflexivity.
    + apply IH. lia.
Qed.

Lemma append_String (c : ascii) (a b : string) : String c a +:+ b = String c (a +:+ b).
Proof. reflexivity. Qed.

Lemma substring_whole (s : string) : String.substring 0 (String.length s) s = s.
Proof. induction s as [|c s IH]; simpl; [reflexivity|]. rewrite IH. reflexivity. Qed.

Lemma substring_split (s : string) (n : nat) :
  (n <= String.length s)%nat ->
  String.substring 0 n s +:+ String.substring n (String.length s - n) s = s.
Proof.
  revert n. induction s as [|c s IH]; intros n Hle.
  - destruct n; reflexivity.
  - destruct n as [|n].
    + rewrite Nat.sub_0_r, substring_whole. reflexivity.
    + simpl in *. rewrite append_String. f_equal. apply IH. lia.
Qed.

Lemma PathFormat_join (oid : Oid) :
  Oid_wf oid -> fst (PathFormat oid) +:+ snd (PathFormat oid) = Oid_String oid.
Proof.
  intros Hwf. unfold PathFormat. simpl. apply substring_split.
  rewrite length_Oid_String by assumption. lia.
Qed.

Lemma PathFormat_fileName_length (oid : Oid) :
  Oid_wf oid -> String.length (snd (PathFormat oid)) = 38%nat.
Proof.
  intros Hwf. unfold PathFormat. simpl.
  rewrite length_substring; rewrite length_Oid_String by assumption; lia.
Qed.

(** ** Prefix lookup in a bucket *)

Lemma countMatches_fold (prefix : string) (names : list string) (found : Z) (foundId : string) :
  fold_left
    (fun '(found, foundId) dirChildName =>
       if HasPrefix dirChildName prefix then (found + 1, dirChildName)
       else (found, foundId))
    names (found, foundId)
  = (found + Z.of_nat (length (filter (fun name => HasPrefix name prefix) names)),
     default foundId (last (filter (fun name => HasPrefix name prefix) names))).
Proof.
  revert found foundId. induction names as [|name names IH]; intros found foundId; simpl.
  - f_equal. lia.
  - rewrite filter_cons. destruct (HasPrefix name prefix) eqn:Hp; simpl.
    + rewrite IH. rewrite last_cons. simpl.
      destruct (last (filter _ names)); simpl; f_equal; lia.
    + apply IH.
Qed.

Lemma countMatches_filter (prefix : string) (names : list string) :
  countMatches prefix names
  = (Z.of_nat (length (filter (fun name => HasPrefix name prefix) names)),
     default EmptyString (last (filter (fun name => HasPrefix name prefix) names))).
Proof. unfold countMatches. rewrite countMatches_fold. reflexivity. Qed.





Example Loose_ExistsPrefix_bucketStore :
  Loose_ExistsPrefix bucketStore (looseAt "objects") readmeOid 5 = Ok readmeOid
  /\ Loose_ExistsPrefix bucketStore (looseAt "objects") readmeOid 40 = Ok readmeOid
  /\ Loose_ExistsPrefix bucketStore (looseAt "objects") readmeOid 2
     = Err (ErrorString "multiple matches in loose objects")
  /\ Loose_ExistsPrefix bucketStore (looseAt "objects")
       (mkOid (x02 :: x88 :: drop 2 (oid_bytes readmeOid))) 4
     = Err (ErrorString "no matching loose object for prefix")
  /\ Loose_ExistsPrefix bucketStore (looseAt "objects") readmeOid 1
     = Panic (SliceBoundsOutOfRange (-1) 38)
  /\ Loose_ExistsPrefix bucketStore (looseAt "objects") readmeOid 41
     = Panic (SliceBoundsOutOfRange 39 38).
Proof. repeat split; vm_compute; reflexivity. Qed.

(** ** Enumeration *)

Section ForEachFacts.

Context {S : Type}.
Variable callback : Oid -> S -> S * option error.




End ForEachFacts.





Example Loose_ForEach_mixedStore_all :
  Loose_ForEach (recording (fun _ => None)) mixedStore (looseAt "objects") []
  = ([readmeOid; oid_0277; oid_a100], Ok tt).
Proof. vm_compute. reflexivity. Qed.


(** ** The envelope that [Write] formats is read back by the parser *)

Lemma digit_of_decimal_char (d : Z) :
  0 <= d < 10 -> digit (ascii_of_N (48 + Z.to_N d)) = Some d.
Proof.
  intros Hd.
  assert (d = 0 \/ d = 1 \/ d = 2 \/ d = 3 \/ d = 4 \/ d = 5 \/ d = 6 \/ d = 7
          \/ d = 8 \/ d = 9) as Hcases by lia.
  repeat (destruct Hcases as [->|Hcases]; [reflexivity|]). subst d. reflexivity.
Qed.

Lemma parseUintLoop_decimalLoop (s0 : string) (fuel : nat) (n : Z) (acc : string) :
  0 <= n <= maxUint64 ->
  n < 10 ^ Z.of_nat (S fuel) ->
  parseUintLoop s0 (decimalLoop fuel n acc) 0 = parseUintLoop s0 acc n.
Proof.
  revert n acc. induction fuel as [|fuel IH]; intros n acc Hn Hfuel.
  - change (10 ^ Z.of_nat 1) with 10 in Hfuel.
    cbn [decimalLoop parseUintLoop].
    rewrite Z.mod_small by lia. rewrite digit_of_decimal_char by lia.
    unfold maxUint64 in *. simpl. replace (0 * 10 + n) with n by lia.
    destruct (Z.gtb_spec n (2 ^ 64 - 1)) as [?|_]; [lia|]. reflexivity.
  - cbn [decimalLoop]. destruct (Z.ltb_spec n 10) as [Hsmall|Hbig].
    + cbn [parseUintLoop]. rewrite Z.mod_small by lia.
      rewrite digit_of_decimal_char by lia. unfold maxUint64 in *. simpl.
      replace (0 * 10 + n) with n by lia.
      destruct (Z.gtb_spec n (2 ^ 64 - 1)) as [?|_]; [lia|]. reflexivity.
    + assert (0 <= n mod 10 < 10) as Hmod by (apply Z.mod_pos_bound; lia).
      assert (n = 10 * (n / 10) + n mod 10) as Hdiv by (apply Z.div_mod; lia).
      rewrite IH.
      * cbn [parseUintLoop]. rewrite digit_of_decimal_char by assumption.
        unfold maxUint64 in *.
        destruct (Z.geb_spec (n / 10) ((2 ^ 64 - 1) / 10 + 1)) as [Hge|_].
        { change ((2 ^ 64 - 1) / 10 + 1) with 1844674407370955162 in Hge.
          change (2 ^ 64 - 1) with 18446744073709551615 in Hn. lia. }
        replace (n / 10 * 10 + n mod 10) with n by lia.
        destruct (Z.gtb_spec n (2 ^ 64 - 1)) as [?|_]; [lia|]. reflexivity.
      * unfold maxUint64 in *. lia.
      * rewrite Nat2Z.inj_succ, Z.pow_succ_r in Hfuel by lia. lia.
Qed.

Lemma decimalLoop_nonempty (fuel : nat) (n : Z) (acc : string) :
  decimalLoop fuel n acc <> EmptyString.
Proof.
  revert n acc. induction fuel as [|fuel IH]; intros n acc; cbn [decimalLoop].
  - discriminate.
  - destruct (n <? 10); [discriminate|apply IH].
Qed.

Lemma ParseUint_decimal (n : Z) : 0 <= n <= maxUint64 -> ParseUint (decimal n) = Ok n.
Proof.
  intros Hn. unfold ParseUint, decimal.
  pose proof (decimalLoop_nonempty (Z.to_nat (Z.log2 n)) n EmptyString) as Hne.
  destruct (decimalLoop (Z.to_nat (Z.log2 n)) n EmptyString) as [|c s] eqn:Hs;
    [contradiction|].
  rewrite <- Hs at 2. rewrite parseUintLoop_decimalLoop; [reflexivity|assumption|].
  rewrite Nat2Z.inj_succ, Z2Nat.id by apply Z.log2_nonneg.
  destruct (Z.eq_dec n 0) as [->|Hpos]; [reflexivity|].
  pose proof (Z.log2_spec n ltac:(lia)) as [_ Hlog].
  pose proof (Z.log2_nonneg n) as Hl.
  eapply Z.lt_le_trans; [exact Hlog|].
  apply Z.pow_le_mono_l. lia.
Qed.

Lemma length_decimalLoop (fuel : nat) (n : Z) (acc : string) (k : nat) :
  0 <= n < 10 ^ Z.of_nat (S k) ->
  (String.length (decimalLoop fuel n acc) <= S k + String.length acc)%nat.
Proof.
  revert n acc k. induction fuel as [|fuel IH]; intros n acc k Hn; cbn [decimalLoop].
  - simpl. lia.
  - destruct (Z.ltb_spec n 10) as [Hsmall|Hbig]; [simpl; lia|].
    destruct k as [|k]; [change (10 ^ Z.of_nat 1) with 10 in Hn; lia|].
    specialize (IH (n / 10) (String (ascii_of_N (48 + Z.to_N (n mod 10))) acc) k).
    simpl String.length in IH. etransitivity; [apply IH|lia].
    split; [apply Z.div_pos; lia|].
    apply Z.div_lt_upper_bound; [lia|].
    rewrite (Nat2Z.inj_succ (S k)), Z.pow_succ_r in Hn by lia. lia.
Qed.

Lemma length_decimal (n : Z) :
  0 <= n <= maxUint64 -> (String.length (decimal n) <= 20)%nat.
Proof.
  intros Hn. unfold decimal.
  pose proof (length_decimalLoop (Z.to_nat (Z.log2 n)) n EmptyString 19) as Hlen.
  simpl String.length in Hlen. rewrite Nat.add_0_r in Hlen. apply Hlen.
  unfold maxUint64 in Hn.
  change (10 ^ Z.of_nat 20) with 100000000000000000000.
  change (2 ^ 64 - 1) with 18446744073709551615 in Hn. lia.
Qed.

Lemma list_byte_of_string_String (c : ascii) (s : string) :
  String.list_byte_of_string (String c s) = byte_of_ascii c :: String.list_byte_of_string s.
Proof. reflexivity. Qed.

Lemma list_byte_of_string_app (a b : string) :
  String.list_byte_of_string (a +:+ b)
  = String.list_byte_of_string a ++ String.list_byte_of_string b.
Proof.
  induction a as [|c a IH]; [reflexivity|].
  rewrite append_String, !list_byte_of_string_String, IH. reflexivity.
Qed.

Lemma length_list_byte_of_string (s : string) :
  length (String.list_byte_of_string s) = String.length s.
Proof.
  induction s as [|c s IH]; [reflexivity|].
  rewrite list_byte_of_string_String. simpl. rewrite IH. reflexivity.
Qed.

Lemma decimalLoop_no_nul (fuel : nat) (n : Z) (acc : string) :
  x00 ∉ String.list_byte_of_string acc ->
  x00 ∉ String.list_byte_of_string (decimalLoop fuel n acc).
Proof.
  assert (forall m acc', x00 ∉ String.list_byte_of_string acc' ->
            x00 ∉ String.list_byte_of_string
                    (String (ascii_of_N (48 + Z.to_N (m mod 10))) acc')) as Hstep.
  { intros m acc' Hacc. rewrite list_byte_of_string_String.
    apply not_elem_of_cons. split; [|assumption].
    assert (0 <= m mod 10 < 10) as Hd by (apply Z.mod_pos_bound; lia).
    assert (m mod 10 = 0 \/ m mod 10 = 1 \/ m mod 10 = 2 \/ m mod 10 = 3
            \/ m mod 10 = 4 \/ m mod 10 = 5 \/ m mod 10 = 6 \/ m mod 10 = 7
            \/ m mod 10 = 8 \/ m mod 10 = 9) as Hcases by lia.
    repeat (destruct Hcases as [->|Hcases]; [discriminate|]).
    rewrite Hcases. discriminate. }
  revert n acc. induction fuel as [|fuel IH]; intros n acc Hacc; cbn [decimalLoop].
  - apply Hstep. assumption.
  - destruct (n <? 10); [apply Hstep; assumption|]. apply IH, Hstep. assumption.
Qed.

Lemma valid_type_cases (t : ObjectType) :
  valid_type t = true ->
  t = ObjectCommit \/ t = ObjectTree \/ t = ObjectBlob \/ t = ObjectTag.
Proof.
  unfold valid_type. intros H.
  destruct (Z.eqb_spec t ObjectCommit); [tauto|].
  destruct (Z.eqb_spec t ObjectTree); [tauto|].
  destruct (Z.eqb_spec t ObjectBlob); [tauto|].
  destruct (Z.eqb_spec t ObjectTag); [tauto|]. discriminate.
Qed.

Lemma type_name_roundtrip (t : ObjectType) :
  valid_type t = true ->
  TypeString2Type (String.string_of_list_byte (String.list_byte_of_string (ObjectType_String t))) = t
  /\ (x20 ∉ String.list_byte_of_string (ObjectType_String t))
  /\ (length (String.list_byte_of_string (ObjectType_String t)) <= 6)%nat.
Proof.
  intros Hvalid.
  destruct (valid_type_cases t Hvalid) as [-> | [-> | [-> | ->]]];
    (split; [reflexivity|split; [apply (bool_decide_unpack _); vm_compute; reflexivity
                                |vm_compute; lia]]).
Qed.

Lemma envelope_split (payload : list byte) (objType : ObjectType) :
  envelope payload objType
  = String.list_byte_of_string (ObjectType_String objType)
    ++ x20 :: String.list_byte_of_string (decimal (Z.of_nat (length payload)))
    ++ x00 :: payload.
Proof.
  unfold envelope. rewrite !list_byte_of_string_app, <- !app_assoc. reflexivity.
Qed.

(** The parser on the envelope, and on any cut of it that keeps the
    first 28 bytes. *)
Lemma parseObjectHeader_envelope (payload : list byte) (objType : ObjectType) (n : nat) :
  valid_type objType = true ->
  Z.of_nat (length payload) <= maxUint64 ->
  (28 <= n)%nat ->
  exists offset,
    parseObjectHeader (envelope payload objType)
    = Ok (objType, Z.of_nat (length payload), offset)
    /\ drop offset (envelope payload objType) = payload
    /\ parseObjectHeader (take n (envelope payload objType))
       = Ok (objType, Z.of_nat (length payload), offset).
Proof.
  intros Hvalid Hsize Hn.
  destruct (type_name_roundtrip objType Hvalid) as (Hname & Hspace & Hlen).
  set (ty := String.list_byte_of_string (ObjectType_String objType)) in *.
  set (sz := String.list_byte_of_string (decimal (Z.of_nat (length payload)))).
  assert (x00 ∉ sz) as Hnul.
  { apply decimalLoop_no_nul. simpl. apply not_elem_of_nil. }
  assert (length sz <= 20)%nat as Hsz.
  { unfold sz. rewrite length_list_byte_of_string. apply length_decimal. lia. }
  assert (ParseUint (String.string_of_list_byte sz) = Ok (Z.of_nat (length payload)))
    as Hparse.
  { unfold sz. rewrite String.string_of_list_byte_of_string.
    apply ParseUint_decimal. lia. }
  exists (length ty + length sz + 2)%nat.
  rewrite envelope_split. fold ty. fold sz.
  split; [|split].
  - rewrite parseObjectHeader_split, Hparse, Hname by assumption. reflexivity.
  - replace (ty ++ x20 :: sz ++ x00 :: payload)
      with ((ty ++ x20 :: sz ++ [x00]) ++ payload)
      by (rewrite <- !app_assoc; simpl; rewrite <- app_assoc; reflexivity).
    apply drop_app_length'. rewrite length_app. simpl. rewrite length_app. simpl. lia.
  - replace (ty ++ x20 :: sz ++ x00 :: payload)
      with ((ty ++ x20 :: sz ++ [x00]) ++ payload)
      by (rewrite <- !app_assoc; simpl; rewrite <- app_assoc; reflexivity).
    rewrite take_app.
    rewrite take_ge by (rewrite length_app; simpl; rewrite length_app; simpl; lia).
    rewrite <- !app_assoc. simpl. rewrite <- app_assoc. simpl.
    rewrite parseObjectHeader_split, Hparse, Hname by assumption. reflexivity.
Qed.

(** ** [ReadHeader] against [Read] *)

Lemma Loose_headers_compact (z : zlib) (content hdr body : list byte)
    (objType : ObjectType) (payload : list byte) :
  content = hdr ++ body ->
  compactHeader_format content = Some (objType, Z.of_nat (length payload), length hdr) ->
  newReaderOk z body = true ->
  inflate z body = payload ->
  (let* '(objType, size, _) := parseBinaryObjectHeader content in Ok (objType, size))
  = headerOf
      (let* '(objType, _, offset) := parseBinaryObjectHeader content in
       if newReaderOk z (drop offset content)
       then Ok (mkOdbObject objType (inflate z (drop offset content)))
       else Panic NilDereference).
Proof.
  intros Hcontent Hformat Hreader Hinflate.
  destruct content as [|b0 rest]; [discriminate|].
  destruct (Z.eqb_spec (Z.land (byte_to_Z b0) 0x80) 0) as [Hclear|Hset].
  - rewrite parseBinaryObjectHeader_single by assumption.
    unfold compactHeader_format in Hformat.
    destruct (Z.eqb_spec (Z.land (byte_to_Z b0) 128) 0) as [_|?]; [|contradiction].
    injection Hformat as Hty Hsize Hhdr. simpl.
    assert (drop 1 (b0 :: rest) = body) as Hbody.
    { rewrite Hcontent. apply drop_app_length'. congruence. }
    change (drop 1 (b0 :: rest)) with (drop 0 rest) in Hbody.
    rewrite Hbody, Hreader, Hinflate. simpl.
    rewrite Hty, Hsize. reflexivity.
  - pose proof (parseBinaryObjectHeader_continued b0 rest Hset) as Hnever.
    destruct (parseBinaryObjectHeader (b0 :: rest)) as [r|e|p]; [discriminate|..];
      reflexivity.
Qed.

Lemma Loose_Read_compact_one_byte (z : zlib) (b0 : byte) (rest hdr body : list byte)
    (objType : ObjectType) (payload : list byte) :
  b0 :: rest = hdr ++ body ->
  compactHeader_format (b0 :: rest)
    = Some (objType, Z.of_nat (length payload), length hdr) ->
  newReaderOk z body = true ->
  inflate z body = payload ->
  Z.land (byte_to_Z b0) 0x80 = 0 ->
  (let* '(objType, _, offset) := parseBinaryObjectHeader (b0 :: rest) in
   if newReaderOk z (drop offset (b0 :: rest))
   then Ok (mkOdbObject objType (inflate z (drop offset (b0 :: rest))))
   else Panic NilDereference)
  = Ok (mkOdbObject objType payload).
Proof.
  intros Hcontent Hformat Hreader Hinflate Hclear.
  rewrite parseBinaryObjectHeader_single by assumption.
  unfold compactHeader_format in Hformat.
  destruct (Z.eqb_spec (Z.land (byte_to_Z b0) 128) 0) as [_|?]; [|contradiction].
  injection Hformat as Hty Hsize Hhdr. simpl.
  assert (drop 1 (b0 :: rest) = body) as Hbody.
  { rewrite Hcontent. apply drop_app_length'. congruence. }
  change (drop 1 (b0 :: rest)) with (drop 0 rest) in Hbody.
  rewrite Hbody, Hreader, Hinflate, Hty. reflexivity.
Qed.

(** [ReadHeader] against [Read] on a stored object: the two calls end
    in the same way, with a header and the object it belongs to or with
    the same failure.  In the legacy layout both succeed, and
    [ReadHeader] depends on the compressed stream through its first 64
    decompressed bytes only; in the compact layout [ReadHeader] does not
    depend on the compression library at all, and both succeed when the
    header is one byte long.  With a longer compact header both fail. *)
Theorem Loose_ReadHeader_agrees_with_Read (z : zlib) (fs : FileSystem)
    (o : OdbBackendLoose) (oid : Oid) (content : list byte)
    (objType : ObjectType) (payload : list byte) :
  ReadFile fs (objectPath o oid) = Ok content ->
  stored z content objType payload ->
  Z.of_nat (length payload) <= maxUint64 ->
  Loose_ReadHeader z fs o oid = headerOf (Loose_Read z fs o oid)
  /\ (isZlibCompressedData content = Ok true ->
        Loose_Read z fs o oid = Ok (mkOdbObject objType payload)
        /\ forall z', newReaderOk z' content = true ->
             take 64 (inflate z' content) = take 64 (inflate z content) ->
             Loose_ReadHeader z' fs o oid = Ok (objType, Z.of_nat (length payload)))
  /\ (isZlibCompressedData content = Ok false ->
        (forall z', Loose_ReadHeader z' fs o oid = Loose_ReadHeader z fs o oid)
        /\ (forall b0 rest, content = b0 :: rest -> Z.land (byte_to_Z b0) 0x80 = 0 ->
              Loose_Read z fs o oid = Ok (mkOdbObject objType payload))).
Proof.
  intros Hfile Hstored Hsize.
  unfold Loose_ReadHeader, Loose_Read, objectPath in *.
  destruct (PathFormat oid) as [dirName fileName]. rewrite Hfile. simpl.
  destruct Hstored as [Hzlib Hreader Hvalid Hinflate
                      |hdr body Hzlib Hcontent Hformat Hreader Hinflate].
  - destruct (parseObjectHeader_envelope payload objType 64 Hvalid Hsize ltac:(lia))
      as (offset & Hfull & Hdrop & Hcut).
    rewrite Hzlib. simpl. rewrite Hreader, Hinflate, Hfull, Hcut. simpl. rewrite Hdrop.
    split; [reflexivity|]. split; [|discriminate].
    intros _. split; [reflexivity|]. intros z' Hreader' Hprefix.
    rewrite Hreader', Hprefix, Hcut. reflexivity.
  - rewrite Hzlib. simpl.
    split; [|split; [discriminate|intros _; split; [reflexivity|]]].
    + apply (Loose_headers_compact z content hdr body objType payload); assumption.
    + intros b0 rest -> Hclear.
      apply (Loose_Read_compact_one_byte z b0 rest hdr body objType payload); assumption.
Qed.

Lemma Loose_ReadHeader_agrees_with_Read_witness :
  Loose_ReadHeader storedZlib readmeStore (looseAt "objects") readmeOid
  = headerOf (Loose_Read storedZlib readmeStore (looseAt "objects") readmeOid)
  /\ Loose_ReadHeader storedZlib readmeStore (looseAt "objects") oid_0277
     = headerOf (Loose_Read storedZlib readmeStore (looseAt "objects") oid_0277).
Proof.
  split.
  - refine (proj1 (Loose_ReadHeader_agrees_with_Read storedZlib readmeStore
                     (looseAt "objects") readmeOid
                     (deflate storedZlib
                        (envelope (String.list_byte_of_string "Testing a readme.txt") ObjectBlob))
                     ObjectBlob (String.list_byte_of_string "Testing a readme.txt")
                     eq_refl _ _)).
    + apply stored_legacy; reflexivity.
    + vm_compute. discriminate.
  - refine (proj1 (Loose_ReadHeader_agrees_with_Read storedZlib readmeStore
                     (looseAt "objects") oid_0277
                     (x35 :: deflate storedZlib (String.list_byte_of_string "hello"))
                     ObjectBlob (String.list_byte_of_string "hello")
                     eq_refl _ _)).
    + apply (stored_compact _ _ _ _ [x35]
               (deflate storedZlib (String.list_byte_of_string "hello"))); reflexivity.
    + vm_compute. discriminate.
Defined.

Example Loose_Read_readmeStore :
  Loose_Read storedZlib readmeStore (looseAt "objects") readmeOid
  = Ok (mkOdbObject ObjectBlob (String.list_byte_of_string "Testing a readme.txt"))
  /\ Loose_ReadHeader storedZlib readmeStore (looseAt "objects") readmeOid
     = Ok (ObjectBlob, 20)
  /\ Loose_Read storedZlib readmeStore (looseAt "objects") oid_0277
     = Ok (mkOdbObject ObjectBlob (String.list_byte_of_string "hello"))
  /\ Loose_ReadHeader storedZlib readmeStore (looseAt "objects") oid_0277
     = Ok (ObjectBlob, 5).
Proof. repeat split; vm_compute; reflexivity. Qed.

(** ** The dispatcher *)

Section DispatcherFacts.

Context {B A : Type} `{OdbBackend B}.
Variable call : B -> result A.
Variable noMatch : error.

Lemma firstSuccess_Ok (backends : list B) (x : A) :
  firstSuccess call noMatch backends = Ok x <->
  exists before backend after,
    backends = before ++ backend :: after
    /\ Forall (fun b => is_err (call b) = true) before
    /\ call backend = Ok x.
Proof.
  split.
  - induction backends as [|b rest IH]; simpl; [discriminate|].
    destruct (call b) as [y|e|p] eqn:Hb; intros Hr.
    + exists [], b, rest. repeat split; [constructor|congruence].
    + destruct (IH Hr) as (before & backend & after & -> & Hbefore & Hcall).
      exists (b :: before), backend, after. repeat split; [|assumption].
      constructor; [rewrite Hb; reflexivity|assumption].
    + discriminate.
  - intros (before & backend & after & -> & Hbefore & Hcall).
    induction Hbefore as [|b before Hb _ IH]; simpl.
    + rewrite Hcall. reflexivity.
    + destruct (call b); try discriminate. assumption.
Qed.

Lemma firstSuccess_Err (backends : list B) (e : error) :
  firstSuccess call noMatch backends = Err e <->
  e = noMatch /\ Forall (fun b => is_err (call b) = true) backends.
Proof.
  induction backends as [|b rest IH]; simpl.
  - split; [intros [= <-]; split; [reflexivity|constructor]|intros [-> _]; reflexivity].
  - destruct (call b) as [y|e'|p] eqn:Hb.
    + split; [discriminate|]. intros [_ Hall]. apply Forall_cons in Hall as [Hfalse _].
      rewrite Hb in Hfalse. discriminate.
    + rewrite IH. split; intros [-> Hall]; (split; [reflexivity|]).
      * constructor; [rewrite Hb; reflexivity|assumption].
      * apply Forall_cons in Hall as [_ Hall]. assumption.
    + split; [discriminate|]. intros [_ Hall]. apply Forall_cons in Hall as [Hfalse _].
      rewrite Hb in Hfalse. discriminate.
Qed.

Lemma firstSuccess_dispatched (backends : list B) :
  StronglySorted (fun x y => backend_priority x <= backend_priority y) backends ->
  dispatched call noMatch backends (firstSuccess call noMatch backends).
Proof.
  intros Hsorted. split; [|split].
  - intros x. rewrite firstSuccess_Ok. split.
    + intros (before & backend & after & Hsplit & Hbefore & Hcall).
      exists before, backend, after. repeat split; try assumption.
      * subst backends. apply StronglySorted_app in Hsorted as (Hcross & _ & _).
        apply Forall_forall. intros b Hb. apply Hcross; [assumption|].
        apply elem_of_cons. left. reflexivity.
      * subst backends. apply StronglySorted_app in Hsorted as (_ & _ & Hright).
        apply StronglySorted_cons in Hright as [Hafter _]. exact Hafter.
    + intros (before & backend & after & Hsplit & Hbefore & Hcall & _ & _).
      exists before, backend, after. repeat split; assumption.
  - rewrite firstSuccess_Err. split; [intros [_ Hall]; exact Hall|intros Hall; split; [reflexivity|exact Hall]].
  - intros e He. apply firstSuccess_Err in He as [-> _]. reflexivity.
Qed.

End DispatcherFacts.

(** C5: on a backend list ascending by priority, [Read], [ReadHeader]
    and [ReadPrefix] return the result of the first backend that
    succeeds, the errors of the backends before it being dropped; the
    no-match error is the result exactly when every backend has failed;
    and [Exists] is true exactly when some backend reports the
    object. *)
Theorem Odb_dispatch {B : Type} `{OdbBackend B} (fs : FileSystem) (o : Odb B)
    (oid : Oid) (len : Z) :
  StronglySorted (fun x y => backend_priority x <= backend_priority y) (backends o) ->
  dispatched (fun backend => backend_Read fs backend oid)
    (ErrorString ("Odb.Read: no match for id: " +:+ Oid_String oid))
    (backends o) (Odb_Read fs o oid)
  /\ dispatched (fun backend => backend_ReadHeader fs backend oid)
       (ErrorString ("Odb.ReadHeader: no match for id: " +:+ Oid_String oid))
       (backends o) (Odb_ReadHeader fs o oid)
  /\ dispatched (fun backend => backend_ReadPrefix fs backend oid len)
       (ErrorString ("Odb.ReadPrefix: no match for id: " +:+ Oid_String oid))
       (backends o) (Odb_ReadPrefix fs o oid len)
  /\ (Odb_Exists fs o oid = true <->
      exists backend, backend ∈ backends o /\ backend_Exists fs backend oid = true).
Proof.
  intros Hsorted.
  split; [apply firstSuccess_dispatched; assumption|].
  split; [apply firstSuccess_dispatched; assumption|].
  split; [apply firstSuccess_dispatched; assumption|].
  unfold Odb_Exists. rewrite existsb_exists.
  split; intros (backend & Hin & Hex); exists backend;
    (split; [apply list_elem_of_In; assumption|assumption]).
Qed.

Lemma twoBackends_sorted :
  StronglySorted
    (fun x y : OdbBackendLoose => priority (base x) <= priority (base y))
    (backends twoBackends).
Proof. apply (bool_decide_unpack _). vm_compute. reflexivity. Qed.

Lemma Odb_dispatch_witness :
  dispatched (H := OdbBackendLoose_backend storedZlib)
    (fun backend => Loose_Read storedZlib twoStores backend readmeOid)
    (ErrorString ("Odb.Read: no match for id: " +:+ Oid_String readmeOid))
    (backends twoBackends)
    (Odb_Read (H := OdbBackendLoose_backend storedZlib) twoStores twoBackends readmeOid).
Proof.
  exact (proj1 (Odb_dispatch (H := OdbBackendLoose_backend storedZlib)
                  twoStores twoBackends readmeOid 40 twoBackends_sorted)).
Defined.

Example Odb_Read_twoStores :
  Odb_Read (H := OdbBackendLoose_backend storedZlib) twoStores twoBackends readmeOid
  = Ok (mkOdbObject ObjectBlob (String.list_byte_of_string "Testing a readme.txt"))
  /\ Odb_ReadHeader (H := OdbBackendLoose_backend storedZlib) twoStores twoBackends readmeOid
     = Ok (ObjectBlob, 20)
  /\ Odb_ReadPrefix (H := OdbBackendLoose_backend storedZlib) twoStores twoBackends readmeOid 7
     = Ok (readmeOid,
           mkOdbObject ObjectBlob (String.list_byte_of_string "Testing a readme.txt"))
  /\ Odb_Exists (H := OdbBackendLoose_backend storedZlib) twoStores twoBackends readmeOid
     = true
  /\ Odb_Read (H := OdbBackendLoose_backend storedZlib) twoStores twoBackends oid_0277
     = Err (ErrorString "Odb.Read: no match for id: 0277aa3a49e280c4f5ed1e08facd36a2bd716bcf")
  /\ Odb_Exists (H := OdbBackendLoose_backend storedZlib) twoStores twoBackends oid_0277
     = false.
Proof. repeat split; vm_compute; reflexivity. Qed.

(** ** The order of the backend list *)

Section SortContract.

Variable sort_Sort : forall A : Type, (A -> A -> bool) -> list A -> list A.
Hypothesis sort_Sort_Permutation :
  forall (A : Type) (less : A -> A -> bool) (l : list A), sort_Sort A less l ≡ₚ l.
Hypothesis sort_Sort_sorted :
  forall (A : Type) (key : A -> Z) (l : list A),
    StronglySorted (fun x y => key x <= key y)
      (sort_Sort A (fun x y => key x <? key y) l).

Context {B : Type} `{OdbBackend B}.

Lemma addBackendInternal_sorted (o : Odb B) (backend : B) (priority : Z)
    (asAlternates : bool) (dirInfo : FileInfo) :
  StronglySorted (fun x y => backend_priority x <= backend_priority y)
    (backends (addBackendInternal sort_Sort o backend priority asAlternates dirInfo)).
Proof. unfold addBackendInternal, OdbBackends_Less. simpl. apply sort_Sort_sorted. Qed.

Lemma addBackendInternal_Permutation (o : Odb B) (backend : B) (priority : Z)
    (asAlternates : bool) (dirInfo : FileInfo) :
  backends (addBackendInternal sort_Sort o backend priority asAlternates dirInfo)
  ≡ₚ backends o ++ [backend_InitBackend backend priority asAlternates dirInfo].
Proof. unfold addBackendInternal. simpl. apply sort_Sort_Permutation. Qed.

Lemma registerAll_Permutation (o : Odb B) (rs : list (B * Z * bool * FileInfo)) :
  backends (registerAll sort_Sort o rs) ≡ₚ backends o ++ map initialised rs.
Proof.
  revert o. induction rs as [|[[[backend priority] asAlternates] dirInfo] rs IH];
    intros o; simpl.
  - rewrite app_nil_r. reflexivity.
  - unfold registerAll in *. simpl. rewrite IH.
    rewrite addBackendInternal_Permutation, <- app_assoc. reflexivity.
Qed.

Lemma registerAll_sorted (o : Odb B) (rs : list (B * Z * bool * FileInfo)) :
  StronglySorted (fun x y => backend_priority x <= backend_priority y) (backends o) ->
  StronglySorted (fun x y => backend_priority x <= backend_priority y)
    (backends (registerAll sort_Sort o rs)).
Proof.
  revert o. induction rs as [|[[[backend priority] asAlternates] dirInfo] rs IH];
    intros o Hsorted; [exact Hsorted|].
  unfold registerAll in *. simpl. apply IH. apply addBackendInternal_sorted.
Qed.

End SortContract.

(** Whatever [sort.Sort] does within its documented contract, after
    every sequence of registrations, at any priorities, the backend list
    is ascending by priority and holds the registered backends, each
    once, and every call of [addBackendInternal] leaves it so. *)
Theorem Odb_backends_sorted_by_priority
    (sort_Sort : forall A : Type, (A -> A -> bool) -> list A -> list A)
    {B : Type} `{OdbBackend B} (rs : list (B * Z * bool * FileInfo)) :
  (forall (A : Type) (less : A -> A -> bool) (l : list A), sort_Sort A less l ≡ₚ l) ->
  (forall (A : Type) (key : A -> Z) (l : list A),
     StronglySorted (fun x y => key x <= key y)
       (sort_Sort A (fun x y => key x <? key y) l)) ->
  StronglySorted (fun x y => backend_priority x <= backend_priority y)
    (backends (registerAll sort_Sort (mkOdb []) rs))
  /\ backends (registerAll sort_Sort (mkOdb []) rs) ≡ₚ map initialised rs
  /\ (forall (o : Odb B) backend priority asAlternates dirInfo,
        StronglySorted (fun x y => backend_priority x <= backend_priority y)
          (backends (addBackendInternal sort_Sort o backend priority asAlternates dirInfo))
        /\ backends (addBackendInternal sort_Sort o backend priority asAlternates dirInfo)
           ≡ₚ backends o ++ [backend_InitBackend backend priority asAlternates dirInfo]).
Proof.
  intros Hperm Hsorted. split; [|split].
  - apply registerAll_sorted; [assumption|]. constructor.
  - rewrite registerAll_Permutation by assumption. reflexivity.
  - intros o backend priority asAlternates dirInfo. split.
    + apply addBackendInternal_sorted. assumption.
    + apply addBackendInternal_Permutation. assumption.
Qed.

Lemma sortMerge_Permutation (A : Type) (less : A -> A -> bool) (l : list A) :
  sortMerge A less l ≡ₚ l.
Proof. unfold sortMerge. apply merge_sort_Permutation. Qed.

Lemma sortMerge_sorted (A : Type) (key : A -> Z) (l : list A) :
  StronglySorted (fun x y => key x <= key y)
    (sortMerge A (fun x y => key x <? key y) l).
Proof.
  unfold sortMerge.
  set (R := fun x y : A => Is_true (negb (key y <? key x))).
  assert (forall x y, R x y <-> key x <= key y) as HR.
  { intros x y. unfold R. destruct (Z.ltb_spec (key y) (key x)); simpl; split;
      intros; try lia; try contradiction; exact I. }
  assert (Transitive R) as Htrans.
  { intros x y w Hxy Hyw. apply HR. apply HR in Hxy. apply HR in Hyw. lia. }
  assert (Total R) as Htotal.
  { intros x y. destruct (Z.le_ge_cases (key x) (key y)); [left|right]; apply HR; lia. }
  pose proof (StronglySorted_merge_sort R l) as Hs.
  induction Hs as [|x l' Hs IH Hx]; constructor; [assumption|].
  eapply Forall_impl; [exact Hx|]. intros y Hy. apply HR. exact Hy.
Qed.

Lemma Odb_backends_sorted_by_priority_witness :
  StronglySorted
    (fun x y : OdbBackendLoose => priority (base x) <= priority (base y))
    (backends (registerAll (H := OdbBackendLoose_backend storedZlib) sortMerge
                 (mkOdb []) packedThenLoose)).
Proof.
  exact (proj1 (Odb_backends_sorted_by_priority (H := OdbBackendLoose_backend storedZlib)
                  sortMerge packedThenLoose sortMerge_Permutation sortMerge_sorted)).
Defined.

(** The merge sort is within the contract and does not keep the order
    of registration either. *)
Example registerAll_sortMerge :
  objectsDir <$> backends (registerAll (H := OdbBackendLoose_backend storedZlib) sortMerge
                             (mkOdb []) packedThenLoose)
  = ["objects"; "p0"; "p1"; "p3"; "p5"; "p4"; "p2"].
Proof. vm_compute. reflexivity. Qed.

(** Registrations at two priorities need not stay in order.  With
    [sort.Sort] as Go 1.18 runs it on a list of seven, six backends
    registered at priority 2 and then one at priority 1 end up ascending
    by priority, but the backend registered first among the six is now
    the last of them: the pass over the elements six places apart has
    swapped it with the new backend.  The sources do not reach this
    list, since their one call of [addBackendInternal] passes the loose
    priority. *)
Lemma addBackendInternal_not_stable :
  objectsDir <$> backends (registerAll (H := OdbBackendLoose_backend storedZlib) sortShort118
                             (mkOdb []) packedThenLoose)
  = ["objects"; "p1"; "p2"; "p3"; "p4"; "p5"; "p0"]
  /\ (priority ∘ base) <$> backends (registerAll (H := OdbBackendLoose_backend storedZlib)
                                       sortShort118 (mkOdb []) packedThenLoose)
     = [1; 2; 2; 2; 2; 2; 2]
  /\ filter (fun b => priority (base b) = 2)
       (backends (registerAll (H := OdbBackendLoose_backend storedZlib) sortShort118
                    (mkOdb []) packedThenLoose))
     <> filter (fun b => priority (base b) = 2)
          (initialised (H := OdbBackendLoose_backend storedZlib) <$> packedThenLoose).
Proof. repeat split; vm_compute; [reflexivity..|discriminate]. Qed.

(** The same pass leaves shorter lists and lists of one priority alone:
    up to six backends, as after the first six registrations here, the
    order of registration is kept. *)
Example registerAll_sortShort118_six :
  objectsDir <$> backends (registerAll (H := OdbBackendLoose_backend storedZlib) sortShort118
                             (mkOdb []) (take 6 packedThenLoose))
  = ["p0"; "p1"; "p2"; "p3"; "p4"; "p5"].
Proof. vm_compute. reflexivity. Qed.

(** ** Alternates *)

Section AlternatesFacts.

Variable z : zlib.
Variable sort_Sort : forall A : Type, (A -> A -> bool) -> list A -> list A.
Variable fs : FileSystem.

Lemma alternatesLoop_is_Some
    (add : Odb OdbBackendLoose -> string -> option (Odb OdbBackendLoose * result unit))
    (objectsDir : string) (alternateDepth : Z) (lines : list string)
    (o : Odb OdbBackendLoose) :
  (0 < alternateDepth -> forall o' path, is_Some (add o' path)) ->
  is_Some (alternatesLoop add objectsDir alternateDepth lines o).
Proof.
  intros Hadd. revert o. induction lines as [|line rest IH]; intros o; simpl; [eauto|].
  destruct (_ || _); [apply IH|].
  destruct (bool_decide _); simpl; [|apply IH].
  destruct (Z.gtb_spec alternateDepth 0) as [Hpos|_]; [|apply IH].
  destruct (Hadd Hpos o (Join [objectsDir; line])) as [[o' [[]|e|p]] Hr];
    rewrite Hr; [apply IH|eauto..].
Qed.

Lemma AddDefaultBackends_fuel_is_Some (fuel : nat) (o : Odb OdbBackendLoose)
    (objectsDir : string) (asAlternates : bool) (alternateDepth : Z) :
  (1 <= fuel)%nat ->
  alternateDepth <= 0 \/ 5 < alternateDepth \/ 7 - alternateDepth <= Z.of_nat fuel ->
  is_Some (AddDefaultBackends_fuel z sort_Sort fs fuel o objectsDir asAlternates
             alternateDepth).
Proof.
  revert o objectsDir asAlternates alternateDepth.
  induction fuel as [|fuel IH]; intros o objectsDir asAlternates alternateDepth Hfuel Hdepth;
    [lia|].
  simpl. destruct (Stat fs objectsDir) as [info|e|p]; [|eauto..].
  destruct (existsb _ (backends o)); [eauto|].
  unfold loadAlternates_with, GIT_ALTERNATES_MAX_DEPTH.
  destruct (Z.gtb_spec alternateDepth 5) as [Hdeep|Hshallow]; [eauto|].
  destruct (IsNotExist _); [eauto|].
  match goal with
  | |- is_Some (match alternatesLoop ?add ?dir ?d ?lines ?o' with _ => _ end) =>
      destruct (alternatesLoop_is_Some add dir d lines o') as [[o'' r] Hr];
        [|rewrite Hr; eauto]
  end.
  intros Hpos o' path. apply IH; lia.
Qed.

Lemma AddDefaultBackends_fuel_enough (o : Odb OdbBackendLoose) (objectsDir : string)
    (asAlternates : bool) (alternateDepth : Z) :
  AddDefaultBackends_fuel z sort_Sort fs 7 o objectsDir asAlternates alternateDepth
  = Some (AddDefaultBackends z sort_Sort fs o objectsDir asAlternates alternateDepth).
Proof.
  unfold AddDefaultBackends.
  destruct (AddDefaultBackends_fuel_is_Some 7 o objectsDir asAlternates alternateDepth)
    as [r Hr]; [lia|lia|].
  rewrite Hr. reflexivity.
Qed.

(** At depth 0 or below no line of the alternates file is followed. *)
Lemma alternatesLoop_root
    (add : Odb OdbBackendLoose -> string -> option (Odb OdbBackendLoose * result unit))
    (objectsDir : string) (alternateDepth : Z) (lines : list string)
    (o : Odb OdbBackendLoose) :
  alternateDepth <= 0 ->
  alternatesLoop add objectsDir alternateDepth lines o = Some (o, Ok tt).
Proof.
  intros Hdepth. induction lines as [|line rest IH]; simpl; [reflexivity|].
  destruct (_ || _); [apply IH|].
  destruct (Z.gtb_spec alternateDepth 0) as [Hpos|_]; [lia|].
  rewrite andb_false_r. apply IH.
Qed.

Lemma AddDefaultBackends_root (o : Odb OdbBackendLoose) (objectsDir : string)
    (asAlternates : bool) (alternateDepth : Z) :
  alternateDepth <= 0 ->
  AddDefaultBackends z sort_Sort fs o objectsDir asAlternates alternateDepth
  = match Stat fs objectsDir with
    | Ok info =>
        if existsb (fun backend => Loose_SameDirectory backend info) (backends o)
        then (o, Ok tt)
        else (addBackendInternal (H := OdbBackendLoose_backend z) sort_Sort o
                (NewOdbBackendLoose objectsDir (-1) false 0 0)
                GIT_LOOSE_PRIORITY asAlternates info, Ok tt)
    | _ => (o, Err (ErrorString
                      ("Failed to load object database in '" +:+ objectsDir +:+ "'")))
    end.
Proof.
  intros Hdepth. unfold AddDefaultBackends. simpl.
  destruct (Stat fs objectsDir) as [info|e|p]; [|reflexivity..].
  destruct (existsb _ (backends o)); [reflexivity|].
  unfold loadAlternates_with, GIT_ALTERNATES_MAX_DEPTH.
  destruct (Z.gtb_spec alternateDepth 5) as [?|_]; [lia|].
  destruct (IsNotExist _); [reflexivity|].
  rewrite alternatesLoop_root by assumption. reflexivity.
Qed.

(** Above the maximum depth [loadAlternates] returns at once. *)
Lemma loadAlternates_beyond_max (o : Odb OdbBackendLoose) (objectsDir : string)
    (alternateDepth : Z) :
  GIT_ALTERNATES_MAX_DEPTH < alternateDepth ->
  loadAlternates z sort_Sort fs o objectsDir alternateDepth = (o, Ok tt).
Proof.
  intros Hdeep. unfold loadAlternates, loadAlternates_fuel, loadAlternates_with.
  destruct (Z.gtb_spec alternateDepth GIT_ALTERNATES_MAX_DEPTH) as [_|?]; [reflexivity|lia].
Qed.

(** At a depth above 0 a line that starts with a dot is joined to the
    directory and handed to the recursive call, and an error of that
    call ends the loop. *)
Lemma alternatesLoop_follows
    (add : Odb OdbBackendLoose -> string -> option (Odb OdbBackendLoose * result unit))
    (objectsDir : string) (alternateDepth : Z) (line : string) (rest : list string)
    (o : Odb OdbBackendLoose) :
  0 < alternateDepth ->
  firstChar line = Some "."%char ->
  alternatesLoop add objectsDir alternateDepth (line :: rest) o
  = match add o (Join [objectsDir; line]) with
    | Some (o', Ok _) => alternatesLoop add objectsDir alternateDepth rest o'
    | Some (o', Err e) => Some (o', Err e)
    | Some (o', Panic p) => Some (o', Panic p)
    | None => None
    end.
Proof.
  intros Hpos Hdot. cbn [alternatesLoop]. rewrite Hdot.
  destruct line as [|ch line']; [discriminate|].
  destruct (Z.gtb_spec alternateDepth 0) as [_|?]; [|lia].
  reflexivity.
Qed.

End AlternatesFacts.

(** C2 (the code at the inputs where it departs from the claim): at
    depth 0, the depth [OdbOpen] starts from, [AddDefaultBackends]
    registers the directory it is given and nothing else, whatever the
    alternates file of that directory says: the test
    [line[0] == '.' && alternateDepth > 0] is false for every line. *)
Theorem AddDefaultBackends_depth0_follows_nothing (z : zlib)
    (sort_Sort : forall A : Type, (A -> A -> bool) -> list A -> list A)
    (fs : FileSystem) (o : Odb OdbBackendLoose) (objectsDir : string)
    (asAlternates : bool) (alternateDepth : Z) :
  alternateDepth <= 0 ->
  AddDefaultBackends z sort_Sort fs o objectsDir asAlternates alternateDepth
  = match Stat fs objectsDir with
    | Ok info =>
        if existsb (fun backend => Loose_SameDirectory backend info) (backends o)
        then (o, Ok tt)
        else (addBackendInternal (H := OdbBackendLoose_backend z) sort_Sort o
                (NewOdbBackendLoose objectsDir (-1) false 0 0)
                GIT_LOOSE_PRIORITY asAlternates info, Ok tt)
    | _ => (o, Err (ErrorString
                      ("Failed to load object database in '" +:+ objectsDir +:+ "'")))
    end.
Proof. apply AddDefaultBackends_root. Qed.

Lemma AddDefaultBackends_depth0_follows_nothing_witness :
  fileLines twoStores "objects/info/alternates" = ["# the shared store"; "../alt/objects"]
  /\ OdbOpen storedZlib sortShort118 twoStores "objects"
     = (mkOdb [Loose_InitBackend (looseAt "objects") 1 false 1%nat], Ok tt).
Proof.
  split; [reflexivity|].
  exact (AddDefaultBackends_depth0_follows_nothing storedZlib sortShort118 twoStores
           (mkOdb []) "objects" false 0 ltac:(lia)).
Defined.

(** The object behind one alternates link is not reachable from the
    Odb that [OdbOpen] returns. *)
Example OdbOpen_twoStores :
  Join ["objects"; "../alt/objects"] = "alt/objects"
  /\ objectsDir <$> backends (fst (OdbOpen storedZlib sortShort118 twoStores "objects"))
     = ["objects"]
  /\ Odb_Read (H := OdbBackendLoose_backend storedZlib) twoStores
       (fst (OdbOpen storedZlib sortShort118 twoStores "objects")) readmeOid
     = Err (ErrorString "Odb.Read: no match for id: 0266163a49e280c4f5ed1e08facd36a2bd716bcf")
  /\ Loose_Read storedZlib twoStores (looseAt "alt/objects") readmeOid
     = Ok (mkOdbObject ObjectBlob (String.list_byte_of_string "Testing a readme.txt")).
Proof. repeat split; vm_compute; reflexivity. Qed.

(** Entered at depth 1 the same code does follow the line. *)
Example AddDefaultBackends_depth1_twoStores :
  objectsDir <$> backends (fst (AddDefaultBackends storedZlib sortShort118 twoStores
                                  (mkOdb []) "objects" false 1))
  = ["objects"; "alt/objects"]
  /\ Odb_Read (H := OdbBackendLoose_backend storedZlib) twoStores
       (fst (AddDefaultBackends storedZlib sortShort118 twoStores
               (mkOdb []) "objects" false 1)) readmeOid
     = Ok (mkOdbObject ObjectBlob (String.list_byte_of_string "Testing a readme.txt")).
Proof. repeat split; vm_compute; reflexivity. Qed.

(** On the chain, [OdbOpen] registers the first directory only; from
    depth 1 the directories down to depth 6 are registered, and the
    alternates file of the last of them is not read. *)
Example AddDefaultBackends_chainStore :
  objectsDir <$> backends (fst (OdbOpen storedZlib sortShort118 chainStore "c")) = ["c"]
  /\ objectsDir <$> backends (fst (AddDefaultBackends storedZlib sortShort118 chainStore
                                     (mkOdb []) "c" false 1))
     = ["c"; "c/a"; "c/a/a"; "c/a/a/a"; "c/a/a/a/a"; "c/a/a/a/a/a"]
  /\ objectsDir <$> backends (fst (AddDefaultBackends storedZlib sortShort118 chainStore
                                     (mkOdb []) "c" false 5))
     = ["c"; "c/a"]
  /\ objectsDir <$> backends (fst (AddDefaultBackends storedZlib sortShort118 chainStore
                                     (mkOdb []) "c" false 6))
     = ["c"].
Proof. repeat split; vm_compute; reflexivity. Qed.

(** [sort.Sort] as Go 1.19 and later run it keeps seven backends in the
    order of registration, but not fourteen: with thirteen backends
    registered at priority 2 and then one at priority 1, the first
    partition swaps the pivot, which is the seventh backend, to the
    front. *)
Example registerAll_sortPdq119 :
  objectsDir <$> backends (registerAll (H := OdbBackendLoose_backend storedZlib) sortPdq119
                             (mkOdb []) packedThenLoose)
  = ["objects"; "p0"; "p1"; "p2"; "p3"; "p4"; "p5"]
  /\ is_Some (sortPdq (OdbBackends_Less (H := OdbBackendLoose_backend storedZlib))
                (initialised (H := OdbBackendLoose_backend storedZlib) <$> packed13ThenLoose))
  /\ objectsDir <$> backends (registerAll (H := OdbBackendLoose_backend storedZlib) sortPdq119
                                (mkOdb []) packed13ThenLoose)
     = ["objects"; "p6"; "p2"; "p3"; "p4"; "p5"; "p0"; "p7"; "p8"; "p9"; "p10"; "p11";
        "p12"; "p1"].
Proof. repeat split; vm_compute; eauto. Qed.

(** * Further properties of the code *)

(** ** The text header parser on arbitrary input *)

Lemma typeLoop_bounds (data rest : list byte) (offset : nat) :
  (offset + length rest = length data)%nat ->
  (snd (fst (typeLoop data rest offset)) <= snd (typeLoop data rest offset)
   /\ offset <= snd (typeLoop data rest offset)
   /\ snd (typeLoop data rest offset) <= length data)%nat.
Proof.
  revert offset. induction rest as [|b rest IH]; intros offset Hlen; simpl in *.
  - lia.
  - destruct (Byte.eqb b x20); simpl; [lia|].
    specialize (IH (S offset) ltac:(lia)). lia.
Qed.

Lemma typeLoop_no_space (data rest : list byte) (offset : nat) :
  x20 ∉ rest ->
  typeLoop data rest offset = (ObjectBad, 0%nat, (offset + length rest)%nat).
Proof.
  revert offset. induction rest as [|b rest IH]; intros offset Hno; simpl.
  - rewrite Nat.add_0_r. reflexivity.
  - apply not_elem_of_cons in Hno as [Hb Hno].
    destruct (Byte.eqb b x20) eqn:Heq.
    { apply Byte.byte_dec_bl in Heq. congruence. }
    rewrite IH by assumption.
    replace (S offset + length rest)%nat with (offset + S (length rest))%nat by lia.
    reflexivity.
Qed.

Lemma sizeLoop_no_nul (data rest : list byte) (resultType : ObjectType)
    (typeEnd offset : nat) :
  x00 ∉ rest ->
  sizeLoop data rest resultType typeEnd offset
  = Ok (resultType, 0, (offset + length rest)%nat).
Proof.
  revert offset. induction rest as [|b rest IH]; intros offset Hno; simpl.
  - rewrite Nat.add_0_r. reflexivity.
  - apply not_elem_of_cons in Hno as [Hb Hno].
    destruct (Byte.eqb b x00) eqn:Heq.
    { apply Byte.byte_dec_bl in Heq. congruence. }
    rewrite IH by assumption.
    replace (S offset + length rest)%nat with (offset + S (length rest))%nat by lia.
    reflexivity.
Qed.

Lemma digit_range (ch : ascii) (d : Z) : digit ch = Some d -> 0 <= d <= 9.
Proof.
  unfold digit. destruct (Z.leb_spec 48 (Z.of_N (N_of_ascii ch))); simpl; [|discriminate].
  destruct (Z.leb_spec (Z.of_N (N_of_ascii ch)) 57); [|discriminate].
  intros [= <-]. lia.
Qed.

Lemma parseUintLoop_range (s0 s : string) (n : Z) :
  0 <= n <= maxUint64 ->
  match parseUintLoop s0 s n with
  | Ok v => 0 <= v <= maxUint64
  | Err e => e = NumErrorSyntax s0 \/ e = NumErrorRange s0
  | Panic _ => False
  end.
Proof.
  revert n. induction s as [|ch rest IH]; intros n Hn; simpl; [assumption|].
  destruct (digit ch) as [d|] eqn:Hd; [|left; reflexivity].
  apply digit_range in Hd.
  destruct (n >=? maxUint64 / 10 + 1); [right; reflexivity|].
  destruct (Z.gtb_spec (n * 10 + d) maxUint64); [right; reflexivity|].
  apply IH. lia.
Qed.

Lemma ParseUint_range (s : string) :
  match ParseUint s with
  | Ok v => 0 <= v <= maxUint64
  | Err e => e = NumErrorSyntax s \/ e = NumErrorRange s
  | Panic _ => False
  end.
Proof.
  unfold ParseUint. destruct s as [|ch rest]; [left; reflexivity|].
  apply parseUintLoop_range. unfold maxUint64. lia.
Qed.

Lemma sizeLoop_bounds (data rest : list byte) (resultType : ObjectType)
    (typeEnd offset : nat) :
  (offset + length rest = length data)%nat ->
  match sizeLoop data rest resultType typeEnd offset with
  | Ok (ty, size, off) =>
      ty = resultType /\ (offset <= off <= length data)%nat /\ 0 <= size <= maxUint64
  | Err e => exists s, e = NumErrorSyntax s \/ e = NumErrorRange s
  | Panic _ => False
  end.
Proof.
  revert offset. induction rest as [|b rest IH]; intros offset Hlen; simpl in *.
  - unfold maxUint64. repeat split; lia.
  - destruct (Byte.eqb b x00).
    + pose proof (ParseUint_range (String.string_of_list_byte (slice typeEnd offset data)))
        as Hrange.
      destruct (ParseUint _) as [size|e|p]; [|eauto|assumption].
      repeat split; lia.
    + specialize (IH (S offset) ltac:(lia)).
      destruct (sizeLoop data rest resultType typeEnd (S offset)) as [[[ty size] off]|e|p];
        [|assumption..].
      destruct IH as (? & ? & ?). repeat split; lia.
Qed.

(** X1: [parseObjectHeader] never panics on any input, its only errors
    are those of the size conversion, and when it succeeds the offset it
    returns lies within the data, so that the slice [data[offset:]] that
    [Read] takes next is in bounds; the size is a [uint64]. *)
Theorem parseObjectHeader_in_bounds (data : list byte) :
  match parseObjectHeader data with
  | Ok (_, size, offset) => (offset <= length data)%nat /\ 0 <= size <= maxUint64
  | Err e => exists s, e = NumErrorSyntax s \/ e = NumErrorRange s
  | Panic _ => False
  end.
Proof.
  unfold parseObjectHeader.
  pose proof (typeLoop_bounds data data 0 ltac:(reflexivity)) as (_ & _ & Hoff).
  destruct (typeLoop data data 0) as [[resultType typeEnd] offset]. simpl in Hoff.
  pose proof (sizeLoop_bounds data (drop offset data) resultType typeEnd offset) as Hsize.
  rewrite length_drop in Hsize. specialize (Hsize ltac:(lia)).
  destruct (sizeLoop _ _ _ _ _) as [[[ty size] off]|e|p]; [|assumption..].
  destruct Hsize as (_ & ? & ?). split; [lia|assumption].
Qed.

(** X2: a stream without any space, the empty stream included, is not
    an error: the parser answers the sentinel type Bad, the size 0 and
    the length of the stream as offset, so that [Read] returns an
    object of type Bad with an empty payload. *)
Theorem parseObjectHeader_without_space (data : list byte) :
  x20 ∉ data ->
  parseObjectHeader data = Ok (ObjectBad, 0, length data).
Proof.
  intros Hno. unfold parseObjectHeader.
  rewrite typeLoop_no_space by assumption. simpl.
  rewrite drop_all. reflexivity.
Qed.

Lemma parseObjectHeader_without_space_witness :
  parseObjectHeader [] = Ok (ObjectBad, 0, 0%nat)
  /\ parseObjectHeader (String.list_byte_of_string "blob") = Ok (ObjectBad, 0, 4%nat).
Proof.
  split.
  - apply (parseObjectHeader_without_space []).
    apply (bool_decide_unpack _). vm_compute. reflexivity.
  - apply (parseObjectHeader_without_space (String.list_byte_of_string "blob")).
    apply (bool_decide_unpack _). vm_compute. reflexivity.
Defined.

(** X3: a stream with a space but no NUL after it is not an error
    either: the parser answers the type of the token before the space,
    the size 0 and the length of the stream as offset.  The text after
    the space is not looked at, so it need not be a number. *)
Theorem parseObjectHeader_without_nul (ty rest : list byte) :
  x20 ∉ ty ->
  x00 ∉ rest ->
  parseObjectHeader (ty ++ x20 :: rest)
  = Ok (TypeString2Type (String.string_of_list_byte ty), 0,
        (length ty + 1 + length rest)%nat).
Proof.
  intros Hty Hrest. unfold parseObjectHeader.
  pose proof (typeLoop_finds_space [] ty rest Hty) as Ht.
  simpl in Ht. rewrite Ht.
  replace (ty ++ x20 :: rest) with ((ty ++ [x20]) ++ rest)
    by (rewrite <- app_assoc; reflexivity).
  rewrite drop_app_length' by (rewrite length_app; simpl; lia).
  rewrite sizeLoop_no_nul by assumption.
  replace (S (length ty) + length rest)%nat with (length ty + 1 + length rest)%nat by lia.
  reflexivity.
Qed.

Lemma parseObjectHeader_without_nul_witness :
  parseObjectHeader (String.list_byte_of_string "tree 12x")
  = Ok (ObjectTree, 0, 8%nat).
Proof.
  apply (parseObjectHeader_without_nul
           (String.list_byte_of_string "tree") (String.list_byte_of_string "12x")).
  - apply (bool_decide_unpack _). vm_compute. reflexivity.
  - apply (bool_decide_unpack _). vm_compute. reflexivity.
Defined.

(** X4: the header that [Write] formats, ["%s %d\x00"] with the name
    of the type and the length of the payload, is read back by
    [parseObjectHeader]: for each of the four named types and every
    payload whose length is a [uint64], the parser returns that type and
    that length, and the offset it returns is where the payload
    starts. *)
Theorem parseObjectHeader_reads_back_envelope (payload : list byte) (objType : ObjectType) :
  valid_type objType = true ->
  Z.of_nat (length payload) <= maxUint64 ->
  exists offset,
    parseObjectHeader (envelope payload objType)
    = Ok (objType, Z.of_nat (length payload), offset)
    /\ drop offset (envelope payload objType) = payload.
Proof.
  intros Hvalid Hsize.
  destruct (parseObjectHeader_envelope payload objType 28 Hvalid Hsize ltac:(lia))
    as (offset & Hparse & Hdrop & _).
  exists offset. split; assumption.
Qed.

Lemma parseObjectHeader_reads_back_envelope_witness :
  exists offset,
    parseObjectHeader (envelope (String.list_byte_of_string "hello world") ObjectCommit)
    = Ok (ObjectCommit, 11, offset)
    /\ drop offset (envelope (String.list_byte_of_string "hello world") ObjectCommit)
       = String.list_byte_of_string "hello world".
Proof.
  apply (parseObjectHeader_reads_back_envelope
           (String.list_byte_of_string "hello world") ObjectCommit).
  - reflexivity.
  - vm_compute. discriminate.
Defined.

(** ** The compact header decoder on arbitrary input *)

Lemma land_7_range (a : Z) : 0 <= Z.land a 7 <= 7.
Proof.
  change 7 with (Z.ones 3). rewrite Z.land_ones by lia.
  pose proof (Z.mod_pos_bound a (2 ^ 3) ltac:(lia)). change (Z.ones 3) with 7. lia.
Qed.

Lemma land_15_range (a : Z) : 0 <= Z.land a 15 <= 15.
Proof.
  change 15 with (Z.ones 4). rewrite Z.land_ones by lia.
  pose proof (Z.mod_pos_bound a (2 ^ 4) ltac:(lia)). change (Z.ones 4) with 15. lia.
Qed.

(** X5: whenever [parseBinaryObjectHeader] returns a header, that
    header is one byte long: the offset is 1, the type is a number from
    0 to 7, the size is below 16, and the result is what the format
    gives for the data.  No object of 16 bytes or more is ever decoded
    from the compact layout. *)
Theorem parseBinaryObjectHeader_ok_is_one_byte (data : list byte)
    (ty : ObjectType) (size : Z) (offset : nat) :
  parseBinaryObjectHeader data = Ok (ty, size, offset) ->
  offset = 1%nat /\ 0 <= ty <= 7 /\ 0 <= size <= 15
  /\ compactHeader_format data = Some (ty, size, offset).
Proof.
  intros Hok. destruct data as [|b0 rest]; [discriminate|].
  destruct (Z.eq_dec (Z.land (byte_to_Z b0) 0x80) 0) as [Hc|Hc].
  - rewrite parseBinaryObjectHeader_single in Hok by assumption.
    injection Hok as <- <- <-.
    split; [reflexivity|]. split; [apply land_7_range|]. split; [apply land_15_range|].
    simpl. rewrite Hc. reflexivity.
  - pose proof (parseBinaryObjectHeader_continued b0 rest Hc) as Hnot.
    rewrite Hok in Hnot. discriminate.
Qed.

Lemma parseBinaryObjectHeader_ok_is_one_byte_witness :
  (1 = 1)%nat /\ 0 <= 3 <= 7 /\ 0 <= 5 <= 15
  /\ compactHeader_format [x35; x78; x9c] = Some (3, 5, 1%nat).
Proof.
  apply (parseBinaryObjectHeader_ok_is_one_byte [x35; x78; x9c] 3 5 1).
  reflexivity.
Defined.

(** ** Telling the two layouts apart *)

(** X6: on two bytes or more [isZlibCompressedData] always returns an
    answer, and it answers yes only when the first byte has a clear top
    bit and the low four bits 1000.  So a compact file is taken for a
    zlib stream only if its header is the single byte of an object of
    size 8, and a compact header with continuation bytes never is. *)
Theorem isZlibCompressedData_yes_first_byte (b0 b1 : byte) (rest : list byte) :
  is_ok (isZlibCompressedData (b0 :: b1 :: rest)) = true
  /\ (isZlibCompressedData (b0 :: b1 :: rest) = Ok true ->
      Z.land (byte_to_Z b0) 0x80 = 0
      /\ parseBinaryObjectHeader (b0 :: b1 :: rest)
         = Ok (Z.land (Z.shiftr (byte_to_Z b0) 4) 7, 8, 1%nat)).
Proof.
  split; [reflexivity|].
  unfold isZlibCompressedData. simpl. intros [= Hyes].
  apply andb_prop in Hyes as [Hmask _]. apply Z.eqb_eq in Hmask.
  assert (Z.land (byte_to_Z b0) 0x80 = 0) as Htop.
  { change 0x80 with (Z.land 0x8F 0x80). rewrite Z.land_assoc, Hmask. reflexivity. }
  assert (Z.land (byte_to_Z b0) 15 = 8) as Hlow.
  { change 15 with (Z.land 0x8F 15). rewrite Z.land_assoc, Hmask. reflexivity. }
  split; [assumption|].
  rewrite parseBinaryObjectHeader_single by assumption. rewrite Hlow. reflexivity.
Qed.

Lemma isZlibCompressedData_yes_first_byte_witness :
  Z.land (byte_to_Z x78) 0x80 = 0
  /\ parseBinaryObjectHeader [x78; x9c; x01] = Ok (7, 8, 1%nat).
Proof.
  apply (isZlibCompressedData_yes_first_byte x78 x9c [x01]).
  reflexivity.
Defined.

(** ** The loose backend: [Exists], [Read] and [ReadHeader] *)

(** X7: an object that [Exists] reports as absent cannot be read:
    [Read] and [ReadHeader] both return the error of opening its
    file. *)
Theorem Loose_Exists_false_reads_fail (z : zlib) (fs : FileSystem)
    (o : OdbBackendLoose) (oid : Oid) :
  Loose_Exists fs o oid = false ->
  Loose_Read z fs o oid = Err (PathError "open" (objectPath o oid))
  /\ Loose_ReadHeader z fs o oid = Err (PathError "open" (objectPath o oid)).
Proof.
  unfold Loose_Exists, Loose_Read, Loose_ReadHeader, objectPath.
  destruct (PathFormat oid) as [dirName fileName].
  unfold Stat, ReadFile, IsNotExist.
  destruct (fs_dirs fs !! _) as [[id names]|]; [discriminate|].
  destruct (fs_files fs !! _) as [[id content]|]; [discriminate|].
  intros _. split; reflexivity.
Qed.

Lemma Loose_Exists_false_reads_fail_witness :
  Loose_Read storedZlib emptyStore (looseAt "objects") readmeOid
  = Err (PathError "open" "objects/02/66163a49e280c4f5ed1e08facd36a2bd716bcf")
  /\ Loose_ReadHeader storedZlib emptyStore (looseAt "objects") readmeOid
     = Err (PathError "open" "objects/02/66163a49e280c4f5ed1e08facd36a2bd716bcf").
Proof.
  apply (Loose_Exists_false_reads_fail storedZlib emptyStore (looseAt "objects") readmeOid).
  vm_compute. reflexivity.
Defined.

(** X8: [Read] takes for payload every byte after the first NUL and
    never compares the size that the header declares with it, while
    [ReadHeader] reports the declared size: on a stream whose header
    declares a wrong size the two calls disagree, and neither fails. *)
Theorem Loose_Read_ignores_declared_size (z : zlib) (fs : FileSystem)
    (o : OdbBackendLoose) (oid : Oid) (content ty sz payload : list byte) (n : Z) :
  ReadFile fs (objectPath o oid) = Ok content ->
  isZlibCompressedData content = Ok true ->
  newReaderOk z content = true ->
  inflate z content = ty ++ x20 :: sz ++ x00 :: payload ->
  x20 ∉ ty ->
  x00 ∉ sz ->
  ParseUint (String.string_of_list_byte sz) = Ok n ->
  (length ty + length sz + 2 <= 64)%nat ->
  Loose_Read z fs o oid
  = Ok (mkOdbObject (TypeString2Type (String.string_of_list_byte ty)) payload)
  /\ Loose_ReadHeader z fs o oid
     = Ok (TypeString2Type (String.string_of_list_byte ty), n).
Proof.
  unfold Loose_Read, Loose_ReadHeader, objectPath.
  destruct (PathFormat oid) as [dirName fileName].
  intros Hfile Hzlib Hreader Hinflate Hty Hsz Hparse Hlen.
  rewrite Hfile. simpl. rewrite Hzlib. simpl. rewrite Hreader, Hinflate.
  split.
  - rewrite parseObjectHeader_split, Hparse by assumption. simpl.
    replace (ty ++ x20 :: sz ++ x00 :: payload)
      with ((ty ++ x20 :: sz ++ [x00]) ++ payload)
      by (rewrite <- !app_assoc; simpl; rewrite <- app_assoc; reflexivity).
    rewrite drop_app_length'; [reflexivity|].
    rewrite length_app. simpl. rewrite length_app. simpl. lia.
  - replace (ty ++ x20 :: sz ++ x00 :: payload)
      with ((ty ++ x20 :: sz ++ [x00]) ++ payload)
      by (rewrite <- !app_assoc; simpl; rewrite <- app_assoc; reflexivity).
    rewrite take_app.
    rewrite take_ge by (rewrite length_app; simpl; rewrite length_app; simpl; lia).
    rewrite <- !app_assoc. simpl. rewrite <- app_assoc. simpl.
    rewrite parseObjectHeader_split, Hparse by assumption. reflexivity.
Qed.

Lemma Loose_Read_ignores_declared_size_witness :
  Loose_Read storedZlib foreignStore (looseAt "objects") readmeOid
  = Ok (mkOdbObject ObjectBlob (String.list_byte_of_string "hello"))
  /\ Loose_ReadHeader storedZlib foreignStore (looseAt "objects") readmeOid
     = Ok (ObjectBlob, 3).
Proof.
  apply (Loose_Read_ignores_declared_size storedZlib foreignStore (looseAt "objects")
           readmeOid
           (deflate storedZlib (String.list_byte_of_string "blob 3"
                                ++ x00 :: String.list_byte_of_string "hello"))
           (String.list_byte_of_string "blob") (String.list_byte_of_string "3")
           (String.list_byte_of_string "hello") 3).
  - vm_compute. reflexivity.
  - vm_compute. reflexivity.
  - vm_compute. reflexivity.
  - vm_compute. reflexivity.
  - apply (bool_decide_unpack _). vm_compute. reflexivity.
  - apply (bool_decide_unpack _). vm_compute. reflexivity.
  - vm_compute. reflexivity.
  - simpl. lia.
Defined.

(** X9: [ReadHeader] looks at the first 64 decompressed bytes only.
    When there is a space but no NUL among them, it reports the size 0
    with no error, whatever the rest of the stream holds. *)
Theorem Loose_ReadHeader_nul_beyond_64 (z : zlib) (fs : FileSystem)
    (o : OdbBackendLoose) (oid : Oid) (content ty rest : list byte) :
  ReadFile fs (objectPath o oid) = Ok content ->
  isZlibCompressedData content = Ok true ->
  newReaderOk z content = true ->
  inflate z content = ty ++ x20 :: rest ->
  x20 ∉ ty ->
  (length ty < 64)%nat ->
  x00 ∉ take (63 - length ty) rest ->
  Loose_ReadHeader z fs o oid = Ok (TypeString2Type (String.string_of_list_byte ty), 0).
Proof.
  unfold Loose_ReadHeader, objectPath.
  destruct (PathFormat oid) as [dirName fileName].
  intros Hfile Hzlib Hreader Hinflate Hty Hlen Hnul.
  rewrite Hfile. simpl. rewrite Hzlib. simpl. rewrite Hreader, Hinflate.
  rewrite take_app, take_ge by lia.
  replace (64 - length ty)%nat with (S (63 - length ty)) by lia.
  rewrite firstn_cons.
  unfold parseObjectHeader.
  pose proof (typeLoop_finds_space [] ty (take (63 - length ty) rest) Hty) as Ht.
  simpl in Ht. rewrite Ht.
  replace (ty ++ x20 :: take (63 - length ty) rest)
    with ((ty ++ [x20]) ++ take (63 - length ty) rest)
    by (rewrite <- app_assoc; reflexivity).
  rewrite drop_app_length' by (rewrite length_app; simpl; lia).
  rewrite sizeLoop_no_nul by assumption. reflexivity.
Qed.

Lemma Loose_ReadHeader_nul_beyond_64_witness :
  Loose_ReadHeader storedZlib foreignStore (looseAt "objects") oid_0277
  = Ok (ObjectBlob, 0).
Proof.
  apply (Loose_ReadHeader_nul_beyond_64 storedZlib foreignStore (looseAt "objects")
           oid_0277
           (deflate storedZlib
              (String.list_byte_of_string "blob"
               ++ x20 :: replicate 60 x30 ++ String.list_byte_of_string "5"
               ++ x00 :: String.list_byte_of_string "hello"))
           (String.list_byte_of_string "blob")
           (replicate 60 x30 ++ String.list_byte_of_string "5"
            ++ x00 :: String.list_byte_of_string "hello")).
  - vm_compute. reflexivity.
  - vm_compute. reflexivity.
  - vm_compute. reflexivity.
  - vm_compute. reflexivity.
  - apply (bool_decide_unpack _). vm_compute. reflexivity.
  - simpl. lia.
  - apply (bool_decide_unpack _). vm_compute. reflexivity.
Defined.

(** [Read] of the same file finds the NUL and returns the payload. *)
Example Loose_Read_long_header :
  Loose_Read storedZlib foreignStore (looseAt "objects") oid_0277
  = Ok (mkOdbObject ObjectBlob (String.list_byte_of_string "hello")).
Proof. vm_compute. reflexivity. Qed.

(** X10: for a file in the compact layout whose header is one byte and
    whose compressed part zlib refuses, [ReadHeader] returns the header
    and [Read] panics: the deferred [reader.Close()] is set up on the nil
    reader before the error of [zlib.NewReader] is looked at. *)
Theorem Loose_Read_compact_refused_stream_panics (z : zlib) (fs : FileSystem)
    (o : OdbBackendLoose) (oid : Oid) (b0 : byte) (rest : list byte) :
  ReadFile fs (objectPath o oid) = Ok (b0 :: rest) ->
  isZlibCompressedData (b0 :: rest) = Ok false ->
  Z.land (byte_to_Z b0) 0x80 = 0 ->
  newReaderOk z rest = false ->
  Loose_Read z fs o oid = Panic NilDereference
  /\ Loose_ReadHeader z fs o oid
     = Ok (Z.land (Z.shiftr (byte_to_Z b0) 4) 7, Z.land (byte_to_Z b0) 15).
Proof.
  unfold Loose_Read, Loose_ReadHeader, objectPath.
  destruct (PathFormat oid) as [dirName fileName].
  intros Hfile Hzlib Htop Hreader.
  rewrite Hfile. cbn [bind]. rewrite Hzlib. cbn [bind].
  rewrite parseBinaryObjectHeader_single by assumption. cbn [bind].
  change (drop 1 (b0 :: rest)) with rest. rewrite Hreader.
  split; reflexivity.
Qed.

Lemma Loose_Read_compact_refused_stream_panics_witness :
  Loose_Read storedZlib foreignStore (looseAt "objects") oid_a100 = Panic NilDereference
  /\ Loose_ReadHeader storedZlib foreignStore (looseAt "objects") oid_a100
     = Ok (3, 5).
Proof.
  apply (Loose_Read_compact_refused_stream_panics storedZlib foreignStore
           (looseAt "objects") oid_a100 x35 [x00; x00]).
  - vm_compute. reflexivity.
  - vm_compute. reflexivity.
  - vm_compute. reflexivity.
  - vm_compute. reflexivity.
Defined.

(** ** The loose backend: [Write] *)

Lemma writeExisting_identities (fs : FileSystem) (target path : string) (bytes : list byte) :
  fst <$> (fs_files (writeExisting fs target bytes) !! path)
  = fst <$> (fs_files fs !! path).
Proof.
  unfold writeExisting.
  destruct (fs_files fs !! target) as [[id old]|] eqn:Htarget; [|reflexivity].
  simpl. destruct (decide (target = path)) as [<-|Hne].
  - rewrite lookup_insert_eq, Htarget. reflexivity.
  - rewrite lookup_insert_ne by assumption. reflexivity.
Qed.

Lemma writeExisting_other (fs : FileSystem) (target path : string) (bytes : list byte) :
  path <> target ->
  fs_files (writeExisting fs target bytes) !! path = fs_files fs !! path.
Proof.
  intros Hne. unfold writeExisting.
  destruct (fs_files fs !! target) as [[id old]|]; [|reflexivity].
  simpl. rewrite lookup_insert_ne by congruence. reflexivity.
Qed.

(** X11: [Write] reports no error but that of [hash], and it neither
    creates nor removes a regular file: after the call the same paths
    name files, with the same identities, as before. *)
Theorem Loose_Write_keeps_the_files (z : zlib)
    (hash : list byte -> ObjectType -> result Oid) (fs : FileSystem)
    (o : OdbBackendLoose) (data : list byte) (objType : ObjectType) :
  snd (Loose_Write z hash fs o data objType) = hash data objType
  /\ forall path,
       fst <$> (fs_files (fst (Loose_Write z hash fs o data objType)) !! path)
       = fst <$> (fs_files fs !! path).
Proof.
  unfold Loose_Write.
  destruct (hash data objType) as [oid|e|p]; [|split; reflexivity..].
  destruct (PathFormat oid) as [dirName fileName]. simpl.
  split; [reflexivity|]. intros path.
  rewrite writeExisting_identities. unfold MkdirAll.
  rewrite mkdirElems_files. reflexivity.
Qed.

(** X12: when the file of the object exists already, [Write] puts the
    compressed envelope over the head of its old content and keeps the
    old bytes beyond ([os.OpenFile] is called without [O_TRUNC]); no
    other file changes. *)
Theorem Loose_Write_overwrites_head (z : zlib)
    (hash : list byte -> ObjectType -> result Oid) (fs : FileSystem)
    (o : OdbBackendLoose) (data : list byte) (objType : ObjectType)
    (oid : Oid) (id : nat) (old : list byte) :
  hash data objType = Ok oid ->
  fs_files fs
    !! Join [Join [objectsDir o; fst (PathFormat oid)]; snd (PathFormat oid)]
  = Some (id, old) ->
  fs_files (fst (Loose_Write z hash fs o data objType))
    !! Join [Join [objectsDir o; fst (PathFormat oid)]; snd (PathFormat oid)]
  = Some (id, deflate z (envelope data objType)
              ++ drop (length (deflate z (envelope data objType))) old)
  /\ forall path,
       path <> Join [Join [objectsDir o; fst (PathFormat oid)]; snd (PathFormat oid)] ->
       fs_files (fst (Loose_Write z hash fs o data objType)) !! path
       = fs_files fs !! path.
Proof.
  intros Hhash Hold. unfold Loose_Write. rewrite Hhash.
  destruct (PathFormat oid) as [dirName fileName]. simpl in *.
  split.
  - unfold writeExisting, MkdirAll. rewrite mkdirElems_files, Hold. simpl.
    rewrite lookup_insert_eq. reflexivity.
  - intros path Hne. rewrite writeExisting_other by assumption.
    unfold MkdirAll. rewrite mkdirElems_files. reflexivity.
Qed.

Lemma Loose_Write_overwrites_head_witness :
  fs_files (fst (Loose_Write storedZlib readmeHash staleStore (looseAt "objects")
                   (String.list_byte_of_string "Testing a readme.txt") ObjectBlob))
    !! "objects/02/66163a49e280c4f5ed1e08facd36a2bd716bcf"
  = Some (3%nat,
          x78 :: x9c :: String.list_byte_of_string "blob 20"
          ++ x00 :: String.list_byte_of_string "Testing a readme.txt" ++ [xff; xff]).
Proof.
  apply (Loose_Write_overwrites_head storedZlib readmeHash staleStore (looseAt "objects")
           (String.list_byte_of_string "Testing a readme.txt") ObjectBlob readmeOid
           3%nat (replicate 32 xff)).
  - reflexivity.
  - vm_compute. reflexivity.
Defined.

(** ** The loose backend: [ExistsPrefix] and [ReadPrefix] *)

(** X13: [ExistsPrefix] has no check of [length]: for an Oid of 20
    bytes and a length below 2 or above 40 the slice
    [fileName[:length-2]] is out of bounds and the call panics, before
    the file system is looked at. *)
Theorem Loose_ExistsPrefix_length_out_of_range (fs : FileSystem) (o : OdbBackendLoose)
    (oid : Oid) (length : Z) :
  Oid_wf oid ->
  length < 2 \/ 40 < length ->
  Loose_ExistsPrefix fs o oid length = Panic (SliceBoundsOutOfRange (length - 2) 38).
Proof.
  intros Hwf Hlen. unfold Loose_ExistsPrefix.
  pose proof (PathFormat_fileName_length oid Hwf) as Hname.
  destruct (PathFormat oid) as [dirName fileName]. simpl in Hname.
  unfold sliceTo. rewrite Hname.
  destruct (Z.leb_spec 0 (length - 2)); destruct (Z.leb_spec (length - 2) (Z.of_nat 38));
    simpl; try reflexivity; lia.
Qed.

Lemma Loose_ExistsPrefix_length_out_of_range_witness :
  Loose_ExistsPrefix bucketStore (looseAt "objects") readmeOid 1
  = Panic (SliceBoundsOutOfRange (-1) 38)
  /\ Loose_ExistsPrefix bucketStore (looseAt "objects") readmeOid 41
     = Panic (SliceBoundsOutOfRange 39 38).
Proof.
  split.
  - apply (Loose_ExistsPrefix_length_out_of_range bucketStore (looseAt "objects")
             readmeOid 1); [reflexivity|lia].
  - apply (Loose_ExistsPrefix_length_out_of_range bucketStore (looseAt "objects")
             readmeOid 41); [reflexivity|lia].
Defined.

(** X14: the answer of [ExistsPrefix] does not depend on the order in
    which the bucket is listed: on two file systems whose listings of
    the bucket are permutations of each other the results are equal. *)
Theorem Loose_ExistsPrefix_listing_order (fs fs' : FileSystem) (o : OdbBackendLoose)
    (oid : Oid) (length : Z) (names names' : list string) :
  Readdirnames fs (Join [objectsDir o; fst (PathFormat oid)]) = Ok names ->
  Readdirnames fs' (Join [objectsDir o; fst (PathFormat oid)]) = Ok names' ->
  names ≡ₚ names' ->
  Loose_ExistsPrefix fs o oid length = Loose_ExistsPrefix fs' o oid length.
Proof.
  intros Hnames Hnames' Hperm. unfold Loose_ExistsPrefix.
  destruct (PathFormat oid) as [dirName fileName]. simpl in *.
  destruct (sliceTo fileName (length - 2)) as [prefix|e|p]; [|reflexivity..].
  simpl. rewrite Hnames, Hnames'. simpl.
  rewrite !countMatches_filter.
  assert (filter (fun name => HasPrefix name prefix) names
          ≡ₚ filter (fun name => HasPrefix name prefix) names') as Hfilter.
  { rewrite Hperm. reflexivity. }
  pose proof (Permutation_length Hfilter) as Hcount.
  destruct (filter (fun name => HasPrefix name prefix) names) as [|m [|m2 ms]];
    destruct (filter (fun name => HasPrefix name prefix) names') as [|m' [|m2' ms']];
    simpl in Hcount; try discriminate; try reflexivity.
  - apply Permutation_singleton_l in Hfilter. injection Hfilter as <-. reflexivity.
  - destruct (Z.eqb_spec (Z.of_nat (Datatypes.length (m :: m2 :: ms))) 0) as [H0|_];
      [simpl in H0; lia|].
    destruct (Z.eqb_spec (Z.of_nat (Datatypes.length (m :: m2 :: ms))) 1) as [H1|_];
      [simpl in H1; lia|].
    destruct (Z.eqb_spec (Z.of_nat (Datatypes.length (m' :: m2' :: ms'))) 0) as [H0|_];
      [simpl in H0; lia|].
    destruct (Z.eqb_spec (Z.of_nat (Datatypes.length (m' :: m2' :: ms'))) 1) as [H1|_];
      [simpl in H1; lia|].
    reflexivity.
Qed.

Lemma Loose_ExistsPrefix_listing_order_witness :
  Loose_ExistsPrefix bucketStore (looseAt "objects") readmeOid 5
  = Loose_ExistsPrefix bucketStoreReordered (looseAt "objects") readmeOid 5.
Proof.
  apply (Loose_ExistsPrefix_listing_order bucketStore bucketStoreReordered
           (looseAt "objects") readmeOid 5
           ["66163a49e280c4f5ed1e08facd36a2bd716bcf";
            "66aa3a49e280c4f5ed1e08facd36a2bd716bcf";
            "77aa3a49e280c4f5ed1e08facd36a2bd716bcf"]
           ["77aa3a49e280c4f5ed1e08facd36a2bd716bcf";
            "66aa3a49e280c4f5ed1e08facd36a2bd716bcf";
            "66163a49e280c4f5ed1e08facd36a2bd716bcf"]).
  - vm_compute. reflexivity.
  - vm_compute. reflexivity.
  - apply (bool_decide_unpack _). vm_compute. reflexivity.
Defined.

(** X15: [ReadPrefix] by a prefix that one file of the bucket matches,
    that file being the file of an object, returns the full Oid of that
    object together with what [Read] returns for that Oid; when that
    [Read] fails, [ReadPrefix] fails in the same way. *)
Theorem Loose_ReadPrefix_resolves_then_reads (z : zlib) (fs : FileSystem)
    (o : OdbBackendLoose) (oid target : Oid) (length : Z) (names : list string) :
  Oid_wf oid ->
  Oid_wf target ->
  2 <= length <= 40 ->
  fst (PathFormat target) = fst (PathFormat oid) ->
  Readdirnames fs (Join [objectsDir o; fst (PathFormat oid)]) = Ok names ->
  filter (fun name =>
            HasPrefix name
              (String.substring 0 (Z.to_nat (length - 2)) (snd (PathFormat oid))))
         names
  = [snd (PathFormat target)] ->
  Loose_ExistsPrefix fs o oid length = Ok target
  /\ Loose_ReadPrefix z fs o oid length
     = match Loose_Read z fs o target with
       | Ok obj => Ok (target, obj)
       | Err e => Err e
       | Panic p => Panic p
       end.
Proof.
  intros Hwf Htarget Hlen Hdir Hnames Hone.
  assert (Loose_ExistsPrefix fs o oid length = Ok target) as Hfound.
  { unfold Loose_ExistsPrefix.
    pose proof (PathFormat_fileName_length oid Hwf) as Hname.
    pose proof (PathFormat_join target Htarget) as Hjoin.
    destruct (PathFormat oid) as [dirName fileName]. simpl in *.
    unfold sliceTo. rewrite Hname.
    destruct (Z.leb_spec 0 (length - 2)); [|lia].
    destruct (Z.leb_spec (length - 2) (Z.of_nat 38)); [|lia].
    simpl. rewrite Hnames. simpl. rewrite countMatches_filter, Hone. simpl.
    rewrite <- Hdir, Hjoin. apply NewOid_Oid_String. assumption. }
  split; [assumption|].
  unfold Loose_ReadPrefix. rewrite Hfound. simpl.
  destruct (Loose_Read z fs o target); reflexivity.
Qed.

Lemma Loose_ReadPrefix_resolves_then_reads_witness :
  Loose_ExistsPrefix readmeStore (looseAt "objects") oid_0277 4 = Ok oid_0277
  /\ Loose_ReadPrefix storedZlib readmeStore (looseAt "objects") oid_0277 4
     = match Loose_Read storedZlib readmeStore (looseAt "objects") oid_0277 with
       | Ok obj => Ok (oid_0277, obj)
       | Err e => Err e
       | Panic p => Panic p
       end.
Proof.
  apply (Loose_ReadPrefix_resolves_then_reads storedZlib readmeStore (looseAt "objects")
           oid_0277 oid_0277 4
           ["66163a49e280c4f5ed1e08facd36a2bd716bcf";
            "77aa3a49e280c4f5ed1e08facd36a2bd716bcf"]).
  - reflexivity.
  - reflexivity.
  - lia.
  - reflexivity.
  - vm_compute. reflexivity.
  - vm_compute. reflexivity.
Defined.

(** ** [ForEach] on an arbitrary store *)

Lemma forEachChild_recording_prefix (verdict : Oid -> option error) (dirName : string)
    (childItems : list string) (calls : list Oid) :
  exists names visited,
    fst (forEachChild (recording verdict) dirName childItems calls) = calls ++ visited
    /\ names `prefix_of`
         map (fun childItem => dirName +:+ childItem)
             (filter (fun c => String.length c = 38%nat) childItems)
    /\ Forall2 (fun name oid => NewOid name = Ok oid) names visited
    /\ (is_ok (snd (forEachChild (recording verdict) dirName childItems calls)) = true ->
        names = map (fun childItem => dirName +:+ childItem)
                    (filter (fun c => String.length c = 38%nat) childItems)).
Proof.
  revert calls. induction childItems as [|childItem rest IH]; intros calls.
  - exists [], []. simpl. rewrite app_nil_r.
    split; [reflexivity|]. split; [apply prefix_nil|]. split; [constructor|]. reflexivity.
  - simpl. rewrite filter_cons.
    destruct (Nat.eqb_spec (String.length childItem) 38) as [Hlen|Hlen]; simpl.
    + rewrite decide_True by assumption. simpl.
      destruct (NewOid (dirName +:+ childItem)) as [oid|e|p] eqn:Hoid.
      * destruct (verdict oid) as [e|].
        -- exists [dirName +:+ childItem], [oid]. simpl. repeat split.
           ++ apply prefix_cons, prefix_nil.
           ++ constructor; [assumption|constructor].
           ++ discriminate.
        -- destruct (IH (calls ++ [oid])) as (names & visited & Hcalls & Hpre & Hoids & Hall).
           exists ((dirName +:+ childItem) :: names), (oid :: visited). repeat split.
           ++ rewrite Hcalls, <- app_assoc. reflexivity.
           ++ apply prefix_cons. assumption.
           ++ constructor; assumption.
           ++ intros Hok. f_equal. apply Hall. assumption.
      * exists [], []. simpl. rewrite app_nil_r.
        split; [reflexivity|]. split; [apply prefix_nil|]. split; [constructor|].
        discriminate.
      * exists [], []. simpl. rewrite app_nil_r.
        split; [reflexivity|]. split; [apply prefix_nil|]. split; [constructor|].
        discriminate.
    + rewrite decide_False by assumption. apply IH.
Qed.

Lemma forEachDir_recording_prefix (verdict : Oid -> option error) (fs : FileSystem)
    (objectsDir : string) (dirNames : list string) (calls : list Oid) :
  exists names visited,
    fst (forEachDir (recording verdict) fs objectsDir dirNames calls) = calls ++ visited
    /\ names `prefix_of` qualifyingNames fs objectsDir dirNames
    /\ Forall2 (fun name oid => NewOid name = Ok oid) names visited
    /\ (is_ok (snd (forEachDir (recording verdict) fs objectsDir dirNames calls)) = true ->
        names = qualifyingNames fs objectsDir dirNames).
Proof.
  revert calls. induction dirNames as [|dirName rest IH]; intros calls.
  - exists [], []. simpl. rewrite app_nil_r.
    split; [reflexivity|]. split; [apply prefix_nil|]. split; [constructor|]. reflexivity.
  - unfold qualifyingNames. simpl. rewrite filter_cons.
    destruct (Nat.eqb_spec (String.length dirName) 2) as [Hlen|Hlen]; simpl.
    + rewrite decide_True by assumption. simpl. unfold dirListing at 1 3.
      destruct (Readdirnames fs (Join [objectsDir; dirName])) as [childItems|e|p].
      * destruct (forEachChild_recording_prefix verdict dirName childItems calls)
          as (names1 & visited1 & Hcalls1 & Hpre1 & Hoids1 & Hall1).
        destruct (forEachChild (recording verdict) dirName childItems calls)
          as [calls1 [[]|e|p]]; simpl in *.
        -- destruct (IH calls1) as (names2 & visited2 & Hcalls2 & Hpre2 & Hoids2 & Hall2).
           exists (names1 ++ names2), (visited1 ++ visited2). repeat split.
           ++ rewrite Hcalls2, Hcalls1, <- app_assoc. reflexivity.
           ++ rewrite (Hall1 eq_refl). apply prefix_app. exact Hpre2.
           ++ apply Forall2_app; assumption.
           ++ intros Hok. rewrite (Hall1 eq_refl). f_equal. apply Hall2. assumption.
        -- exists names1, visited1. repeat split; try assumption.
           ++ apply prefix_app_r. assumption.
           ++ discriminate.
        -- exists names1, visited1. repeat split; try assumption.
           ++ apply prefix_app_r. assumption.
           ++ discriminate.
      * exists [], []. simpl. rewrite app_nil_r.
        split; [reflexivity|]. split; [apply prefix_nil|]. split; [constructor|].
        discriminate.
      * exists [], []. simpl. rewrite app_nil_r.
        split; [reflexivity|]. split; [apply prefix_nil|]. split; [constructor|].
        discriminate.
    + rewrite decide_False by assumption. apply IH.
Qed.

(** X16: on every store, listable or not, the Oids that [ForEach]
    passes to the visitor are those of a leading part of the entries
    with a directory name of 2 and a file name of 38 characters, in
    listing order and each once: no other entry is ever visited and none
    is skipped before the last visit.  When [ForEach] returns nil, every
    such entry was visited.  The visitor records its calls and answers
    by an arbitrary [verdict]. *)
Theorem Loose_ForEach_visits_a_leading_part (verdict : Oid -> option error)
    (fs : FileSystem) (o : OdbBackendLoose) :
  exists names,
    names `prefix_of` qualifyingNames fs (objectsDir o) (dirListing fs (objectsDir o))
    /\ Forall2 (fun name oid => NewOid name = Ok oid) names
         (fst (Loose_ForEach (recording verdict) fs o []))
    /\ (is_ok (snd (Loose_ForEach (recording verdict) fs o [])) = true ->
        names = qualifyingNames fs (objectsDir o) (dirListing fs (objectsDir o))).
Proof.
  unfold Loose_ForEach, dirListing at 1 2.
  destruct (Readdirnames fs (objectsDir o)) as [dirNames|e|p].
  - destruct (forEachDir_recording_prefix verdict fs (objectsDir o) dirNames [])
      as (names & visited & Hcalls & Hpre & Hoids & Hall).
    exists names. rewrite Hcalls. simpl. split; [assumption|]. split; assumption.
  - exists []. simpl. split; [apply prefix_nil|]. split; [constructor|discriminate].
  - exists []. simpl. split; [apply prefix_nil|]. split; [constructor|discriminate].
Qed.

(** ** The dispatcher: [Odb.ExistsPrefix] *)

Section DispatcherPrefixFacts.

Context {B : Type} `{OdbBackend B}.
Variable call : B -> result Oid.

Lemma existsPrefixLoop_found (err : option error) (backends : list B) (id : Oid) :
  existsPrefixLoop call err backends = Ok (Some id) <->
  exists before backend after,
    backends = before ++ backend :: after
    /\ Forall (fun b => is_err (call b) = true) before
    /\ call backend = Ok id.
Proof.
  split.
  - revert err. induction backends as [|b rest IH]; intros err; simpl.
    { destruct err; discriminate. }
    destruct (call b) as [y|e|p] eqn:Hb; intros Hr.
    + exists [], b, rest. repeat split; [constructor|congruence].
    + destruct (IH _ Hr) as (before & backend & after & -> & Hbefore & Hcall).
      exists (b :: before), backend, after. repeat split; [|assumption].
      constructor; [rewrite Hb; reflexivity|assumption].
    + discriminate.
  - intros (before & backend & after & -> & Hbefore & Hcall). revert err.
    induction Hbefore as [|b before Hb _ IH]; intros err; simpl.
    + rewrite Hcall. reflexivity.
    + destruct (call b); try discriminate. apply IH.
Qed.

Lemma existsPrefixLoop_error (err : option error) (backends : list B) (e : error) :
  existsPrefixLoop call err backends = Err e <->
  Forall (fun b => is_err (call b) = true) backends
  /\ match last backends with
     | Some backend => call backend = Err e
     | None => err = Some e
     end.
Proof.
  revert err. induction backends as [|b rest IH]; intros err; simpl.
  - destruct err as [e'|]; split.
    + intros [= ->]. split; [constructor|reflexivity].
    + intros [_ [= ->]]. reflexivity.
    + discriminate.
    + intros [_ ?]. discriminate.
  - rewrite last_cons. destruct (call b) as [y|e'|p] eqn:Hb.
    + split; [discriminate|]. intros [Hall _]. apply Forall_cons in Hall as [Hfalse _].
      rewrite Hb in Hfalse. discriminate.
    + rewrite IH. destruct (last rest) as [backend|]; split.
      * intros [Hall Hlast]. split; [|assumption].
        constructor; [rewrite Hb; reflexivity|assumption].
      * intros [Hall Hlast]. apply Forall_cons in Hall as [_ Hall]. split; assumption.
      * intros [Hall [= ->]]. split; [|assumption].
        constructor; [rewrite Hb; reflexivity|assumption].
      * intros [Hall Hlast]. apply Forall_cons in Hall as [_ Hall].
        split; [assumption|]. congruence.
    + split; [discriminate|]. intros [Hall _]. apply Forall_cons in Hall as [Hfalse _].
      rewrite Hb in Hfalse. discriminate.
Qed.

Lemma existsPrefixLoop_nothing (backends : list B) :
  existsPrefixLoop call None backends = Ok None <-> backends = [].
Proof.
  split; [|intros ->; reflexivity].
  destruct backends as [|b rest]; [reflexivity|]. simpl.
  destruct (call b) as [y|e|p]; try discriminate.
  intros Hr. exfalso. revert e Hr. induction rest as [|b' rest IH]; intros e; simpl.
  - discriminate.
  - destruct (call b'); try discriminate. apply IH.
Qed.

End DispatcherPrefixFacts.

(** X17: [Odb.ExistsPrefix] returns the Oid of the first backend, in
    list order, that finds one, every backend before it having failed.
    When every backend fails, the error returned is that of the backend
    asked last, whatever the earlier ones answered, so an ambiguity
    reported by an earlier backend is lost; and with no backend at all
    the call returns neither an Oid nor an error. *)
Theorem Odb_ExistsPrefix_first_match_or_last_error {B : Type} `{OdbBackend B}
    (fs : FileSystem) (o : Odb B) (oid : Oid) (length : Z) :
  (forall id,
     Odb_ExistsPrefix fs o oid length = Ok (Some id) <->
     exists before backend after,
       backends o = before ++ backend :: after
       /\ Forall (fun b => is_err (backend_ExistsPrefix fs b oid length) = true) before
       /\ backend_ExistsPrefix fs backend oid length = Ok id)
  /\ (forall e,
        Odb_ExistsPrefix fs o oid length = Err e <->
        Forall (fun b => is_err (backend_ExistsPrefix fs b oid length) = true) (backends o)
        /\ exists backend,
             last (backends o) = Some backend
             /\ backend_ExistsPrefix fs backend oid length = Err e)
  /\ (Odb_ExistsPrefix fs o oid length = Ok None <-> backends o = []).
Proof.
  unfold Odb_ExistsPrefix. split; [|split].
  - intros id. apply existsPrefixLoop_found.
  - intros e. rewrite existsPrefixLoop_error.
    destruct (last (backends o)) as [backend|]; split.
    + intros [Hall Hlast]. split; [assumption|]. exists backend. split; [reflexivity|assumption].
    + intros [Hall (backend' & [= <-] & Hlast)]. split; assumption.
    + intros [_ ?]. discriminate.
    + intros [_ (backend' & ? & _)]. discriminate.
  - apply existsPrefixLoop_nothing.
Qed.

(** In [bucketStore] the prefix [0266] is ambiguous for the backend at
    [objects], and the backend at [objects/info] has no bucket [02]:
    asked in this order, the dispatcher returns the error of opening
    that bucket, and the ambiguity is not reported. *)
Example Odb_ExistsPrefix_masks_ambiguity :
  Loose_ExistsPrefix bucketStore (looseAt "objects") readmeOid 4
  = Err (ErrorString "multiple matches in loose objects")
  /\ Odb_ExistsPrefix (H := OdbBackendLoose_backend storedZlib) bucketStore
       (mkOdb [looseAt "objects"; looseAt "objects/info"]) readmeOid 4
     = Err (PathError "open" "objects/info/02")
  /\ Odb_ExistsPrefix (H := OdbBackendLoose_backend storedZlib) bucketStore
       (mkOdb []) readmeOid 4
     = Ok None.
Proof. repeat split; vm_compute; reflexivity. Qed.

(** ** The dispatcher over backends that agree *)

(** X18: the dispatcher keeps the agreement of [ReadHeader] with
    [Read]: when for every backend of the list [ReadHeader] is the type
    and size of what [Read] returns, then [Odb.ReadHeader] is the type
    and size of what [Odb.Read] returns, and the two fail together, each
    with its own "no match" error. *)
Theorem Odb_ReadHeader_agrees_with_Odb_Read {B : Type} `{OdbBackend B}
    (fs : FileSystem) (o : Odb B) (oid : Oid) :
  Forall (fun b => backend_ReadHeader fs b oid = headerOf (backend_Read fs b oid))
         (backends o) ->
  match Odb_Read fs o oid with
  | Ok obj => Odb_ReadHeader fs o oid = Ok (Type_ obj, Z.of_nat (length (Data obj)))
  | Err e =>
      e = ErrorString ("Odb.Read: no match for id: " +:+ Oid_String oid)
      /\ Odb_ReadHeader fs o oid
         = Err (ErrorString ("Odb.ReadHeader: no match for id: " +:+ Oid_String oid))
  | Panic p => Odb_ReadHeader fs o oid = Panic p
  end.
Proof.
  unfold Odb_Read, Odb_ReadHeader.
  induction 1 as [|b rest Hb _ IH]; simpl.
  - split; reflexivity.
  - rewrite Hb. destruct (backend_Read fs b oid) as [obj|e|p]; simpl.
    + reflexivity.
    + exact IH.
    + reflexivity.
Qed.

Lemma Odb_ReadHeader_agrees_with_Odb_Read_witness :
  Odb_ReadHeader (H := OdbBackendLoose_backend storedZlib) twoStores twoBackends readmeOid
  = Ok (ObjectBlob, 20).
Proof.
  apply (Odb_ReadHeader_agrees_with_Odb_Read (H := OdbBackendLoose_backend storedZlib)
           twoStores twoBackends readmeOid).
  repeat constructor; vm_compute; reflexivity.
Defined.

(** ** What can be read exists *)

Lemma ReadFile_ok_Stat (fs : FileSystem) (path : string) :
  is_ok (ReadFile fs path) = true -> is_ok (Stat fs path) = true.
Proof.
  unfold ReadFile, Stat.
  destruct (fs_files fs !! path) as [[id content]|];
    destruct (fs_dirs fs !! path) as [[id' names]|]; simpl; congruence.
Qed.

Lemma Loose_Read_ok_Exists (z : zlib) (fs : FileSystem) (o : OdbBackendLoose) (oid : Oid) :
  is_ok (Loose_Read z fs o oid) = true \/ is_ok (Loose_ReadHeader z fs o oid) = true ->
  Loose_Exists fs o oid = true.
Proof.
  unfold Loose_Read, Loose_ReadHeader, Loose_Exists.
  destruct (PathFormat oid) as [dirName fileName]. unfold IsNotExist.
  pose proof (ReadFile_ok_Stat fs (Join [objectsDir o; dirName; fileName])) as Hstat.
  destruct (ReadFile fs _) as [content|e|p]; simpl; [|intros [?|?]; discriminate..].
  intros _. specialize (Hstat eq_refl).
  destruct (Stat fs _); try discriminate. reflexivity.
Qed.

Lemma firstSuccess_ok_some {B A : Type} (call : B -> result A)
    (noMatch : error) (backends : list B) :
  is_ok (firstSuccess call noMatch backends) = true ->
  Exists (fun b => is_ok (call b) = true) backends.
Proof.
  induction backends as [|b rest IH]; simpl; [discriminate|].
  destruct (call b) as [x|e|p] eqn:Hb; intros Hok.
  - apply Exists_cons_hd. rewrite Hb. reflexivity.
  - apply Exists_cons_tl. apply IH. assumption.
  - discriminate.
Qed.

(** X19: over loose backends, whatever [Odb.Read] or [Odb.ReadHeader]
    can deliver, [Odb.Exists] reports as present. *)
Theorem Odb_Read_ok_Exists (z : zlib) (fs : FileSystem) (o : Odb OdbBackendLoose)
    (oid : Oid) :
  is_ok (Odb_Read (H := OdbBackendLoose_backend z) fs o oid) = true
  \/ is_ok (Odb_ReadHeader (H := OdbBackendLoose_backend z) fs o oid) = true ->
  Odb_Exists (H := OdbBackendLoose_backend z) fs o oid = true.
Proof.
  unfold Odb_Read, Odb_ReadHeader, Odb_Exists. intros Hok.
  apply existsb_exists.
  assert (Exists (fun b => is_ok (Loose_Read z fs b oid) = true
                           \/ is_ok (Loose_ReadHeader z fs b oid) = true) (backends o))
    as Hsome.
  { destruct Hok as [Hok|Hok]; apply firstSuccess_ok_some in Hok;
      (eapply Exists_impl; [exact Hok|]); simpl; intros b Hb; [left|right]; exact Hb. }
  apply Exists_exists in Hsome as (b & Hin & Hb).
  exists b. split; [apply list_elem_of_In; assumption|].
  simpl. apply (Loose_Read_ok_Exists z). assumption.
Qed.

Lemma Odb_Read_ok_Exists_witness :
  Odb_Exists (H := OdbBackendLoose_backend storedZlib) twoStores twoBackends readmeOid
  = true.
Proof.
  apply (Odb_Read_ok_Exists storedZlib twoStores twoBackends readmeOid).
  left. vm_compute. reflexivity.
Defined.

(** ** [AddDefaultBackends] and [loadAlternates] *)

Section RegistrationFacts.

Variable z : zlib.
Variable sort_Sort : forall A : Type, (A -> A -> bool) -> list A -> list A.
Variable fs : FileSystem.

Lemma AddDefaultBackends_fuel_step (fuel : nat) (o : Odb OdbBackendLoose)
    (objectsDir : string) (asAlternates : bool) (alternateDepth : Z) :
  AddDefaultBackends_fuel z sort_Sort fs (S fuel) o objectsDir asAlternates alternateDepth
  = match Stat fs objectsDir with
    | Ok info =>
        if existsb (fun backend => Loose_SameDirectory backend info) (backends o)
        then Some (o, Ok tt)
        else
          match loadAlternates_with fs
                  (fun o' path =>
                     AddDefaultBackends_fuel z sort_Sort fs fuel o' path true
                       (alternateDepth + 1))
                  (addBackendInternal (H := OdbBackendLoose_backend z) sort_Sort o
                     (NewOdbBackendLoose objectsDir (-1) false 0 0)
                     GIT_LOOSE_PRIORITY asAlternates info)
                  objectsDir alternateDepth with
          | Some (o', _) => Some (o', Ok tt)
          | None => None
          end
    | _ =>
        Some (o, Err (ErrorString
                        ("Failed to load object database in '" +:+ objectsDir +:+ "'")))
    end.
Proof. reflexivity. Qed.

Lemma alternatesLoop_invariant (P : Odb OdbBackendLoose -> Prop)
    (add : Odb OdbBackendLoose -> string -> option (Odb OdbBackendLoose * result unit))
    (objectsDir : string) (alternateDepth : Z) (lines : list string)
    (o o' : Odb OdbBackendLoose) (r : result unit) :
  (forall o1 path o2 r2, P o1 -> add o1 path = Some (o2, r2) -> P o2) ->
  P o ->
  alternatesLoop add objectsDir alternateDepth lines o = Some (o', r) ->
  P o'.
Proof.
  intros Hadd. revert o. induction lines as [|line rest IH]; intros o HP; simpl.
  - intros [= <- _]. assumption.
  - destruct (_ || _); [apply IH; assumption|].
    destruct (_ && _); [|apply IH; assumption].
    destruct (add o (Join [objectsDir; line])) as [[o1 [[]|e|p]]|] eqn:Hstep;
      try discriminate.
    + apply IH. eapply Hadd; eauto.
    + intros [= <- _]. eapply Hadd; eauto.
    + intros [= <- _]. eapply Hadd; eauto.
Qed.

Lemma loadAlternates_with_invariant (P : Odb OdbBackendLoose -> Prop)
    (add : Odb OdbBackendLoose -> string -> option (Odb OdbBackendLoose * result unit))
    (objectsDir : string) (alternateDepth : Z)
    (o o' : Odb OdbBackendLoose) (r : result unit) :
  (forall o1 path o2 r2, P o1 -> add o1 path = Some (o2, r2) -> P o2) ->
  P o ->
  loadAlternates_with fs add o objectsDir alternateDepth = Some (o', r) ->
  P o'.
Proof.
  intros Hadd HP. unfold loadAlternates_with.
  destruct (alternateDepth >? GIT_ALTERNATES_MAX_DEPTH); [intros [= <- _]; assumption|].
  destruct (IsNotExist _); [intros [= <- _]; assumption|].
  apply alternatesLoop_invariant; assumption.
Qed.

(** A property of the backend list that every registration keeps is
    kept by [AddDefaultBackends], through all the alternates it
    follows.  [asAlternates0] is the flag of the outermost call; the
    calls for alternates pass [true]. *)
Lemma AddDefaultBackends_fuel_invariant (P : Odb OdbBackendLoose -> Prop)
    (asAlternates0 : bool) :
  (forall o objectsDir asAlternates info,
     asAlternates = asAlternates0 \/ asAlternates = true ->
     P o ->
     Stat fs objectsDir = Ok info ->
     existsb (fun backend => Loose_SameDirectory backend info) (backends o) = false ->
     P (addBackendInternal (H := OdbBackendLoose_backend z) sort_Sort o
          (NewOdbBackendLoose objectsDir (-1) false 0 0)
          GIT_LOOSE_PRIORITY asAlternates info)) ->
  forall fuel o objectsDir asAlternates alternateDepth o' r,
    asAlternates = asAlternates0 \/ asAlternates = true ->
    P o ->
    AddDefaultBackends_fuel z sort_Sort fs fuel o objectsDir asAlternates alternateDepth
    = Some (o', r) ->
    P o'.
Proof.
  intros Hstep.
  induction fuel as [|fuel IH]; intros o objectsDir asAlternates alternateDepth o' r Halt HP;
    simpl; [discriminate|].
  destruct (Stat fs objectsDir) as [info|e|p] eqn:Hstat;
    [|intros [= <- _]; assumption..].
  destruct (existsb _ (backends o)) eqn:Hsame; [intros [= <- _]; assumption|].
  destruct (loadAlternates_with _ _ _ _ _) as [[o1 r1]|] eqn:Hload; [|discriminate].
  intros [= <- _].
  eapply loadAlternates_with_invariant; [|apply Hstep; eassumption|exact Hload].
  intros o2 path o3 r3 HP2 Hadd. simpl in Hadd.
  eapply IH; [right; reflexivity|exact HP2|exact Hadd].
Qed.

Lemma AddDefaultBackends_invariant (P : Odb OdbBackendLoose -> Prop)
    (o : Odb OdbBackendLoose) (objectsDir : string) (asAlternates : bool)
    (alternateDepth : Z) :
  (forall o1 path alt info,
     alt = asAlternates \/ alt = true ->
     P o1 ->
     Stat fs path = Ok info ->
     existsb (fun backend => Loose_SameDirectory backend info) (backends o1) = false ->
     P (addBackendInternal (H := OdbBackendLoose_backend z) sort_Sort o1
          (NewOdbBackendLoose path (-1) false 0 0) GIT_LOOSE_PRIORITY alt info)) ->
  P o ->
  P (fst (AddDefaultBackends z sort_Sort fs o objectsDir asAlternates alternateDepth)).
Proof.
  intros Hstep HP.
  pose proof (AddDefaultBackends_fuel_enough z sort_Sort fs o objectsDir asAlternates
                alternateDepth) as Hfuel.
  destruct (AddDefaultBackends z sort_Sort fs o objectsDir asAlternates alternateDepth)
    as [o' r].
  eapply (AddDefaultBackends_fuel_invariant P asAlternates Hstep);
    [left; reflexivity|exact HP|exact Hfuel].
Qed.

(** The lines of the alternates file that do not start with a dot
    (empty lines, comments, absolute paths) have no effect. *)
Lemma alternatesLoop_dot_lines
    (add : Odb OdbBackendLoose -> string -> option (Odb OdbBackendLoose * result unit))
    (objectsDir : string) (alternateDepth : Z) (lines : list string)
    (o : Odb OdbBackendLoose) :
  alternatesLoop add objectsDir alternateDepth lines o
  = alternatesLoop add objectsDir alternateDepth
      (filter (fun line => firstChar line = Some "."%char) lines) o.
Proof.
  revert o. induction lines as [|line rest IH]; intros o; [reflexivity|].
  rewrite filter_cons. destruct (decide (firstChar line = Some "."%char)) as [Hdot|Hdot].
  - cbn [alternatesLoop]. rewrite Hdot.
    destruct line as [|ch line']; [discriminate|]. simpl.
    destruct (alternateDepth >? 0); simpl; [|apply IH].
    destruct (add o _) as [[o1 [[]|e|p]]|]; try reflexivity. apply IH.
  - cbn [alternatesLoop]. rewrite (bool_decide_eq_false_2 _ Hdot). simpl.
    destruct (_ || _); apply IH.
Qed.

End RegistrationFacts.

(** X20: [AddDefaultBackends] returns an error exactly when its own
    directory cannot be stat'ed, and then, as when the directory is
    registered already under whatever path, it leaves the Odb as it is.
    No failure while loading alternates is ever returned. *)
Theorem AddDefaultBackends_fails_only_on_Stat (z : zlib)
    (sort_Sort : forall A : Type, (A -> A -> bool) -> list A -> list A)
    (fs : FileSystem) (o : Odb OdbBackendLoose) (objectsDir : string)
    (asAlternates : bool) (alternateDepth : Z) :
  snd (AddDefaultBackends z sort_Sort fs o objectsDir asAlternates alternateDepth)
  = match Stat fs objectsDir with
    | Ok _ => Ok tt
    | _ => Err (ErrorString ("Failed to load object database in '" +:+ objectsDir +:+ "'"))
    end
  /\ (match Stat fs objectsDir with
      | Ok info => existsb (fun backend => Loose_SameDirectory backend info) (backends o)
      | _ => true
      end = true ->
      fst (AddDefaultBackends z sort_Sort fs o objectsDir asAlternates alternateDepth) = o).
Proof.
  pose proof (AddDefaultBackends_fuel_enough z sort_Sort fs o objectsDir asAlternates
                alternateDepth) as Hfuel.
  destruct (AddDefaultBackends z sort_Sort fs o objectsDir asAlternates alternateDepth)
    as [o' r].
  rewrite AddDefaultBackends_fuel_step in Hfuel. simpl.
  destruct (Stat fs objectsDir) as [info|e|p].
  - destruct (existsb _ (backends o)).
    + injection Hfuel as <- <-. split; reflexivity.
    + destruct (loadAlternates_with _ _ _ _ _) as [[o1 r1]|]; [|discriminate].
      injection Hfuel as <- <-. split; [reflexivity|discriminate].
  - injection Hfuel as <- <-. split; reflexivity.
  - injection Hfuel as <- <-. split; reflexivity.
Qed.

Lemma AddDefaultBackends_fails_only_on_Stat_witness :
  fst (AddDefaultBackends storedZlib sortShort118 twoStores twoBackends "alt/objects" true 1)
  = twoBackends.
Proof.
  apply (AddDefaultBackends_fails_only_on_Stat storedZlib sortShort118 twoStores
           twoBackends "alt/objects" true 1).
  vm_compute. reflexivity.
Defined.

Section SortPermutes.

Variable z : zlib.
Variable sort_Sort : forall A : Type, (A -> A -> bool) -> list A -> list A.
Hypothesis sort_Sort_Permutation :
  forall (A : Type) (less : A -> A -> bool) (l : list A), sort_Sort A less l ≡ₚ l.
Variable fs : FileSystem.

Lemma addBackendInternal_elem_of (o : Odb OdbBackendLoose) (loose : OdbBackendLoose)
    (priority : Z) (asAlternates : bool) (info : FileInfo) (b : OdbBackendLoose) :
  b ∈ backends (addBackendInternal (H := OdbBackendLoose_backend z) sort_Sort o loose
                  priority asAlternates info)
  <-> b ∈ backends o \/ b = Loose_InitBackend loose priority asAlternates info.
Proof.
  unfold addBackendInternal. simpl. rewrite sort_Sort_Permutation.
  rewrite elem_of_app, list_elem_of_singleton. reflexivity.
Qed.

Lemma AddDefaultBackends_keeps (o : Odb OdbBackendLoose) (objectsDir : string)
    (asAlternates : bool) (alternateDepth : Z) (b : OdbBackendLoose) :
  b ∈ backends o ->
  b ∈ backends (fst (AddDefaultBackends z sort_Sort fs o objectsDir asAlternates
                       alternateDepth)).
Proof.
  intros Hin.
  apply (AddDefaultBackends_invariant z sort_Sort fs (fun o' => b ∈ backends o'));
    [|assumption].
  intros o1 path alt info _ Hin1 _ _. apply addBackendInternal_elem_of. left. assumption.
Qed.

Lemma existsb_SameDirectory_false (l : list OdbBackendLoose) (info : FileInfo) :
  existsb (fun backend => Loose_SameDirectory backend info) l = false ->
  Some info ∉ map (fun backend => dirInfo (base backend)) l.
Proof.
  induction l as [|b l IH]; simpl; intros Hnone.
  - apply not_elem_of_nil.
  - apply orb_false_elim in Hnone as [Hb Hl].
    apply not_elem_of_cons. split; [|apply IH; assumption].
    intros Heq. unfold Loose_SameDirectory in Hb. rewrite <- Heq in Hb.
    unfold SameFile in Hb. rewrite Nat.eqb_refl in Hb. discriminate.
Qed.

Lemma AddDefaultBackends_registers (o : Odb OdbBackendLoose) (objectsDir : string)
    (asAlternates : bool) (alternateDepth : Z) (info : FileInfo) :
  Stat fs objectsDir = Ok info ->
  exists b,
    b ∈ backends (fst (AddDefaultBackends z sort_Sort fs o objectsDir asAlternates
                         alternateDepth))
    /\ Loose_SameDirectory b info = true.
Proof.
  intros Hstat.
  pose proof (AddDefaultBackends_fuel_enough z sort_Sort fs o objectsDir asAlternates
                alternateDepth) as Hfuel.
  destruct (AddDefaultBackends z sort_Sort fs o objectsDir asAlternates alternateDepth)
    as [o' r].
  rewrite AddDefaultBackends_fuel_step, Hstat in Hfuel. simpl.
  destruct (existsb _ (backends o)) eqn:Hsame.
  - injection Hfuel as <- <-. apply existsb_exists in Hsame as (b & Hin & Hb).
    exists b. split; [apply list_elem_of_In; assumption|assumption].
  - destruct (loadAlternates_with _ _ _ _ _) as [[o1 r1]|] eqn:Hload; [|discriminate].
    injection Hfuel as <- <-.
    eapply (loadAlternates_with_invariant fs
              (fun o' => exists b, b ∈ backends o' /\ Loose_SameDirectory b info = true));
      [| |exact Hload].
    + intros o2 path o3 r3 HP Hadd. cbv beta in Hadd.
      eapply (AddDefaultBackends_fuel_invariant z sort_Sort fs
                (fun o' => exists b, b ∈ backends o' /\ Loose_SameDirectory b info = true)
                true); [|right; reflexivity|exact HP|exact Hadd].
      intros o4 path4 alt4 info4 _ (b & Hin & Hb) _ _.
      exists b. split; [|assumption]. apply addBackendInternal_elem_of. left. assumption.
    + exists (Loose_InitBackend (NewOdbBackendLoose objectsDir (-1) false 0 0)
                GIT_LOOSE_PRIORITY asAlternates info).
      split; [apply addBackendInternal_elem_of; right; reflexivity|].
      unfold Loose_SameDirectory, SameFile. simpl. apply Nat.eqb_refl.
Qed.

Lemma AddDefaultBackends_NoDup (o : Odb OdbBackendLoose) (objectsDir : string)
    (asAlternates : bool) (alternateDepth : Z) :
  NoDup (map (fun backend => dirInfo (base backend)) (backends o)) ->
  NoDup (map (fun backend => dirInfo (base backend))
             (backends (fst (AddDefaultBackends z sort_Sort fs o objectsDir asAlternates
                               alternateDepth)))).
Proof.
  apply (AddDefaultBackends_invariant z sort_Sort fs
           (fun o' => NoDup (map (fun backend => dirInfo (base backend)) (backends o')))).
  intros o1 path alt info _ Hnodup _ Hsame.
  unfold addBackendInternal. simpl.
  match goal with
  | |- NoDup (map ?f (sort_Sort ?A ?less ?l)) =>
      assert (map f (sort_Sort A less l) ≡ₚ map f l) as Hperm
        by (apply Permutation_map, sort_Sort_Permutation)
  end.
  rewrite Hperm. rewrite map_app. apply NoDup_app. split; [assumption|]. split.
  - intros x Hx Hnew. simpl in Hnew. apply list_elem_of_singleton in Hnew. subst x.
    revert Hx. apply existsb_SameDirectory_false. assumption.
  - simpl. apply NoDup_singleton.
Qed.

Lemma AddDefaultBackends_provenance (o : Odb OdbBackendLoose) (objectsDir : string)
    (asAlternates : bool) (alternateDepth : Z) (b : OdbBackendLoose) :
  b ∈ backends (fst (AddDefaultBackends z sort_Sort fs o objectsDir asAlternates
                       alternateDepth)) ->
  b ∈ backends o
  \/ exists path alt info,
       (alt = asAlternates \/ alt = true)
       /\ Stat fs path = Ok info
       /\ b = Loose_InitBackend (NewOdbBackendLoose path (-1) false 0 0)
                GIT_LOOSE_PRIORITY alt info.
Proof.
  revert b.
  apply (AddDefaultBackends_invariant z sort_Sort fs
           (fun o' => forall b, b ∈ backends o' ->
              b ∈ backends o
              \/ exists path alt info,
                   (alt = asAlternates \/ alt = true)
                   /\ Stat fs path = Ok info
                   /\ b = Loose_InitBackend (NewOdbBackendLoose path (-1) false 0 0)
                            GIT_LOOSE_PRIORITY alt info)).
  - intros o1 path alt info Halt HP Hstat _ b Hin.
    apply addBackendInternal_elem_of in Hin as [Hin| ->]; [apply HP; assumption|].
    right. exists path, alt, info. repeat split; assumption.
  - intros b Hin. left. assumption.
Qed.

Lemma loadAlternates_dangling (o : Odb OdbBackendLoose) (objectsDir : string)
    (alternateDepth : Z) (id : nat) (content : list byte) (line : string)
    (rest : list string) :
  0 < alternateDepth <= GIT_ALTERNATES_MAX_DEPTH ->
  fs_files fs !! Join [objectsDir; GIT_ALTERNATES_FILE] = Some (id, content) ->
  filter (fun line => firstChar line = Some "."%char)
         (scanLines (String.string_of_list_byte content))
  = line :: rest ->
  is_ok (Stat fs (Join [objectsDir; line])) = false ->
  loadAlternates z sort_Sort fs o objectsDir alternateDepth
  = (o, Err (ErrorString ("Failed to load object database in '"
                          +:+ Join [objectsDir; line] +:+ "'"))).
Proof.
  intros Hdepth Hfile Hlines Hgone.
  unfold loadAlternates, loadAlternates_fuel, loadAlternates_with.
  destruct (Z.gtb_spec alternateDepth GIT_ALTERNATES_MAX_DEPTH) as [?|_]; [lia|].
  assert (IsNotExist (Stat fs (Join [objectsDir; GIT_ALTERNATES_FILE])) = false) as Hthere.
  { unfold Stat, FileInfo. rewrite Hfile.
    destruct (fs_dirs fs !! _) as [[? ?]|]; reflexivity. }
  rewrite Hthere. unfold fileLines. rewrite Hfile.
  rewrite alternatesLoop_dot_lines, Hlines.
  assert (firstChar line = Some "."%char) as Hdot.
  { assert (line ∈ filter (fun line => firstChar line = Some "."%char)
                     (scanLines (String.string_of_list_byte content))) as Hin
      by (rewrite Hlines; apply list_elem_of_here).
    apply list_elem_of_filter in Hin as [Hdot _]. exact Hdot. }
  rewrite alternatesLoop_follows by (assumption || lia).
  rewrite AddDefaultBackends_fuel_step.
  destruct (Stat fs (Join [objectsDir; line])) as [info|e|p]; [discriminate|reflexivity..].
Qed.

End SortPermutes.

(** X21: under a [sort.Sort] that rearranges and no more,
    [AddDefaultBackends] never drops a backend, through all the
    alternates it follows, and when its directory can be stat'ed the
    list holds a backend for that directory afterwards. *)
Theorem AddDefaultBackends_keeps_and_registers (z : zlib)
    (sort_Sort : forall A : Type, (A -> A -> bool) -> list A -> list A)
    (fs : FileSystem) (o : Odb OdbBackendLoose) (objectsDir : string)
    (asAlternates : bool) (alternateDepth : Z) :
  (forall (A : Type) (less : A -> A -> bool) (l : list A), sort_Sort A less l ≡ₚ l) ->
  (forall b,
     b ∈ backends o ->
     b ∈ backends (fst (AddDefaultBackends z sort_Sort fs o objectsDir asAlternates
                          alternateDepth)))
  /\ (forall info,
        Stat fs objectsDir = Ok info ->
        existsb (fun backend => Loose_SameDirectory backend info)
          (backends (fst (AddDefaultBackends z sort_Sort fs o objectsDir asAlternates
                            alternateDepth)))
        = true).
Proof.
  intros Hperm. split.
  - intros b. apply AddDefaultBackends_keeps. assumption.
  - intros info Hstat.
    destruct (AddDefaultBackends_registers z sort_Sort Hperm fs o objectsDir asAlternates
                alternateDepth info Hstat) as (b & Hin & Hb).
    apply existsb_exists. exists b. split; [apply list_elem_of_In; assumption|assumption].
Qed.

Lemma AddDefaultBackends_keeps_and_registers_witness :
  (forall b,
     b ∈ backends twoBackends ->
     b ∈ backends (fst (AddDefaultBackends storedZlib sortMerge chainStore twoBackends
                          "c" true 3)))
  /\ (forall info,
        Stat chainStore "c" = Ok info ->
        existsb (fun backend => Loose_SameDirectory backend info)
          (backends (fst (AddDefaultBackends storedZlib sortMerge chainStore twoBackends
                            "c" true 3)))
        = true).
Proof.
  apply (AddDefaultBackends_keeps_and_registers storedZlib sortMerge chainStore
           twoBackends "c" true 3).
  apply sortMerge_Permutation.
Defined.

(** X22: [AddDefaultBackends] never registers one directory twice:
    when no two backends of the list stand for the same directory
    before the call, no two do after it, whatever the alternates files
    name and however they refer to each other. *)
Theorem AddDefaultBackends_no_directory_twice (z : zlib)
    (sort_Sort : forall A : Type, (A -> A -> bool) -> list A -> list A)
    (fs : FileSystem) (o : Odb OdbBackendLoose) (objectsDir : string)
    (asAlternates : bool) (alternateDepth : Z) :
  (forall (A : Type) (less : A -> A -> bool) (l : list A), sort_Sort A less l ≡ₚ l) ->
  NoDup (map (fun backend => dirInfo (base backend)) (backends o)) ->
  NoDup (map (fun backend => dirInfo (base backend))
             (backends (fst (AddDefaultBackends z sort_Sort fs o objectsDir asAlternates
                               alternateDepth)))).
Proof.
  intros Hperm. apply AddDefaultBackends_NoDup. assumption.
Qed.

Lemma AddDefaultBackends_no_directory_twice_witness :
  NoDup (map (fun backend => dirInfo (base backend))
             (backends (fst (AddDefaultBackends storedZlib sortMerge chainStore twoBackends
                               "c" true 3)))).
Proof.
  apply (AddDefaultBackends_no_directory_twice storedZlib sortMerge chainStore
           twoBackends "c" true 3).
  - apply sortMerge_Permutation.
  - apply (bool_decide_unpack _). vm_compute. reflexivity.
Defined.

(** X23: every backend that [AddDefaultBackends] adds is a loose
    backend of a directory that exists, at the loose priority, with the
    identity of that directory as [os.Stat] gives it, and with the flag
    of the call or, for an alternate, [true]. *)
Theorem AddDefaultBackends_adds_existing_directories (z : zlib)
    (sort_Sort : forall A : Type, (A -> A -> bool) -> list A -> list A)
    (fs : FileSystem) (o : Odb OdbBackendLoose) (objectsDir : string)
    (asAlternates : bool) (alternateDepth : Z) (b : OdbBackendLoose) :
  (forall (A : Type) (less : A -> A -> bool) (l : list A), sort_Sort A less l ≡ₚ l) ->
  b ∈ backends (fst (AddDefaultBackends z sort_Sort fs o objectsDir asAlternates
                       alternateDepth)) ->
  b ∈ backends o
  \/ exists path alt info,
       (alt = asAlternates \/ alt = true)
       /\ Stat fs path = Ok info
       /\ b = Loose_InitBackend (NewOdbBackendLoose path (-1) false 0 0)
                GIT_LOOSE_PRIORITY alt info.
Proof.
  intros Hperm. apply AddDefaultBackends_provenance. assumption.
Qed.

Lemma AddDefaultBackends_adds_existing_directories_witness :
  Loose_InitBackend (looseAt "alt/objects") 1 true 3%nat ∈ backends (mkOdb [])
  \/ exists path alt info,
       (alt = false \/ alt = true)
       /\ Stat twoStores path = Ok info
       /\ Loose_InitBackend (looseAt "alt/objects") 1 true 3%nat
          = Loose_InitBackend (NewOdbBackendLoose path (-1) false 0 0)
              GIT_LOOSE_PRIORITY alt info.
Proof.
  apply (AddDefaultBackends_adds_existing_directories storedZlib sortMerge twoStores
           (mkOdb []) "objects" false 1).
  - apply sortMerge_Permutation.
  - apply (bool_decide_unpack _). vm_compute. reflexivity.
Defined.

(** X24: in the loop of [loadAlternates] only the lines that start
    with a dot count: empty lines, comments and every other line, an
    absolute path included, can be taken out of the file without
    changing what the loop does. *)
Theorem alternatesLoop_ignores_other_lines
    (add : Odb OdbBackendLoose -> string -> option (Odb OdbBackendLoose * result unit))
    (objectsDir : string) (alternateDepth : Z) (lines : list string)
    (o : Odb OdbBackendLoose) :
  alternatesLoop add objectsDir alternateDepth lines o
  = alternatesLoop add objectsDir alternateDepth
      (filter (fun line => firstChar line = Some "."%char) lines) o.
Proof. apply alternatesLoop_dot_lines. Qed.

(** X25: at a depth from 1 to 5, when the first line with a dot in the
    alternates file names a directory that cannot be stat'ed,
    [loadAlternates] returns the error of that directory at once and
    registers nothing, so that no later line of the file is followed. *)
Theorem loadAlternates_stops_at_dangling_line (z : zlib)
    (sort_Sort : forall A : Type, (A -> A -> bool) -> list A -> list A)
    (fs : FileSystem) (o : Odb OdbBackendLoose) (objectsDir : string)
    (alternateDepth : Z) (id : nat) (content : list byte) (line : string)
    (rest : list string) :
  0 < alternateDepth <= GIT_ALTERNATES_MAX_DEPTH ->
  fs_files fs !! Join [objectsDir; GIT_ALTERNATES_FILE] = Some (id, content) ->
  filter (fun line => firstChar line = Some "."%char)
         (scanLines (String.string_of_list_byte content))
  = line :: rest ->
  is_ok (Stat fs (Join [objectsDir; line])) = false ->
  loadAlternates z sort_Sort fs o objectsDir alternateDepth
  = (o, Err (ErrorString ("Failed to load object database in '"
                          +:+ Join [objectsDir; line] +:+ "'"))).
Proof. apply loadAlternates_dangling. Qed.

Lemma loadAlternates_stops_at_dangling_line_witness :
  loadAlternates storedZlib sortShort118 danglingStore (mkOdb []) "objects" 1
  = (mkOdb [], Err (ErrorString "Failed to load object database in 'gone/objects'")).
Proof.
  apply (loadAlternates_stops_at_dangling_line storedZlib sortShort118 danglingStore
           (mkOdb []) "objects" 1 4%nat
           (String.list_byte_of_string "/srv/shared/objects" ++ [x0a]
            ++ String.list_byte_of_string "../gone/objects" ++ [x0a]
            ++ String.list_byte_of_string "../alt/objects" ++ [x0a])
           "../gone/objects" ["../alt/objects"]).
  - vm_compute. split; [reflexivity|discriminate].
  - vm_compute. reflexivity.
  - vm_compute. reflexivity.
  - vm_compute. reflexivity.
Defined.

(** On that store [AddDefaultBackends] at depth 1 returns nil and has
    registered the first directory only: the directory named by the
    line after the dangling one is left out. *)
Example AddDefaultBackends_danglingStore :
  AddDefaultBackends storedZlib sortShort118 danglingStore (mkOdb []) "objects" false 1
  = (mkOdb [Loose_InitBackend (looseAt "objects") 1 false 1%nat], Ok tt)
  /\ is_ok (Stat danglingStore (Join ["objects"; "../alt/objects"])) = true.
Proof. split; vm_compute; reflexivity. Qed.

(** ** [filepath.Join] in two steps

    [Write] joins the directory of the bucket first and the file name
    to the result; [Read], [ReadHeader] and [Exists] join the three
    parts at once.  The two paths are the same. *)

Lemma splitOn_nonempty (sep : ascii) (s : string) : splitOn sep s <> [].
Proof.
  induction s as [|c rest IH]; simpl; [discriminate|].
  destruct (Ascii.eqb c sep); [discriminate|].
  destruct (splitOn sep rest); [contradiction|discriminate].
Qed.

Lemma splitOn_app_sep (sep : ascii) (x y : string) :
  splitOn sep (x +:+ String sep y) = splitOn sep x ++ splitOn sep y.
Proof.
  induction x as [|c x IH].
  - change ("" +:+ String sep y) with (String sep y). simpl.
    rewrite Ascii.eqb_refl. reflexivity.
  - rewrite append_String. simpl. rewrite IH.
    destruct (Ascii.eqb c sep); [reflexivity|].
    pose proof (splitOn_nonempty sep x) as Hne.
    destruct (splitOn sep x) as [|p ps]; [contradiction|reflexivity].
Qed.

Lemma splitOn_noSlash (e : string) : noSlash e = true -> splitOn "/"%char e = [e].
Proof.
  unfold noSlash. induction e as [|c e IH]; simpl; [reflexivity|].
  intros Hc. apply andb_prop in Hc as [Hc He].
  apply negb_true_iff in Hc. rewrite Hc, IH by assumption. reflexivity.
Qed.

Lemma splitOn_fold (es : list string) (acc : string) :
  Forall (fun e => noSlash e = true) es ->
  splitOn "/"%char (fold_left (fun acc q => acc +:+ "/" +:+ q) es acc)
  = splitOn "/"%char acc ++ es.
Proof.
  intros Hes. revert acc. induction Hes as [|e es He _ IH]; intros acc; simpl.
  - rewrite app_nil_r. reflexivity.
  - rewrite IH. change ("/" +:+ e) with (String "/"%char e).
    rewrite splitOn_app_sep. rewrite (splitOn_noSlash e He).
    rewrite <- app_assoc. reflexivity.
Qed.

Lemma splitOn_joinWith (elems : list string) :
  elems <> [] ->
  Forall (fun e => noSlash e = true) elems ->
  splitOn "/"%char (joinWith "/" elems) = elems.
Proof.
  intros Hne Hall. destruct elems as [|e es]; [contradiction|].
  apply Forall_cons in Hall as [He Hes]. unfold joinWith.
  rewrite splitOn_fold by assumption. rewrite (splitOn_noSlash e He). reflexivity.
Qed.

Lemma plainName_inv (e : string) :
  plainName e = true ->
  noSlash e = true /\ String.eqb e "" = false /\ String.eqb e "." = false
  /\ String.eqb e ".." = false.
Proof.
  unfold plainName. intros H.
  apply andb_prop in H as [H H3]. apply andb_prop in H as [H H2].
  apply andb_prop in H as [H0 H1].
  apply negb_true_iff in H1, H2, H3. repeat split; assumption.
Qed.

Lemma cleanElems_plain (rooted : bool) (names stack : list string) :
  Forall (fun e => plainName e = true) names ->
  cleanElems rooted names stack = rev stack ++ names.
Proof.
  intros Hall. revert stack. induction Hall as [|e names He _ IH]; intros stack; simpl.
  - rewrite app_nil_r. reflexivity.
  - apply plainName_inv in He as (_ & H0 & H1 & H2). rewrite H0, H1, H2. simpl.
    rewrite IH. simpl. rewrite <- app_assoc. reflexivity.
Qed.

Lemma rev_replicate_string (j : nat) (e : string) : rev (replicate j e) = replicate j e.
Proof.
  induction j as [|j IH]; simpl; [reflexivity|].
  rewrite IH. clear IH. induction j as [|j IH]; simpl; [reflexivity|].
  rewrite IH. reflexivity.
Qed.

Lemma cleanElems_dotdots (k j : nat) (names : list string) :
  Forall (fun e => plainName e = true) names ->
  cleanElems false (replicate k ".." ++ names) (replicate j "..")
  = replicate (j + k) ".." ++ names.
Proof.
  intros Hall. revert j. induction k as [|k IH]; intros j.
  - simpl. rewrite cleanElems_plain by assumption.
    rewrite rev_replicate_string, Nat.add_0_r. reflexivity.
  - simpl. destruct j as [|j]; simpl.
    + exact (IH 1%nat).
    + replace (j + S k)%nat with (S (j + k)) by lia. exact (IH (S (S j))).
Qed.

(** A cleaned list of elements is cleaned to itself. *)
Lemma cleanElems_cleanShape (rooted : bool) (elems : list string) :
  cleanShape rooted elems -> cleanElems rooted elems [] = elems.
Proof.
  intros (j & names & -> & Hall & Hroot). destruct rooted.
  - rewrite (Hroot eq_refl). simpl. apply cleanElems_plain. assumption.
  - apply (cleanElems_dotdots j 0 names Hall).
Qed.

Lemma allChars_noSlash_splitOn (s : string) :
  Forall (fun e => noSlash e = true) (splitOn "/"%char s).
Proof.
  induction s as [|c s IH]; simpl.
  - constructor; [reflexivity|constructor].
  - destruct (Ascii.eqb c "/"%char) eqn:Hc.
    + constructor; [reflexivity|assumption].
    + destruct (splitOn "/"%char s) as [|p ps]; simpl.
      * constructor; [|constructor]. unfold noSlash. simpl. rewrite Hc. reflexivity.
      * apply Forall_cons in IH as [Hp Hps]. constructor; [|assumption].
        unfold noSlash in *. simpl. rewrite Hc, Hp. reflexivity.
Qed.

(** What [cleanElems] returns has the shape of a cleaned list. *)
Lemma cleanElems_shape (rooted : bool) (elems : list string) (j : nat)
    (names : list string) :
  Forall (fun e => noSlash e = true) elems ->
  Forall (fun e => plainName e = true) names ->
  (rooted = true -> j = 0%nat) ->
  cleanShape rooted (cleanElems rooted elems (rev names ++ replicate j "..")).
Proof.
  intros Helems. revert j names.
  induction Helems as [|e elems He _ IH]; intros j names Hnames Hroot.
  - simpl. exists j, names. rewrite rev_app_distr, rev_involutive, rev_replicate_string.
    repeat split; assumption.
  - simpl. destruct (String.eqb e "" || String.eqb e ".") eqn:Hskip; [apply IH; assumption|].
    apply orb_false_elim in Hskip as [H0 H1].
    destruct (String.eqb e "..") eqn:Hdd.
    + apply String.eqb_eq in Hdd. subst e.
      destruct (rev names) as [|top below] eqn:Hrev.
      * simpl. assert (names = []) as ->
          by (apply (f_equal (@rev string)) in Hrev; rewrite rev_involutive in Hrev; exact Hrev).
        destruct j as [|j]; simpl.
        -- destruct rooted.
           ++ apply (IH 0%nat []); [constructor|reflexivity].
           ++ apply (IH 1%nat []); [constructor|discriminate].
        -- assert (rooted = false) as -> by (destruct rooted; [specialize (Hroot eq_refl); lia|reflexivity]).
           apply (IH (S (S j)) []); [constructor|discriminate].
      * simpl.
        assert (names = rev below ++ [top]) as Hnames'.
        { rewrite <- (rev_involutive names), Hrev. reflexivity. }
        subst names. apply Forall_app in Hnames as [Hbelow Htop].
        apply Forall_cons in Htop as [Htop _].
        apply plainName_inv in Htop as (_ & _ & _ & Htop). rewrite Htop.
        rewrite <- (rev_involutive below). apply IH; assumption.
    + specialize (IH j (names ++ [e])).
      rewrite rev_app_distr in IH. simpl in IH. apply IH; [|assumption].
      apply Forall_app. split; [assumption|]. constructor; [|constructor].
      unfold plainName. rewrite He, H0, H1, Hdd. reflexivity.
Qed.

Lemma cleanElems_shape_nil (rooted : bool) (elems : list string) :
  Forall (fun e => noSlash e = true) elems ->
  cleanShape rooted (cleanElems rooted elems []).
Proof.
  intros Helems. apply (cleanElems_shape rooted elems 0 [] Helems); [constructor|reflexivity].
Qed.

Lemma cleanElems_snoc (rooted : bool) (elems stack : list string) (c : string) :
  plainName c = true ->
  cleanElems rooted (elems ++ [c]) stack = cleanElems rooted elems stack ++ [c].
Proof.
  intros Hc. revert stack. induction elems as [|e elems IH]; intros stack.
  - simpl. apply plainName_inv in Hc as (_ & H0 & H1 & H2). rewrite H0, H1, H2. reflexivity.
  - simpl. destruct (String.eqb e "" || String.eqb e "."); [apply IH|].
    destruct (String.eqb e ".."); [|apply IH].
    destruct stack as [|top below]; [destruct rooted; apply IH|].
    destruct (String.eqb top ".."); apply IH.
Qed.

Lemma append_assoc_string (a b c : string) : (a +:+ b) +:+ c = a +:+ (b +:+ c).
Proof.
  induction a as [|ch a IH]; [reflexivity|].
  rewrite !append_String, IH. reflexivity.
Qed.

Lemma fold_left_join_head (es : list string) (acc : string) :
  exists tail, fold_left (fun acc q => acc +:+ "/" +:+ q) es acc = acc +:+ tail.
Proof.
  revert acc. induction es as [|e es IH]; intros acc; simpl.
  - exists "". induction acc as [|ch acc IHacc]; [reflexivity|].
    rewrite append_String, <- IHacc. reflexivity.
  - destruct (IH (acc +:+ "/" +:+ e)) as [tail ->].
    exists (("/" +:+ e) +:+ tail). apply append_assoc_string.
Qed.

Lemma joinWith_head (ch : ascii) (e : string) (es : list string) :
  exists tail, joinWith "/" (String ch e :: es) = String ch tail.
Proof.
  unfold joinWith. destruct (fold_left_join_head es (String ch e)) as [tail ->].
  exists (e +:+ tail). apply append_String.
Qed.

Lemma prefix_slash_String (ch : ascii) (s : string) :
  String.prefix "/" (String ch s) = Ascii.eqb ch "/"%char.
Proof.
  cbn [String.prefix].
  destruct (ascii_dec "/"%char ch) as [<-|Hne].
  - rewrite Ascii.eqb_refl. destruct s; reflexivity.
  - symmetry. apply Ascii.eqb_neq. congruence.
Qed.

Lemma plainName_head (e : string) :
  plainName e = true \/ e = ".." ->
  exists ch rest, e = String ch rest /\ Ascii.eqb ch "/"%char = false.
Proof.
  intros [He| ->]; [|exists "."%char, "."; split; reflexivity].
  apply plainName_inv in He as (Hslash & H0 & _ & _).
  destruct e as [|ch rest]; [discriminate|].
  exists ch, rest. split; [reflexivity|].
  unfold noSlash in Hslash. simpl in Hslash. apply andb_prop in Hslash as [Hch _].
  apply negb_true_iff in Hch. exact Hch.
Qed.

Lemma cleanShape_elements (rooted : bool) (elems : list string) :
  cleanShape rooted elems ->
  Forall (fun e => plainName e = true \/ e = "..") elems.
Proof.
  intros (j & names & -> & Hall & _). apply Forall_app. split.
  - apply Forall_forall. intros e He. apply elem_of_replicate in He as [-> _].
    right. reflexivity.
  - eapply Forall_impl; [exact Hall|]. intros e He. left. exact He.
Qed.

Lemma cleanShape_noSlash (rooted : bool) (elems : list string) :
  cleanShape rooted elems -> Forall (fun e => noSlash e = true) elems.
Proof.
  intros Hshape. eapply Forall_impl; [apply (cleanShape_elements rooted); exact Hshape|].
  intros e [He| ->]; [|reflexivity]. apply plainName_inv in He as (Hslash & _). exact Hslash.
Qed.

Lemma renderPath_head (rooted : bool) (elems : list string) :
  cleanShape rooted elems ->
  exists ch rest,
    renderPath rooted elems = String ch rest /\ Ascii.eqb ch "/"%char = rooted.
Proof.
  intros Hshape. unfold renderPath. destruct rooted.
  - exists "/"%char, (joinWith "/" elems). split; reflexivity.
  - apply cleanShape_elements in Hshape.
    destruct elems as [|e es]; [exists "."%char, ""; split; reflexivity|].
    apply Forall_cons in Hshape as [He _].
    apply plainName_head in He as (ch & rest & -> & Hch).
    destruct (joinWith_head ch rest es) as [tail ->]. simpl.
    exists ch, tail. split; [reflexivity|exact Hch].
Qed.

Lemma renderPath_split (rooted : bool) (elems : list string) :
  cleanShape rooted elems ->
  cleanElems rooted (splitOn "/"%char (renderPath rooted elems)) [] = elems.
Proof.
  intros Hshape.
  pose proof (cleanShape_noSlash rooted elems Hshape) as Hslash.
  pose proof (cleanShape_elements rooted elems Hshape) as Helems.
  unfold renderPath. destruct rooted.
  - change ("/" +:+ joinWith "/" elems) with (String "/"%char (joinWith "/" elems)).
    cbn [splitOn]. rewrite Ascii.eqb_refl.
    destruct elems as [|e es]; [reflexivity|].
    rewrite splitOn_joinWith by (assumption || discriminate).
    change (cleanElems true ("" :: e :: es) []) with (cleanElems true (e :: es) []).
    apply cleanElems_cleanShape. assumption.
  - destruct elems as [|e es]; [reflexivity|].
    apply Forall_cons in Helems as [He _].
    apply plainName_head in He as (ch & rest & -> & Hch).
    destruct (joinWith_head ch rest es) as [tail Htail].
    assert (String.eqb (joinWith "/" (String ch rest :: es)) "" = false) as ->
      by (rewrite Htail; reflexivity).
    rewrite splitOn_joinWith by (assumption || discriminate).
    apply cleanElems_cleanShape. assumption.
Qed.

(** [Clean] by its parts. *)
Lemma Clean_renderPath (path : string) :
  Clean path
  = renderPath (String.prefix "/" path)
      (cleanElems (String.prefix "/" path) (splitOn "/"%char path) []).
Proof. reflexivity. Qed.

Lemma Clean_parts (path : string) :
  String.prefix "/" (Clean path) = String.prefix "/" path
  /\ cleanElems (String.prefix "/" path) (splitOn "/"%char (Clean path)) []
     = cleanElems (String.prefix "/" path) (splitOn "/"%char path) []
  /\ Clean path <> "".
Proof.
  rewrite Clean_renderPath.
  pose proof (cleanElems_shape_nil (String.prefix "/" path) (splitOn "/"%char path)
                (allChars_noSlash_splitOn path)) as Hshape.
  destruct (renderPath_head _ _ Hshape) as (ch & rest & Hhead & Hch).
  split; [|split].
  - rewrite Hhead, prefix_slash_String. exact Hch.
  - apply renderPath_split. assumption.
  - rewrite Hhead. discriminate.
Qed.

Lemma Clean_snoc (x c : string) :
  x <> "" ->
  plainName c = true ->
  Clean (x +:+ "/" +:+ c)
  = renderPath (String.prefix "/" x)
      (cleanElems (String.prefix "/" x) (splitOn "/"%char x) [] ++ [c]).
Proof.
  intros Hx Hc. rewrite Clean_renderPath.
  assert (String.prefix "/" (x +:+ "/" +:+ c) = String.prefix "/" x) as ->.
  { destruct x as [|ch x]; [contradiction|].
    rewrite append_String, !prefix_slash_String. reflexivity. }
  change ("/" +:+ c) with (String "/"%char c).
  rewrite splitOn_app_sep.
  apply plainName_inv in Hc as Hparts. destruct Hparts as (Hslash & _).
  rewrite (splitOn_noSlash c Hslash), cleanElems_snoc by assumption. reflexivity.
Qed.

Lemma Clean_nested (path c : string) :
  path <> "" ->
  plainName c = true ->
  Clean (Clean path +:+ "/" +:+ c) = Clean (path +:+ "/" +:+ c).
Proof.
  intros Hpath Hc. destruct (Clean_parts path) as (Hroot & Helems & Hne).
  rewrite (Clean_snoc (Clean path)), (Clean_snoc path) by assumption.
  rewrite Hroot, Helems. reflexivity.
Qed.

Lemma Clean_plainName (c : string) : plainName c = true -> Clean c = c.
Proof.
  intros Hc. rewrite Clean_renderPath.
  destruct (plainName_head c (or_introl Hc)) as (ch & rest & -> & Hch).
  rewrite prefix_slash_String, Hch.
  apply plainName_inv in Hc as Hparts. destruct Hparts as (Hslash & _).
  rewrite (splitOn_noSlash _ Hslash), cleanElems_plain by (constructor; [assumption|constructor]).
  reflexivity.
Qed.

Lemma Join_two (x c : string) :
  x <> "" -> c <> "" -> Join [x; c] = Clean (x +:+ "/" +:+ c).
Proof.
  intros Hx Hc. unfold Join. rewrite !filter_cons, filter_nil.
  rewrite (decide_True (P := x <> "")), (decide_True (P := c <> "")) by assumption.
  reflexivity.
Qed.

Lemma Join_three (a b c : string) :
  a <> "" -> b <> "" -> c <> "" ->
  Join [a; b; c] = Clean ((a +:+ "/" +:+ b) +:+ "/" +:+ c).
Proof.
  intros Ha Hb Hc. unfold Join. rewrite !filter_cons, filter_nil.
  rewrite (decide_True (P := a <> "")), (decide_True (P := b <> "")),
    (decide_True (P := c <> "")) by assumption.
  reflexivity.
Qed.

Lemma Join_empty_head (rest : list string) : Join ("" :: rest) = Join rest.
Proof.
  unfold Join. rewrite filter_cons.
  rewrite (decide_False (P := "" <> "")) by (intros H; apply H; reflexivity).
  reflexivity.
Qed.

Lemma Join_one (x : string) : x <> "" -> Join [x] = Clean x.
Proof.
  intros Hx. unfold Join. rewrite filter_cons, filter_nil.
  rewrite (decide_True (P := x <> "")) by assumption. reflexivity.
Qed.

(** The path joined in two steps is the path joined at once. *)
Lemma Join_nested (a b c : string) :
  plainName b = true ->
  plainName c = true ->
  Join [Join [a; b]; c] = Join [a; b; c].
Proof.
  intros Hb Hc.
  assert (b <> "") as Hb0.
  { apply plainName_inv in Hb as (_ & H0 & _). apply String.eqb_neq. exact H0. }
  assert (c <> "") as Hc0.
  { apply plainName_inv in Hc as (_ & H0 & _). apply String.eqb_neq. exact H0. }
  destruct (decide (a = "")) as [->|Ha].
  - rewrite !Join_empty_head, (Join_one b Hb0), (Clean_plainName b Hb). reflexivity.
  - rewrite (Join_two a b Ha Hb0), (Join_three a b c Ha Hb0 Hc0).
    destruct (Clean_parts (a +:+ "/" +:+ b)) as (_ & _ & Hne).
    rewrite (Join_two _ c Hne Hc0). apply Clean_nested; [|assumption].
    destruct a as [|ch a]; [contradiction|]. rewrite append_String. discriminate.
Qed.

Lemma allChars_impl (P Q : ascii -> bool) (s : string) :
  (forall c, P c = true -> Q c = true) -> allChars P s = true -> allChars Q s = true.
Proof.
  intros HPQ. induction s as [|c s IH]; simpl; [reflexivity|].
  intros H. apply andb_prop in H as [Hc Hs]. rewrite (HPQ c Hc), IH by assumption.
  reflexivity.
Qed.

Lemma allChars_substring (P : ascii -> bool) (s : string) (n m : nat) :
  allChars P s = true -> allChars P (String.substring n m s) = true.
Proof.
  revert n m. induction s as [|c s IH]; intros n m Hs.
  - destruct n, m; reflexivity.
  - simpl in Hs. apply andb_prop in Hs as [Hc Hs].
    destruct n as [|n]; simpl.
    + destruct m as [|m]; [reflexivity|]. simpl. rewrite Hc. apply IH. assumption.
    + apply IH. assumption.
Qed.

Lemma hexChar_hexdigit (b : byte) :
  hexChar (hexdigit (Byte.to_N b / 16)) = true
  /\ hexChar (hexdigit (Byte.to_N b mod 16)) = true.
Proof. destruct b; split; vm_compute; reflexivity. Qed.

Lemma allChars_encodeHex (bs : list byte) : allChars hexChar (encodeHex bs) = true.
Proof.
  induction bs as [|b bs IH]; [reflexivity|].
  cbn [encodeHex allChars]. destruct (hexChar_hexdigit b) as [-> ->]. exact IH.
Qed.

Lemma hexChar_not_special (c : ascii) :
  hexChar c = true ->
  negb (Ascii.eqb c "/"%char) = true /\ Ascii.eqb c "."%char = false.
Proof.
  destruct c as [[] [] [] [] [] [] [] []]; vm_compute; intros H;
    (discriminate H || (split; reflexivity)).
Qed.

Lemma allChars_hex_plainName (s : string) :
  allChars hexChar s = true -> s <> "" -> plainName s = true.
Proof.
  intros Hhex Hne. unfold plainName.
  assert (noSlash s = true) as ->.
  { apply (allChars_impl hexChar); [|assumption].
    intros c Hc. apply hexChar_not_special. assumption. }
  destruct s as [|c s]; [contradiction|].
  simpl in Hhex. apply andb_prop in Hhex as [Hc Hs].
  apply hexChar_not_special in Hc as [_ Hdot].
  assert (forall t, String.eqb (String c s) (String "."%char t) = false) as Hnot.
  { intros t. simpl. rewrite Hdot. reflexivity. }
  rewrite !Hnot. reflexivity.
Qed.

Lemma PathFormat_plainName (oid : Oid) :
  Oid_wf oid ->
  plainName (fst (PathFormat oid)) = true /\ plainName (snd (PathFormat oid)) = true.
Proof.
  intros Hwf.
  pose proof (PathFormat_fileName_length oid Hwf) as Hfile.
  assert (String.length (fst (PathFormat oid)) = 2%nat) as Hdir.
  { unfold PathFormat. simpl.
    rewrite length_substring; [reflexivity|].
    rewrite length_Oid_String by assumption. lia. }
  unfold PathFormat in *. simpl in *.
  split; apply allChars_hex_plainName;
    try (apply allChars_substring, allChars_encodeHex).
  - intros Heq. rewrite Heq in Hdir. discriminate.
  - intros Heq. rewrite Heq in Hfile. discriminate.
Qed.

(** [Write] opens the path that [Read], [ReadHeader] and [Exists]
    open. *)
Lemma Loose_Write_path (o : OdbBackendLoose) (oid : Oid) :
  Oid_wf oid ->
  Join [Join [objectsDir o; fst (PathFormat oid)]; snd (PathFormat oid)]
  = objectPath o oid.
Proof.
  intros Hwf. destruct (PathFormat_plainName oid Hwf) as [Hdir Hfile].
  unfold objectPath. destruct (PathFormat oid) as [dirName fileName].
  apply Join_nested; assumption.
Qed.

(** X26: [Write] opens the path that [Read], [ReadHeader] and [Exists]
    open for the same Oid: joining the bucket to the object directory
    first and the file name to the result gives the path that joining
    the three parts at once gives, whatever the object directory is. *)
Theorem Loose_Write_opens_the_object_path (o : OdbBackendLoose) (oid : Oid) :
  Oid_wf oid ->
  Join [Join [objectsDir o; fst (PathFormat oid)]; snd (PathFormat oid)]
  = Join [objectsDir o; fst (PathFormat oid); snd (PathFormat oid)].
Proof.
  intros Hwf. rewrite (Loose_Write_path o oid Hwf).
  unfold objectPath. destruct (PathFormat oid); reflexivity.
Qed.

Lemma Loose_Write_opens_the_object_path_witness :
  Join [Join ["/srv/git/../repo.git/objects/"; fst (PathFormat readmeOid)];
        snd (PathFormat readmeOid)]
  = Join ["/srv/git/../repo.git/objects/"; fst (PathFormat readmeOid);
          snd (PathFormat readmeOid)].
Proof.
  apply (Loose_Write_opens_the_object_path
           (looseAt "/srv/git/../repo.git/objects/") readmeOid).
  reflexivity.
Defined.

(** X27: the one case in which [Write] stores an object.  When the
    file of the object exists already and is not longer than the new
    stream, and zlib reads back what it has written, then after [Write]
    [Read] returns the type and the payload written and [ReadHeader]
    their type and length. *)
Theorem Loose_Write_existing_then_Read (z : zlib)
    (hash : list byte -> ObjectType -> result Oid) (fs : FileSystem)
    (o : OdbBackendLoose) (data : list byte) (objType : ObjectType)
    (oid : Oid) (id : nat) (old : list byte) :
  hash data objType = Ok oid ->
  Oid_wf oid ->
  fs_files fs !! objectPath o oid = Some (id, old) ->
  (length old <= length (deflate z (envelope data objType)))%nat ->
  isZlibCompressedData (deflate z (envelope data objType)) = Ok true ->
  newReaderOk z (deflate z (envelope data objType)) = true ->
  inflate z (deflate z (envelope data objType)) = envelope data objType ->
  valid_type objType = true ->
  Z.of_nat (length data) <= maxUint64 ->
  Loose_Read z (fst (Loose_Write z hash fs o data objType)) o oid
  = Ok (mkOdbObject objType data)
  /\ Loose_ReadHeader z (fst (Loose_Write z hash fs o data objType)) o oid
     = Ok (objType, Z.of_nat (length data)).
Proof.
  intros Hhash Hwf Hold Hshort Hzlib Hreader Hinflate Hvalid Hsize.
  assert (ReadFile (fst (Loose_Write z hash fs o data objType)) (objectPath o oid)
          = Ok (deflate z (envelope data objType))) as Hfile.
  { pose proof (Loose_Write_path o oid Hwf) as Hpath.
    unfold Loose_Write. rewrite Hhash. unfold objectPath in *.
    destruct (PathFormat oid) as [dirName fileName]. simpl in *.
    rewrite Hpath. unfold ReadFile, writeExisting, MkdirAll.
    rewrite mkdirElems_files, Hold. simpl. rewrite lookup_insert_eq.
    rewrite drop_ge by assumption. rewrite app_nil_r. reflexivity. }
  destruct (parseObjectHeader_envelope data objType 64 Hvalid Hsize ltac:(lia))
    as (offset & Hparse & Hdrop & Hparse64).
  unfold Loose_Read, Loose_ReadHeader, objectPath in *.
  destruct (PathFormat oid) as [dirName fileName].
  rewrite Hfile. simpl. rewrite Hzlib. simpl. rewrite Hreader, Hinflate.
  rewrite Hparse, Hparse64. simpl. rewrite Hdrop. split; reflexivity.
Qed.

Lemma Loose_Write_existing_then_Read_witness :
  Loose_Read storedZlib
    (fst (Loose_Write storedZlib readmeHash touchedStore (looseAt "objects")
            (String.list_byte_of_string "Testing a readme.txt") ObjectBlob))
    (looseAt "objects") readmeOid
  = Ok (mkOdbObject ObjectBlob (String.list_byte_of_string "Testing a readme.txt"))
  /\ Loose_ReadHeader storedZlib
       (fst (Loose_Write storedZlib readmeHash touchedStore (looseAt "objects")
               (String.list_byte_of_string "Testing a readme.txt") ObjectBlob))
       (looseAt "objects") readmeOid
     = Ok (ObjectBlob, 20).
Proof.
  apply (Loose_Write_existing_then_Read storedZlib readmeHash touchedStore
           (looseAt "objects") (String.list_byte_of_string "Testing a readme.txt")
           ObjectBlob readmeOid 3%nat []).
  - reflexivity.
  - reflexivity.
  - vm_compute. reflexivity.
  - simpl. lia.
  - vm_compute. reflexivity.
  - vm_compute. reflexivity.
  - vm_compute. reflexivity.
  - reflexivity.
  - vm_compute. discriminate.
Defined.

(** ** Compact objects of 16 bytes or more *)

Lemma parseBinaryObjectHeader_runs_off (b0 b1 : byte) (rest : list byte) :
  Z.land (byte_to_Z b0) 0x80 <> 0 ->
  parseBinaryObjectHeader (b0 :: b1 :: rest)
  = Panic (IndexOutOfRange (Z.of_nat (length (b0 :: b1 :: rest)))
             (length (b0 :: b1 :: rest))).
Proof.
  intros Hc. unfold parseBinaryObjectHeader, parseBinaryObjectHeader_fuel.
  rewrite binaryHeaderLoop_runs_off; [reflexivity|assumption|simpl; lia..].
Qed.

(** C7 (the code at the inputs where it departs from the claim): for a
    stored object in the compact layout whose payload has 16 bytes or
    more, [ReadHeader] does not return the type and size of the object,
    and [Read] does not return the object: both panic with an index out
    of range, one place past the end of the file.  The size of such an
    object does not fit the first header byte, so that byte has its top
    bit set, and the loop of [parseBinaryObjectHeader] then runs off the
    end of the content. *)
Theorem Loose_compact_object_of_16_bytes_panics (z : zlib) (fs : FileSystem)
    (o : OdbBackendLoose) (oid : Oid) (content : list byte)
    (objType : ObjectType) (payload : list byte) :
  ReadFile fs (objectPath o oid) = Ok content ->
  stored z content objType payload ->
  isZlibCompressedData content = Ok false ->
  (16 <= length payload)%nat ->
  Loose_ReadHeader z fs o oid
  = Panic (IndexOutOfRange (Z.of_nat (length content)) (length content))
  /\ Loose_Read z fs o oid
     = Panic (IndexOutOfRange (Z.of_nat (length content)) (length content)).
Proof.
  intros Hfile Hstored Hcompact Hlarge.
  assert (parseBinaryObjectHeader content
          = Panic (IndexOutOfRange (Z.of_nat (length content)) (length content)))
    as Hparse.
  { destruct Hstored as [Hzlib _ _ _|hdr body _ _ Hformat _ _]; [congruence|].
    destruct content as [|b0 [|b1 rest]]; try discriminate.
    apply parseBinaryObjectHeader_runs_off. intros Hclear.
    unfold compactHeader_format in Hformat. rewrite Hclear in Hformat. simpl in Hformat.
    injection Hformat as _ Hsize _.
    pose proof (land_15_range (byte_to_Z b0)). lia. }
  unfold Loose_ReadHeader, Loose_Read, objectPath in *.
  destruct (PathFormat oid) as [dirName fileName].
  rewrite Hfile. cbn [bind]. rewrite Hcompact. cbn [bind]. rewrite Hparse.
  split; reflexivity.
Qed.

Lemma Loose_compact_object_of_16_bytes_panics_witness :
  Loose_ReadHeader storedZlib largeCompactStore (looseAt "objects") oid_a100
  = Panic (IndexOutOfRange 25 25)
  /\ Loose_Read storedZlib largeCompactStore (looseAt "objects") oid_a100
     = Panic (IndexOutOfRange 25 25).
Proof.
  apply (Loose_compact_object_of_16_bytes_panics storedZlib largeCompactStore
           (looseAt "objects") oid_a100
           (xb5 :: x01 :: deflate storedZlib
                            (String.list_byte_of_string "Testing a readme.txt!"))
           ObjectBlob (String.list_byte_of_string "Testing a readme.txt!")).
  - vm_compute. reflexivity.
  - apply (stored_compact _ _ _ _ [xb5; x01]
             (deflate storedZlib (String.list_byte_of_string "Testing a readme.txt!")));
      reflexivity.
  - reflexivity.
  - simpl. lia.
Defined.

(** The format gives the header of that file as a blob of 21 bytes
    behind a header of two bytes, which is what the claim has
    [ReadHeader] return. *)
Example compactHeader_format_largeCompactStore :
  compactHeader_format
    (xb5 :: x01 :: deflate storedZlib (String.list_byte_of_string "Testing a readme.txt!"))
  = Some (ObjectBlob, 21, 2%nat).
Proof. reflexivity. Qed.

(** ** The order of registration

    The one call of [addBackendInternal] in the sources passes
    [GIT_LOOSE_PRIORITY], so every list the code builds holds backends
    of one priority, and [Less] is false on every pair of its elements.
    What the list then looks like depends on what [sort.Sort] does on
    such a list.  The two sorts written down above make no exchange
    there. *)

Lemma fold_left_fixed {A I : Type} (f : A -> I -> A) (a : A) (indices : list I) :
  (forall i, f a i = a) -> fold_left f indices a = a.
Proof.
  intros Hfix. induction indices as [|i indices IH]; simpl; [reflexivity|].
  rewrite Hfix. exact IH.
Qed.

Lemma lessAt_no_less {A : Type} (less : A -> A -> bool) (l : list A) (i j : nat) :
  (forall x y, x ∈ l -> y ∈ l -> less x y = false) ->
  lessAt less l i j = false.
Proof.
  intros Hno. unfold lessAt.
  destruct (l !! i) as [x|] eqn:Hx; [|reflexivity].
  destruct (l !! j) as [y|] eqn:Hy; [|reflexivity].
  apply Hno; eapply list_elem_of_lookup_2; eassumption.
Qed.

Lemma sinkLoop_no_less {A : Type} (less : A -> A -> bool) (a : nat) (l : list A) (j : nat) :
  (forall x y, x ∈ l -> y ∈ l -> less x y = false) ->
  sinkLoop less a l j = l.
Proof.
  intros Hno. destruct j as [|j]; simpl; [reflexivity|].
  rewrite lessAt_no_less by assumption. rewrite andb_false_r. reflexivity.
Qed.

Lemma insertionSort_no_less {A : Type} (less : A -> A -> bool) (l : list A) (a b : nat) :
  (forall x y, x ∈ l -> y ∈ l -> less x y = false) ->
  insertionSort less l a b = l.
Proof.
  intros Hno. unfold insertionSort. apply fold_left_fixed.
  intros i. apply sinkLoop_no_less. assumption.
Qed.


Lemma ascendingRun_no_less {A : Type} (less : A -> A -> bool) (l : list A)
    (fuel i b : nat) :
  (forall x y, x ∈ l -> y ∈ l -> less x y = false) ->
  (i <= b)%nat ->
  (b - i < fuel)%nat ->
  ascendingRun less fuel l i b = b.
Proof.
  intros Hno. revert i. induction fuel as [|fuel IH]; intros i Hle Hfuel; [lia|].
  simpl. rewrite lessAt_no_less by assumption. simpl.
  destruct (Nat.ltb_spec i b) as [Hlt|Hge]; simpl; [|lia].
  apply IH; lia.
Qed.

(** [sort.Sort] of Go 1.19 and later, as far as it is written down. *)
Lemma sortPdq119_no_less (A : Type) (less : A -> A -> bool) (l : list A) :
  (forall x y, x ∈ l -> y ∈ l -> less x y = false) ->
  sortPdq119 A less l = l.
Proof.
  intros Hno. unfold sortPdq119, sortPdq.
  destruct (length l <=? 1)%nat; [reflexivity|].
  cbn [pdqsort]. rewrite Nat.sub_0_r.
  destruct (length l <=? 12)%nat eqn:Hshort.
  { simpl. rewrite insertionSort_no_less by assumption. reflexivity. }
  apply Nat.leb_gt in Hshort.
  cbn [Nat.eqb negb]. unfold choosePivot. rewrite Nat.sub_0_r.
  destruct (8 <=? length l)%nat; [|].
  - destruct (50 <=? length l)%nat; [reflexivity|].
    unfold median, order2. rewrite !lessAt_no_less by assumption.
    cbn [Nat.eqb andb]. unfold partialInsertionSort.
    rewrite ascendingRun_no_less by (assumption || lia).
    rewrite Nat.eqb_refl. reflexivity.
  - cbn [andb]. unfold partialInsertionSort.
    rewrite ascendingRun_no_less by (assumption || lia).
    rewrite Nat.eqb_refl. reflexivity.
Qed.


Section OnePriority.

Variable z : zlib.
Variable sort_Sort : forall A : Type, (A -> A -> bool) -> list A -> list A.
Hypothesis sort_Sort_no_less :
  forall (A : Type) (less : A -> A -> bool) (l : list A),
    (forall x y, x ∈ l -> y ∈ l -> less x y = false) -> sort_Sort A less l = l.




End OnePriority.



(** From depth 3 on the chain the four directories down to depth 6 are
    registered, behind the backend that was there, in the order in
    which the alternates files name them; the same holds with the sort
    of Go 1.19, and for twenty registrations at the loose priority. *)
Example AddDefaultBackends_chainStore_order :
  objectsDir <$> backends (fst (AddDefaultBackends storedZlib sortShort118 chainStore
                                  (mkOdb [Loose_InitBackend (looseAt "objects") 1 false
                                            100%nat])
                                  "c" true 3))
  = ["objects"; "c"; "c/a"; "c/a/a"; "c/a/a/a"]
  /\ objectsDir <$> backends (fst (AddDefaultBackends storedZlib sortPdq119 chainStore
                                     (mkOdb [Loose_InitBackend (looseAt "objects") 1 false
                                               100%nat])
                                     "c" true 3))
     = ["objects"; "c"; "c/a"; "c/a/a"; "c/a/a/a"]
  /\ objectsDir <$> backends (registerAll (H := OdbBackendLoose_backend storedZlib)
                                sortPdq119 (mkOdb []) (looseRegistrations 20))
     = objectsDir <$> map (initialised (H := OdbBackendLoose_backend storedZlib))
                          (looseRegistrations 20).
Proof. repeat split; vm_compute; reflexivity. Qed.
